(** * pump_swap_market_cap: a shallow embedding of [pump_swap_mc.py]

    The program locates the most liquid PumpSwap pool of a token, decodes the
    pool record, reads the two reserve balances, asks an HTTP oracle for the
    SOL price and combines the numbers into a market capitalisation.

    The embedding follows the source method by method.  Remote calls (the
    Solana RPC node and the price oracle) are operations on an abstract
    world that is threaded through every call; Python exceptions are an
    explicit result type; Python floats are IEEE binary64 values computed
    with the executable specification of [SpecFloat]. *)

From Stdlib Require Import ZArith NArith List String Ascii Strings.Byte Bool Lia.
From Stdlib Require Import Floats.SpecFloat.
Import ListNotations.

Local Open Scope string_scope.
Local Open Scope list_scope.
Local Open Scope Z_scope.

(** ** Python runtime: exceptions and results *)

(** What the program can see raised.  All but the last derive from
    [Exception]; [PanicException], raised by [solders] when its Rust code
    panics, derives from [BaseException] only. *)
Inductive exn : Type :=
| ZeroDivisionError (msg : string)
| OverflowError (msg : string)
| TypeError (msg : string)
| ValueError (msg : string)
| KeyError (key : string)
| IndexError
| AttributeError
| RuntimeError (msg : string)
| HTTPError (status_code : Z)
| RequestException
| JSONDecodeError
| RPCException
| StreamError
| PanicException (msg : string).

Inductive result (A : Type) : Type :=
| Ok (a : A)
| Raise (e : exn).
Arguments Ok {A} a.
Arguments Raise {A} e.

(** What an [except Exception] clause catches. *)
Definition is_exception (e : exn) : bool :=
  match e with
  | PanicException _ => false
  | _ => true
  end.

(** Arithmetic faults raised by the interpreter itself, as opposed to errors
    the program raises on purpose. *)
Definition is_arithmetic_fault (e : exn) : bool :=
  match e with
  | ZeroDivisionError _ | OverflowError _ => true
  | _ => false
  end.

(** ** Python floats (IEEE binary64, round to nearest even) *)

Module PyFloat.

Definition prec : Z := 53.
Definition emax : Z := 1024.

(** A float is a signed zero, a signed infinity, a NaN or a finite
    [mantissa * 2 ^ exponent].  NaNs carry no payload here. *)
Definition float : Type := spec_float.

Definition is_zero (x : float) : bool :=
  match x with S754_zero _ => true | _ => false end.

(** The exact integer [z], as an unrounded operand. *)
Definition exact (z : Z) : spec_float :=
  match z with
  | Z0 => S754_zero false
  | Zpos p => S754_finite false p 0
  | Zneg p => S754_finite true p 0
  end.

(** [float(z)] for an [int]: correctly rounded, [OverflowError] when the
    rounded value does not fit. *)
Definition of_int (z : Z) : result float :=
  match binary_normalize prec emax z 0 false with
  | S754_infinity _ => Raise (OverflowError "int too large to convert to float")
  | f => Ok f
  end.

(** [a / b] on two [int]s: the correctly rounded quotient. *)
Definition int_truediv (a b : Z) : result float :=
  if b =? 0 then Raise (ZeroDivisionError "division by zero")
  else match SFdiv prec emax (exact a) (exact b) with
       | S754_infinity _ =>
           Raise (OverflowError "integer division result too large for a float")
       | f => Ok f
       end.

(** [a / b] on two floats: Python tests the divisor before dividing. *)
Definition truediv (a b : float) : result float :=
  if is_zero b then Raise (ZeroDivisionError "float division by zero")
  else Ok (SFdiv prec emax a b).

(** [a * b] on two floats: never raises. *)
Definition mul (a b : float) : float := SFmul prec emax a b.

End PyFloat.

Abbreviation float := PyFloat.float.

(** The Python values [total_supply] can hold: the constructor argument is an
    optional [int], the RPC's [ui_amount] an optional float. *)
Inductive pyval : Type :=
| PyNone
| PyInt (z : Z)
| PyFlt (f : float).

(** [x * v] with a float on the left. *)
Definition float_mul_pyval (x : float) (v : pyval) : result float :=
  match v with
  | PyNone =>
      Raise (TypeError "unsupported operand type(s) for *: 'float' and 'NoneType'")
  | PyInt z =>
      match PyFloat.of_int z with
      | Ok f => Ok (PyFloat.mul x f)
      | Raise e => Raise e
      end
  | PyFlt f => Ok (PyFloat.mul x f)
  end.

(** [10 ** d] for an unsigned precision [d]: an exact [int].  Precisions are
    unsigned throughout (a mint stores its decimals in one unsigned byte); a
    negative exponent would make [10 ** d] a float computed by the platform's
    [pow]. *)
Definition pow10 (d : N) : Z := 10 ^ Z.of_N d.


(** ** Byte strings *)

Definition byte_to_Z (b : byte) : Z := Z.of_N (Byte.to_N b).

Definition byte_of_Z (z : Z) : byte :=
  match Byte.of_N (Z.to_N (z mod 256)) with
  | Some b => b
  | None => x00
  end.

(** [data[lo:hi]] for [0 <= lo <= hi]; like Python, a slice never fails and
    is cut short at the end of the data. *)
Definition slice (lo hi : nat) (data : list byte) : list byte :=
  firstn (hi - lo) (skipn lo data).

(** Little-endian unsigned integers, as [construct]'s [Int8ul], [Int16ul]
    and [Int64ul] read and write them. *)
Fixpoint le_decode (bs : list byte) : Z :=
  match bs with
  | [] => 0
  | b :: rest => byte_to_Z b + 256 * le_decode rest
  end.

Fixpoint le_encode (width : nat) (z : Z) : list byte :=
  match width with
  | O => []
  | S w => byte_of_Z z :: le_encode w (z / 256)
  end.

(** ** Base-58 text form of addresses *)

Module Base58.

Definition alphabet : list ascii :=
  list_ascii_of_string
    "123456789ABCDEFGHJKLMNPQRSTUVWXYZabcdefghijkmnopqrstuvwxyz".

Definition digit_char (d : Z) : ascii := nth (Z.to_nat d) alphabet "1"%char.

Fixpoint index_in (c : ascii) (l : list ascii) (i : Z) : option Z :=
  match l with
  | [] => None
  | a :: rest => if Ascii.eqb a c then Some i else index_in c rest (i + 1)
  end.

Definition char_digit (c : ascii) : option Z := index_in c alphabet 0.

(** Digits of [n] in [base], most significant first ([[]] for 0). *)
Fixpoint digits_fuel (fuel : nat) (base n : Z) (acc : list Z) : list Z :=
  match fuel with
  | O => acc
  | S k =>
      if n <=? 0 then acc
      else digits_fuel k base (n / base) (n mod base :: acc)
  end.

Definition digits (base n : Z) : list Z :=
  digits_fuel (S (Z.to_nat (Z.log2 n))) base n [].

Definition value (base : Z) (ds : list Z) : Z :=
  fold_left (fun acc d => acc * base + d) ds 0.

Fixpoint leading {A} (is_zero : A -> bool) (l : list A) : nat :=
  match l with
  | a :: rest => if is_zero a then S (leading is_zero rest) else O
  | [] => O
  end.

Definition encode (bs : list byte) : string :=
  let zeros := leading (fun b => byte_to_Z b =? 0) bs in
  string_of_list_ascii
    (repeat "1"%char zeros
     ++ map digit_char (digits 58 (value 256 (map byte_to_Z bs)))).

Fixpoint all_some {A} (l : list (option A)) : option (list A) :=
  match l with
  | [] => Some []
  | Some a :: rest =>
      match all_some rest with Some r => Some (a :: r) | None => None end
  | None :: _ => None
  end.

Definition decode (s : string) : option (list byte) :=
  match all_some (map char_digit (list_ascii_of_string s)) with
  | None => None
  | Some ds =>
      let zeros := leading (fun d => d =? 0) ds in
      Some (repeat x00 zeros ++ map byte_of_Z (digits 256 (value 58 ds)))
  end.

End Base58.

(** ** Addresses ([solders.pubkey.Pubkey]) *)

Module Pubkey.

(** A public key is its 32 bytes; the constructors below check the length. *)
Definition t : Type := list byte.

Definition slice_panic : exn :=
  PanicException "called `Result::unwrap()` on an `Err` value: TryFromSliceError(())".

Definition LENGTH : nat := 32.
Definition MAX_BASE58_LEN : nat := 44.

(** [Pubkey.from_bytes(raw)]: the conversion of a slice of another length
    panics. *)
Definition from_bytes (raw : list byte) : result t :=
  if Nat.eqb (List.length raw) LENGTH then Ok raw
  else Raise slice_panic.

Definition from_string (s : string) : result t :=
  if Nat.ltb MAX_BASE58_LEN (String.length s)
  then Raise (ValueError "String is the wrong size")
  else match Base58.decode s with
       | None => Raise (ValueError "Invalid Base58 string")
       | Some raw =>
           if Nat.eqb (List.length raw) LENGTH then Ok raw
           else Raise (ValueError "String is the wrong size")
       end.

(** [str(pubkey)] *)
Definition to_string (k : t) : string := Base58.encode k.

End Pubkey.

Abbreviation Pubkey := Pubkey.t.

(** ** The [construct] declarations the program uses *)

Module Construct.

Inductive construct : Type :=
| Padding (n : nat)
| Int8ul
| Int16ul
| Int64ul
| Bytes (n : nat).

Inductive value : Type :=
| VNone
| VInt (z : Z)
| VBytes (bs : list byte).

(** ["name" / subcon], or an anonymous subcon. *)
Definition field : Type := option string * construct.
Definition Struct : Type := list field.

(** A parsed [Container]: the named fields in declaration order. *)
Definition Container : Type := list (string * value).

Definition sizeof (c : construct) : nat :=
  match c with
  | Padding n => n
  | Int8ul => 1
  | Int16ul => 2
  | Int64ul => 8
  | Bytes n => n
  end.

Definition stream_read (n : nat) (stream : list byte)
  : result (list byte * list byte) :=
  if Nat.leb n (List.length stream)
  then Ok (firstn n stream, skipn n stream)
  else Raise StreamError.

Definition interpret (c : construct) (bs : list byte) : value :=
  match c with
  | Padding _ => VNone
  | Int8ul | Int16ul | Int64ul => VInt (le_decode bs)
  | Bytes _ => VBytes bs
  end.

Definition parse_one (c : construct) (stream : list byte)
  : result (value * list byte) :=
  match stream_read (sizeof c) stream with
  | Ok (bs, rest) => Ok (interpret c bs, rest)
  | Raise e => Raise e
  end.

(** [Struct.parse]: the fields are read in order from the front of the
    data; bytes after the last field are ignored. *)
Fixpoint parse (s : Struct) (stream : list byte) : result Container :=
  match s with
  | [] => Ok []
  | (name, c) :: fields =>
      match parse_one c stream with
      | Raise e => Raise e
      | Ok (v, rest) =>
          match parse fields rest with
          | Raise e => Raise e
          | Ok ctx =>
              Ok match name with
                 | Some n => (n, v) :: ctx
                 | None => ctx
                 end
          end
      end
  end.

(** Attribute access on a container. *)
Fixpoint getattr (ctx : Container) (name : string) : result value :=
  match ctx with
  | [] => Raise AttributeError
  | (n, v) :: rest => if String.eqb n name then Ok v else getattr rest name
  end.

End Construct.

(** ** JSON values and HTTP responses ([requests]) *)

#[local] Set Warnings "-register-all".

Inductive json : Type :=
| JNull
| JBool (b : bool)
| JInt (z : Z)
| JFloat (f : float)
| JStr (s : string)
| JArr (items : list json)
| JObj (members : list (string * json)).

(** The members of a decoded object are a [dict]: keys are distinct, and a
    lookup returns the value stored under the key. *)
Fixpoint dict_get (members : list (string * json)) (key : string) : option json :=
  match members with
  | [] => None
  | (k, v) :: rest => if String.eqb k key then Some v else dict_get rest key
  end.

(** [v[key]] with a string key. *)
Definition subscript (v : json) (key : string) : result json :=
  match v with
  | JObj members =>
      match dict_get members key with
      | Some x => Ok x
      | None => Raise (KeyError key)
      end
  | JArr _ => Raise (TypeError "list indices must be integers or slices, not str")
  | JStr _ => Raise (TypeError "string indices must be integers, not 'str'")
  | _ => Raise (TypeError "object is not subscriptable")
  end.

Record Response : Type := {
  status_code : Z;
  (** the decoded body, [None] when the body is not JSON *)
  body : option json
}.

(** [Response.raise_for_status]: an error for the 4xx and 5xx classes. *)
Definition raise_for_status (r : Response) : result unit :=
  if (400 <=? status_code r) && (status_code r <? 600)
  then Raise (HTTPError (status_code r))
  else Ok tt.

(** [Response.json] *)
Definition Response_json (r : Response) : result json :=
  match body r with
  | Some j => Ok j
  | None => Raise JSONDecodeError
  end.

(** ** Computations over the remote world *)

Definition M (W A : Type) : Type := W -> result A * W.

Definition ret {W A} (a : A) : M W A := fun w => (Ok a, w).

Definition lift {W A} (r : result A) : M W A := fun w => (r, w).

Definition bind {W A B} (m : M W A) (k : A -> M W B) : M W B :=
  fun w =>
    match m w with
    | (Ok a, w') => k a w'
    | (Raise e, w') => (Raise e, w')
    end.

(** [try: body / except Exception: handler]: an [Exception] runs the handler
    in the world the body left, anything else goes on up. *)
Definition try_except {W A} (body handler : M W A) : M W A :=
  fun w =>
    match body w with
    | (Ok a, w') => (Ok a, w')
    | (Raise e, w') => if is_exception e then handler w' else (Raise e, w')
    end.

Declare Scope py_scope.
Delimit Scope py_scope with py.
Notation "x <- m ;; k" := (bind m (fun x => k))
  (at level 61, m at next level, right associativity) : py_scope.
Notation "' pat <- m ;; k" := (bind m (fun x => match x with pat => k end))
  (at level 61, pat pattern, m at next level, right associativity) : py_scope.

Record MemcmpOpts : Type := {
  offset : nat;
  bytes : string
}.

(** An element of [get_program_accounts(...).value]. *)
Record KeyedAccount : Type := {
  pubkey : Pubkey;
  account_data : list byte
}.

(** The remote collaborators.  Each operation stands for one call expression
    of the source together with the attribute path read from its response,
    and raises when any step of that expression raises. *)
Class Remote (W : Type) : Type := {
  (** [client.get_token_supply(mint).value.ui_amount] *)
  get_token_supply : Pubkey -> M W pyval;
  (** [client.get_program_accounts(program, filters=filters)], then [.value] *)
  get_program_accounts : Pubkey -> list MemcmpOpts -> M W (list KeyedAccount);
  (** [int(client.get_token_account_balance(acc).value.amount)], a Python
      [int]; on chain the amount is unsigned *)
  get_token_account_balance : Pubkey -> M W Z;
  (** [client.get_account_info_json_parsed(key, commitment=Processed).value.data]
      of a program account: its raw bytes *)
  get_account_data : Pubkey -> M W (list byte);
  (** [client.get_account_info_json_parsed(mint, commitment=Processed)
       .value.data.parsed["info"]["decimals"]]; a mint stores an unsigned
      precision *)
  get_mint_decimals : Pubkey -> M W N;
  (** [client.get_multiple_accounts_json_parsed(accts, commitment=Processed).value];
      entry [i] is what [int(resp[i].data.parsed["info"]["tokenAmount"]["amount"])]
      evaluates to *)
  get_multiple_accounts_amounts : list Pubkey -> M W (list (result Z));
  (** [requests.get(url)] *)
  requests_get : string -> M W Response;
  (** [float(s)] on a string: [None] when Python raises [ValueError] *)
  float_of_str : string -> option float
}.

(** ** The program *)

Record PoolKeys : Type := {
  amm : Pubkey;
  base_mint : Pubkey;
  quote_mint : Pubkey;
  pool_base_token_account : Pubkey;
  pool_quote_token_account : Pubkey;
  creator : Pubkey
}.

Record MarketCapData : Type := {
  token_price_sol : float;
  token_price_usd : float;
  market_cap_usd : float
}.

(** The attributes of a [PumpSwapMarketCap] object once [__init__] is done.
    [self.client] is the [Remote] instance.  Methods that [__init__] calls
    while the object is being built take the attributes they read as
    arguments. *)
Record PumpSwapMarketCap : Type := {
  mint_str : string;
  mint_pubkey : Pubkey;
  quote_decimals : N;
  total_supply : pyval;
  pool_id : string;
  pool_keys : PoolKeys;
  token_decimals : N
}.

Definition unwrap_pubkey (r : result Pubkey) : Pubkey :=
  match r with Ok k => k | Raise _ => [] end.

Definition PF_AMM_str : string := "pAMMBay6oceH9fJKBRHGP5D4bD4sWpmSwMn52FMfXEA".
Definition WSOL_str : string := "So11111111111111111111111111111111111111112".

Definition PF_AMM : Pubkey :=
  Eval vm_compute in unwrap_pubkey (Pubkey.from_string PF_AMM_str).
Definition WSOL : Pubkey :=
  Eval vm_compute in unwrap_pubkey (Pubkey.from_string WSOL_str).

Import Construct.

Definition POOL_LAYOUT : Struct :=
  [ (None, Padding 8);
    (Some "pool_bump", Int8ul);
    (Some "index", Int16ul);
    (Some "creator", Bytes 32);
    (Some "base_mint", Bytes 32);
    (Some "quote_mint", Bytes 32);
    (Some "lp_mint", Bytes 32);
    (Some "pool_base_token_account", Bytes 32);
    (Some "pool_quote_token_account", Bytes 32);
    (Some "lp_supply", Int64ul);
    (Some "coin_creator", Bytes 32) ].

Definition DIA_URL : string :=
  "https://api.diadata.org/v1/assetQuotation/Solana/0x0000000000000000000000000000000000000000".

(** [Pubkey.from_bytes(decoded.<name>)] *)
Definition pubkey_attr (decoded : Container) (name : string) : result Pubkey :=
  match getattr decoded name with
  | Ok (VBytes bs) => Pubkey.from_bytes bs
  | Ok _ => Raise (TypeError "expected bytes")
  | Raise e => Raise e
  end.

(** The [PoolKeys(...)] expression of [_fetch_pool_keys]. *)
Definition pool_keys_of (amm : Pubkey) (decoded : Container) : result PoolKeys :=
  match pubkey_attr decoded "base_mint" with
  | Raise e => Raise e
  | Ok bm =>
  match pubkey_attr decoded "quote_mint" with
  | Raise e => Raise e
  | Ok qm =>
  match pubkey_attr decoded "pool_base_token_account" with
  | Raise e => Raise e
  | Ok ba =>
  match pubkey_attr decoded "pool_quote_token_account" with
  | Raise e => Raise e
  | Ok qa =>
  match pubkey_attr decoded "coin_creator" with
  | Raise e => Raise e
  | Ok cc =>
      Ok {| amm := amm; base_mint := bm; quote_mint := qm;
            pool_base_token_account := ba; pool_quote_token_account := qa;
            creator := cc |}
  end end end end end.

(** [float(v)] on a decoded JSON value. *)
Definition py_float (parse_str : string -> option float) (v : json) : result float :=
  match v with
  | JFloat f => Ok f
  | JInt z => PyFloat.of_int z
  | JBool b => PyFloat.of_int (if b then 1 else 0)
  | JStr s =>
      match parse_str s with
      | Some f => Ok f
      | None => Raise (ValueError "could not convert string to float")
      end
  | JNull | JArr _ | JObj _ =>
      Raise (TypeError "float() argument must be a string or a real number")
  end.

(** [resp[i]] on the list of parsed amounts. *)
Definition amount_at (resp : list (result Z)) (i : nat) : result Z :=
  match nth_error resp i with
  | Some r => r
  | None => Raise IndexError
  end.

Section Program.

Context {W : Type} {remote : Remote W}.

Local Open Scope py_scope.

(** *** [_fetch_pool_from_rpc] *)

(** The loop state: [(best, max_liq)]. *)
Definition best_state : Type := option string * Z.

(** The [try] block of the inner loop, up to the two balances. *)
Definition read_candidate (acct : KeyedAccount) : M W (Z * Z) :=
  let data := account_data acct in
  base_acc <- lift (Pubkey.from_bytes (slice 139 171 data)) ;;
  quote_acc <- lift (Pubkey.from_bytes (slice 171 203 data)) ;;
  bal_base <- get_token_account_balance base_acc ;;
  bal_quote <- get_token_account_balance quote_acc ;;
  ret (bal_base, bal_quote).

(** One iteration of [for acct in resp.value]. *)
Definition visit_candidate (acct : KeyedAccount) (st : best_state) (w : W)
  : result best_state * W :=
  match read_candidate acct w with
  | (Raise e, w') =>
      if is_exception e
      then (Ok st, w')                           (* except Exception: continue *)
      else (Raise e, w')
  | (Ok (bal_base, bal_quote), w') =>
      let liq := bal_base * bal_quote in
      let '(best, max_liq) := st in
      if liq >? max_liq
      then (Ok (Some (Pubkey.to_string (pubkey acct)), liq), w')
      else (Ok st, w')
  end.

Fixpoint scan_accounts (accts : list KeyedAccount) (st : best_state) (w : W)
  : result best_state * W :=
  match accts with
  | [] => (Ok st, w)
  | acct :: rest =>
      match visit_candidate acct st w with
      | (Ok st', w') => scan_accounts rest st' w'
      | (Raise e, w') => (Raise e, w')
      end
  end.

(** [for filters in filters_list] *)
Fixpoint scan_filters (filters_list : list (list MemcmpOpts))
         (st : best_state) (w : W) : result best_state * W :=
  match filters_list with
  | [] => (Ok st, w)
  | filters :: rest =>
      match get_program_accounts PF_AMM filters w with
      | (Raise e, w') =>
          if is_exception e
          then scan_filters rest st w'           (* except Exception: continue *)
          else (Raise e, w')
      | (Ok accts, w') =>
          match scan_accounts accts st w' with
          | (Ok st', w'') => scan_filters rest st' w''
          | (Raise e, w'') => (Raise e, w'')
          end
      end
  end.

Definition filters_list (mint_str : string) : list (list MemcmpOpts) :=
  let base_str := mint_str in
  let quote_str := Pubkey.to_string WSOL in
  [ [ {| offset := 43; bytes := base_str |};
      {| offset := 75; bytes := quote_str |} ];
    [ {| offset := 43; bytes := quote_str |};
      {| offset := 75; bytes := base_str |} ] ].

Definition _fetch_pool_from_rpc (mint_str : string) : M W (option string) :=
  '(best, _) <- scan_filters (filters_list mint_str) (None, 0) ;;
  ret best.

(** *** [_fetch_pool_keys] *)

Definition _fetch_pool_keys (pool_id : string) : M W (option PoolKeys) :=
  try_except
    (amm <- lift (Pubkey.from_string pool_id) ;;
     data <- get_account_data amm ;;
     decoded <- lift (parse POOL_LAYOUT data) ;;
     keys <- lift (pool_keys_of amm decoded) ;;
     ret (Some keys))
    (ret None)                                   (* except Exception: return None *).

(** *** [__init__]

    The [print] of the pool that is used is not modelled. *)

(** The [if total_supply is None ... else ...] block. *)
Definition resolve_total_supply (mint_pubkey : Pubkey) (total_supply : pyval)
  : M W pyval :=
  match total_supply with
  | PyNone => get_token_supply mint_pubkey
  | v => ret v
  end.

Definition __init__ (rpc_url mint : string) (quote_decimals : N)
           (total_supply : pyval) : M W PumpSwapMarketCap :=
  mint_pubkey <- lift (Pubkey.from_string mint) ;;
  total_supply <- resolve_total_supply mint_pubkey total_supply ;;
  pool_id <- _fetch_pool_from_rpc mint ;;
  match pool_id with
  | None => lift (Raise (RuntimeError ("No pool found for mint " ++ mint)))
  | Some "" => lift (Raise (RuntimeError ("No pool found for mint " ++ mint)))
  | Some pool_id =>
      pool_keys <- _fetch_pool_keys pool_id ;;
      match pool_keys with
      | None =>
          lift (Raise (RuntimeError ("Failed to fetch pool keys for " ++ pool_id)))
      | Some pool_keys =>
          token_decimals <- get_mint_decimals mint_pubkey ;;
          ret {| mint_str := mint; mint_pubkey := mint_pubkey;
                 quote_decimals := quote_decimals;
                 total_supply := total_supply;
                 pool_id := pool_id; pool_keys := pool_keys;
                 token_decimals := token_decimals |}
      end
  end.

(** *** [_get_pool_reserves] *)

Definition _get_pool_reserves (self : PumpSwapMarketCap) : M W (Z * Z) :=
  let keys := pool_keys self in
  let accts := [pool_base_token_account keys; pool_quote_token_account keys] in
  resp <- get_multiple_accounts_amounts accts ;;
  base_amt <- lift (amount_at resp 0) ;;
  quote_amt <- lift (amount_at resp 1) ;;
  ret (base_amt, quote_amt).

(** *** [_get_sol_price_usd] *)

Definition _get_sol_price_usd : M W float :=
  resp <- requests_get DIA_URL ;;
  _ <- lift (raise_for_status resp) ;;
  decoded <- lift (Response_json resp) ;;
  price <- lift (subscript decoded "Price") ;;
  lift (py_float float_of_str price).

(** *** [get_market_cap] *)

Definition get_market_cap (self : PumpSwapMarketCap) : M W MarketCapData :=
  '(base_reserve, quote_reserve) <- _get_pool_reserves self ;;
  token_amt <- lift (PyFloat.int_truediv base_reserve (pow10 (token_decimals self))) ;;
  sol_amt <- lift (PyFloat.int_truediv quote_reserve (pow10 (quote_decimals self))) ;;
  token_price_sol <- lift (PyFloat.truediv sol_amt token_amt) ;;
  sol_usd <- _get_sol_price_usd ;;
  let token_price_usd := PyFloat.mul token_price_sol sol_usd in
  market_cap_usd <- lift (float_mul_pyval token_price_usd (total_supply self)) ;;
  ret {| token_price_sol := token_price_sol;
         token_price_usd := token_price_usd;
         market_cap_usd := market_cap_usd |}.

(** *** The script body

    The two literals of the script are parameters here, and the three
    [print] lines show the fields of the returned record. *)

Definition main (rpc_url mint_str : string) : M W MarketCapData :=
  pump_swap_mc <- __init__ rpc_url mint_str 9 PyNone ;;
  get_market_cap pump_swap_mc.

End Program.

(** ** Specification vocabulary *)

(** *** Pool location: the candidates that were scored *)

Record Scored : Type := {
  cand_key : Pubkey;
  cand_base : Z;
  cand_quote : Z
}.

Definition liquidity (c : Scored) : Z := cand_base c * cand_quote c.

(** Token balances are unsigned amounts. *)
Definition unsigned_amounts (tr : list Scored) : Prop :=
  Forall (fun c => 0 <= cand_base c /\ 0 <= cand_quote c) tr.

(** [c], at position [k] of the enumeration [tr], is the first candidate that
    reaches the maximum liquidity. *)
Definition first_maximum (tr : list Scored) (k : nat) (c : Scored) : Prop :=
  nth_error tr k = Some c
  /\ (forall c', In c' tr -> liquidity c' <= liquidity c)
  /\ (forall k' c', (k' < k)%nat -> nth_error tr k' = Some c' ->
                    liquidity c' < liquidity c).

Section Enumeration.

Context {W : Type} {remote : Remote W}.

(** The successfully scored candidates of one response, in the order of
    the response, with the world each read leaves behind.  A candidate whose
    scoring raises an [Exception] is left out; anything else that is raised
    ends the enumeration. *)
Fixpoint scored_accounts (accts : list KeyedAccount) (w : W)
  : result (list Scored) * W :=
  match accts with
  | [] => (Ok [], w)
  | acct :: rest =>
      match read_candidate acct w with
      | (Raise e, w') =>
          if is_exception e then scored_accounts rest w' else (Raise e, w')
      | (Ok (b, q), w') =>
          match scored_accounts rest w' with
          | (Ok tr, w'') =>
              (Ok ({| cand_key := pubkey acct; cand_base := b; cand_quote := q |}
                     :: tr), w'')
          | (Raise e, w'') => (Raise e, w'')
          end
      end
  end.

Fixpoint scored_filters (fl : list (list MemcmpOpts)) (w : W)
  : result (list Scored) * W :=
  match fl with
  | [] => (Ok [], w)
  | filters :: rest =>
      match get_program_accounts PF_AMM filters w with
      | (Raise e, w') =>
          if is_exception e then scored_filters rest w' else (Raise e, w')
      | (Ok accts, w') =>
          match scored_accounts accts w' with
          | (Raise e, w1) => (Raise e, w1)
          | (Ok tr1, w1) =>
              match scored_filters rest w1 with
              | (Ok tr2, w2) => (Ok (tr1 ++ tr2), w2)
              | (Raise e, w2) => (Raise e, w2)
              end
          end
      end
  end.

(** All successfully scored candidates of a run of the locator that goes
    through both filter sets, in enumeration order. *)
Definition scored_candidates (mint_str : string) (w : W) : result (list Scored) :=
  fst (scored_filters (filters_list mint_str) w).

(** The comparison at the end of the loop body. *)
Definition keep_best (st : best_state) (c : Scored) : best_state :=
  if liquidity c >? snd st
  then (Some (Pubkey.to_string (cand_key c)), liquidity c)
  else st.

End Enumeration.

(** Selection of the first of the tied candidates, whatever the maximum. *)
Definition first_of_tied_always_selected : Prop :=
  forall (W : Type) (remote : Remote W) (mint : string) (w : W)
         (tr : list Scored) (k k2 : nat) (c c2 : Scored),
    scored_candidates mint w = Ok tr ->
    first_maximum tr k c ->
    (k < k2)%nat -> nth_error tr k2 = Some c2 -> liquidity c2 = liquidity c ->
    fst (_fetch_pool_from_rpc mint w) = Ok (Some (Pubkey.to_string (cand_key c))).

(** *** The calculator as the specification words it

    Five steps on six inputs: the two amounts, their ratio, the price in USD
    and the market cap. *)

Definition market_cap_formula (base_reserve quote_reserve : Z)
           (token_decimals quote_decimals : N) (oracle_price : float)
           (supply : pyval) : result MarketCapData :=
  match PyFloat.int_truediv base_reserve (pow10 token_decimals) with
  | Raise e => Raise e
  | Ok token_amount =>
  match PyFloat.int_truediv quote_reserve (pow10 quote_decimals) with
  | Raise e => Raise e
  | Ok quote_amount =>
  match PyFloat.truediv quote_amount token_amount with
  | Raise e => Raise e
  | Ok price_in_quote =>
      let price_in_usd := PyFloat.mul price_in_quote oracle_price in
      match float_mul_pyval price_in_usd supply with
      | Raise e => Raise e
      | Ok market_cap =>
          Ok {| token_price_sol := price_in_quote;
                token_price_usd := price_in_usd;
                market_cap_usd := market_cap |}
      end
  end end end.

(** The float nearest to the integer [z]; exact up to [2 ^ 53]. *)
Definition flt (z : Z) : float := binary_normalize PyFloat.prec PyFloat.emax z 0 false.

(** *** The oracle's answer *)

(** The decoded body is an object with a ["Price"] member [v]. *)
Definition has_price (resp : Response) (v : json) : Prop :=
  exists members,
    body resp = Some (JObj members) /\ dict_get members "Price" = Some v.

Definition error_status (resp : Response) : Prop :=
  400 <= status_code resp < 600.

Definition is_number (v : json) : bool :=
  match v with JInt _ | JFloat _ => true | _ => false end.

(** Every answer outside the 2xx class, and every answer without a numeric
    ["Price"], makes the price fetch raise. *)
Definition bad_answer_always_raises : Prop :=
  forall (W : Type) (remote : Remote W) (w w' : W) (resp : Response),
    requests_get DIA_URL w = (Ok resp, w') ->
    ~ (200 <= status_code resp < 300)
    \/ (forall v, has_price resp v -> is_number v = false) ->
    exists e, fst (_get_sol_price_usd w) = Raise e.

(** A zero token amount is reported by an error of the program's own, not by
    an arithmetic fault of the interpreter. *)
Definition empty_pool_is_reported : Prop :=
  forall (W : Type) (remote : Remote W) (self : PumpSwapMarketCap) (w w1 : W)
         (base_reserve quote_reserve : Z) (token_amt : float),
    _get_pool_reserves self w = (Ok (base_reserve, quote_reserve), w1) ->
    PyFloat.int_truediv base_reserve (pow10 (token_decimals self)) = Ok token_amt ->
    PyFloat.is_zero token_amt = true ->
    exists e, fst (get_market_cap self w) = Raise e
              /\ is_arithmetic_fault e = false.

(** *** Pool records as byte buffers *)

Record PoolRecord : Type := {
  rec_skipped : list byte;
  rec_pool_bump : Z;
  rec_index : Z;
  rec_creator : list byte;
  rec_base_mint : list byte;
  rec_quote_mint : list byte;
  rec_lp_mint : list byte;
  rec_pool_base_token_account : list byte;
  rec_pool_quote_token_account : list byte;
  rec_lp_supply : Z;
  rec_coin_creator : list byte
}.

Definition well_formed (r : PoolRecord) : Prop :=
  List.length (rec_skipped r) = 8%nat
  /\ 0 <= rec_pool_bump r < 2 ^ 8
  /\ 0 <= rec_index r < 2 ^ 16
  /\ List.length (rec_creator r) = 32%nat
  /\ List.length (rec_base_mint r) = 32%nat
  /\ List.length (rec_quote_mint r) = 32%nat
  /\ List.length (rec_lp_mint r) = 32%nat
  /\ List.length (rec_pool_base_token_account r) = 32%nat
  /\ List.length (rec_pool_quote_token_account r) = 32%nat
  /\ 0 <= rec_lp_supply r < 2 ^ 64
  /\ List.length (rec_coin_creator r) = 32%nat.

(** The buffer with every field placed at its layout offset. *)
Definition encode_pool (r : PoolRecord) : list byte :=
  rec_skipped r
  ++ le_encode 1 (rec_pool_bump r)
  ++ le_encode 2 (rec_index r)
  ++ rec_creator r
  ++ rec_base_mint r
  ++ rec_quote_mint r
  ++ rec_lp_mint r
  ++ rec_pool_base_token_account r
  ++ rec_pool_quote_token_account r
  ++ le_encode 8 (rec_lp_supply r)
  ++ rec_coin_creator r.

(** The container that holds exactly the fields of [r]. *)
Definition container_of (r : PoolRecord) : Construct.Container :=
  [ ("pool_bump", VInt (rec_pool_bump r));
    ("index", VInt (rec_index r));
    ("creator", VBytes (rec_creator r));
    ("base_mint", VBytes (rec_base_mint r));
    ("quote_mint", VBytes (rec_quote_mint r));
    ("lp_mint", VBytes (rec_lp_mint r));
    ("pool_base_token_account", VBytes (rec_pool_base_token_account r));
    ("pool_quote_token_account", VBytes (rec_pool_quote_token_account r));
    ("lp_supply", VInt (rec_lp_supply r));
    ("coin_creator", VBytes (rec_coin_creator r)) ].

(** ** Scripted worlds for concrete runs *)

Module Fixture.

(** What each remote operation answers.  The world itself counts the
    remote calls made so far. *)
Record Script : Type := {
  supply : result pyval;
  program_accounts : list MemcmpOpts -> result (list KeyedAccount);
  balance : Pubkey -> result Z;
  data : Pubkey -> result (list byte);
  decimals : result N;
  amounts : result (list (result Z));
  oracle : result Response
}.

Definition scripted (s : Script) : Remote nat := {|
  get_token_supply := fun _ n => (supply s, S n);
  get_program_accounts := fun _ fs n => (program_accounts s fs, S n);
  get_token_account_balance := fun k n => (balance s k, S n);
  get_account_data := fun k n => (data s k, S n);
  get_mint_decimals := fun _ n => (decimals s, S n);
  get_multiple_accounts_amounts := fun _ n => (amounts s, S n);
  requests_get := fun _ n => (oracle s, S n);
  float_of_str := fun _ => None
|}.

(** The same answers from a world without state. *)
Definition stateless (s : Script) : Remote unit := {|
  get_token_supply := fun _ w => (supply s, w);
  get_program_accounts := fun _ fs w => (program_accounts s fs, w);
  get_token_account_balance := fun k w => (balance s k, w);
  get_account_data := fun k w => (data s k, w);
  get_mint_decimals := fun _ w => (decimals s, w);
  get_multiple_accounts_amounts := fun _ w => (amounts s, w);
  requests_get := fun _ w => (oracle s, w);
  float_of_str := fun _ => None
|}.

(** The address made of 32 copies of one byte. *)
Definition key (b : byte) : Pubkey := repeat b 32.

Definition mint_key : Pubkey := key x02.
Definition mint : string := Eval vm_compute in Pubkey.to_string mint_key.

Definition pool_record (base_acc quote_acc : byte) : PoolRecord := {|
  rec_skipped := repeat xf1 8;
  rec_pool_bump := 254;
  rec_index := 513;
  rec_creator := key x01;
  rec_base_mint := mint_key;
  rec_quote_mint := WSOL;
  rec_lp_mint := key x03;
  rec_pool_base_token_account := key base_acc;
  rec_pool_quote_token_account := key quote_acc;
  rec_lp_supply := 4200000000000;
  rec_coin_creator := key x04
|}.

Definition pool_account (id base_acc quote_acc : byte) : KeyedAccount := {|
  pubkey := key id;
  account_data := encode_pool (pool_record base_acc quote_acc)
|}.

(** Balances looked up by the first byte of the address. *)
Fixpoint lookup (tbl : list (byte * Z)) (b : byte) : result Z :=
  match tbl with
  | [] => Raise RPCException
  | (b', z) :: rest => if Byte.eqb b' b then Ok z else lookup rest b
  end.

Definition balances (tbl : list (byte * Z)) (k : Pubkey) : result Z :=
  match k with
  | b :: _ => lookup tbl b
  | [] => Raise RPCException
  end.

(** The first filter set (token as base) returns [as_base]; the reversed
    one returns [as_quote]. *)
Definition two_sides (as_base as_quote : list KeyedAccount)
           (fs : list MemcmpOpts) : result (list KeyedAccount) :=
  match fs with
  | f :: _ => if String.eqb (bytes f) mint then Ok as_base else Ok as_quote
  | [] => Ok []
  end.

Definition price_body (v : json) : option json := Some (JObj [("Price", v)]).

Definition script (as_base as_quote : list KeyedAccount)
           (tbl : list (byte * Z))
           (reserves : list (result Z)) (resp : Response) : Script := {|
  supply := Ok (PyInt 1000000);
  program_accounts := two_sides as_base as_quote;
  balance := balances tbl;
  data := fun _ => Ok (encode_pool (pool_record x11 x12));
  decimals := Ok 9%N;
  amounts := Ok reserves;
  oracle := Ok resp
|}.

Definition ok_response : Response :=
  {| status_code := 200; body := price_body (JFloat (flt 100)) |}.

(** Three pools: liquidity 6 and 20 with the token as base, 20 again with
    the token as quote. *)
Definition three_pools : Script :=
  script [pool_account xa1 x11 x12; pool_account xa2 x13 x14]
         [pool_account xa3 x15 x16]
         [(x11, 2); (x12, 3); (x13, 4); (x14, 5); (x15, 10); (x16, 2)]
         [Ok 1000000000; Ok 2000000000] ok_response.

(** Two pools, each with one empty reserve. *)
Definition drained_pools : Script :=
  script [pool_account xa1 x11 x12] [pool_account xa2 x13 x14]
         [(x11, 0); (x12, 5); (x13, 7); (x14, 0)]
         [Ok 0; Ok 2000000000] ok_response.

(** The balance of the first pool's quote reserve cannot be fetched. *)
Definition flaky_pools : Script :=
  script [pool_account xa1 x11 x17; pool_account xa2 x13 x14] []
         [(x11, 2); (x13, 4); (x14, 5)]
         [Ok 1000000000; Ok 2000000000] ok_response.

Definition no_pools : Script :=
  script [] [] [] [Ok 1000000000; Ok 2000000000] ok_response.

(** A live pool whose base reserve reads as zero. *)
Definition empty_reserve : Script :=
  script [pool_account xa1 x11 x12] [] [(x11, 2); (x12, 3)]
         [Ok 0; Ok 2000000000] ok_response.

Definition with_oracle (resp : Response) : Script :=
  script [pool_account xa1 x11 x12] [] [(x11, 2); (x12, 3)]
         [Ok 1000000000; Ok 2000000000] resp.

(** A 300 answer is neither a success nor followed as a redirect. *)
Definition multiple_choices : Response :=
  {| status_code := 300; body := price_body (JFloat (flt 100)) |}.

Definition server_error : Response :=
  {| status_code := 503; body := price_body (JFloat (flt 100)) |}.

Definition no_price : Response :=
  {| status_code := 200; body := Some (JObj [("Symbol", JStr "SOL")]) |}.

(** An initialised object, as [__init__] leaves it on [three_pools]. *)
Definition sample_self (supply : pyval) : PumpSwapMarketCap := {|
  mint_str := mint;
  mint_pubkey := mint_key;
  quote_decimals := 9;
  total_supply := supply;
  pool_id := Pubkey.to_string (key xa2);
  pool_keys := {| amm := key xa2; base_mint := mint_key; quote_mint := WSOL;
                  pool_base_token_account := key x11;
                  pool_quote_token_account := key x12;
                  creator := key x04 |};
  token_decimals := 9
|}.

(** The object [__init__] builds on [with_oracle]. *)
Definition first_pool_self : PumpSwapMarketCap := {|
  mint_str := mint;
  mint_pubkey := mint_key;
  quote_decimals := 9;
  total_supply := PyInt 1000000;
  pool_id := Pubkey.to_string (key xa1);
  pool_keys := {| amm := key xa1; base_mint := mint_key; quote_mint := WSOL;
                  pool_base_token_account := key x11;
                  pool_quote_token_account := key x12;
                  creator := key x04 |};
  token_decimals := 9
|}.

(** Another object, of another pool, with the same precisions and supply. *)
Definition other_self (supply : pyval) : PumpSwapMarketCap := {|
  mint_str := mint;
  mint_pubkey := mint_key;
  quote_decimals := 9;
  total_supply := supply;
  pool_id := Pubkey.to_string (key xa1);
  pool_keys := {| amm := key xa1; base_mint := mint_key; quote_mint := WSOL;
                  pool_base_token_account := key x13;
                  pool_quote_token_account := key x14;
                  creator := key x05 |};
  token_decimals := 9
|}.

End Fixture.


(** ** Further vocabulary *)

(** The number of bytes a layout reads. *)
Definition layout_size (s : Construct.Struct) : nat :=
  fold_right (fun f n => (Construct.sizeof (snd f) + n)%nat) 0%nat s.

(** The container [POOL_LAYOUT] reads from [data], byte range by byte range. *)
Definition container_at (data : list byte) : Construct.Container :=
  [ ("pool_bump", VInt (le_decode (slice 8 9 data)));
    ("index", VInt (le_decode (slice 9 11 data)));
    ("creator", VBytes (slice 11 43 data));
    ("base_mint", VBytes (slice 43 75 data));
    ("quote_mint", VBytes (slice 75 107 data));
    ("lp_mint", VBytes (slice 107 139 data));
    ("pool_base_token_account", VBytes (slice 139 171 data));
    ("pool_quote_token_account", VBytes (slice 171 203 data));
    ("lp_supply", VInt (le_decode (slice 203 211 data)));
    ("coin_creator", VBytes (slice 211 243 data)) ].

(** The record whose fields are the byte ranges of [data]. *)
Definition record_at (data : list byte) : PoolRecord := {|
  rec_skipped := slice 0 8 data;
  rec_pool_bump := le_decode (slice 8 9 data);
  rec_index := le_decode (slice 9 11 data);
  rec_creator := slice 11 43 data;
  rec_base_mint := slice 43 75 data;
  rec_quote_mint := slice 75 107 data;
  rec_lp_mint := slice 107 139 data;
  rec_pool_base_token_account := slice 139 171 data;
  rec_pool_quote_token_account := slice 171 203 data;
  rec_lp_supply := le_decode (slice 203 211 data);
  rec_coin_creator := slice 211 243 data
|}.

(** All six addresses of a key record are 32 bytes long. *)
Definition keys_sized (k : PoolKeys) : Prop :=
  List.length (amm k) = 32%nat
  /\ List.length (base_mint k) = 32%nat
  /\ List.length (quote_mint k) = 32%nat
  /\ List.length (pool_base_token_account k) = 32%nat
  /\ List.length (pool_quote_token_account k) = 32%nat
  /\ List.length (creator k) = 32%nat.

(** The two filter sets of the locator, in the order it queries them. *)
Definition token_as_base (mint_str : string) : list MemcmpOpts :=
  [ {| offset := 43; bytes := mint_str |};
    {| offset := 75; bytes := Pubkey.to_string WSOL |} ].

Definition token_as_quote (mint_str : string) : list MemcmpOpts :=
  [ {| offset := 43; bytes := Pubkey.to_string WSOL |};
    {| offset := 75; bytes := mint_str |} ].

(** A digit list without a leading zero. *)
Definition head_nonzero (ds : list Z) : Prop :=
  match ds with
  | [] => True
  | d :: _ => d <> 0
  end.

(** A record long enough to hold both reserve addresses. *)
Definition scoreable (acct : KeyedAccount) : bool :=
  Nat.leb 203 (List.length (account_data acct)).

(** A node whose failures are Python [Exception]s and whose program accounts
    all hold the 203 bytes the locator slices. *)
Definition sound_node {W : Type} (remote : Remote W) : Prop :=
  (forall filters w accts w',
      get_program_accounts PF_AMM filters w = (Ok accts, w') ->
      forallb scoreable accts = true)
  /\ (forall filters w e w',
         get_program_accounts PF_AMM filters w = (Raise e, w') ->
         is_exception e = true)
  /\ (forall k w e w',
         get_token_account_balance k w = (Raise e, w') ->
         is_exception e = true).

Definition is_nan (x : float) : bool :=
  match x with S754_nan => true | _ => false end.

Definition is_finite (x : float) : bool :=
  match x with S754_zero _ | S754_finite _ _ _ => true | _ => false end.

(** Sign bit clear and not a NaN: [+0.0], a positive finite float or [+inf]. *)
Definition is_nonneg (x : float) : bool :=
  match x with
  | S754_zero false | S754_infinity false | S754_finite false _ _ => true
  | _ => false
  end.

Definition supply_type_error : exn :=
  TypeError "unsupported operand type(s) for *: 'float' and 'NoneType'".

(** *** More scripted worlds *)

Module Scenario.

Import Fixture.

(** Every program-account query fails. *)
Definition rpc_down : Script := {|
  supply := Ok (PyInt 1000000);
  program_accounts := fun _ => Raise RPCException;
  balance := balances [];
  data := fun _ => Raise RPCException;
  decimals := Ok 9%N;
  amounts := Raise RPCException;
  oracle := Raise RequestException
|}.

(** A pool is found, but its account holds 100 bytes only. *)
Definition truncated_pool : Script := {|
  supply := Ok (PyInt 1000000);
  program_accounts := two_sides [pool_account xa1 x11 x12] [];
  balance := balances [(x11, 2); (x12, 3)];
  data := fun _ => Ok (repeat x07 100);
  decimals := Ok 9%N;
  amounts := Ok [Ok 1000000000; Ok 2000000000];
  oracle := Ok ok_response
|}.

(** The node reports no [ui_amount] for the mint. *)
Definition no_supply : Script := {|
  supply := Ok PyNone;
  program_accounts := two_sides [pool_account xa1 x11 x12] [];
  balance := balances [(x11, 2); (x12, 3)];
  data := fun _ => Ok (encode_pool (pool_record x11 x12));
  decimals := Ok 9%N;
  amounts := Ok [Ok 1000000000; Ok 2000000000];
  oracle := Ok ok_response
|}.

(** A candidate whose record stops in the middle of the second reserve
    address. *)
Definition stub_account : KeyedAccount :=
  {| pubkey := key xa9; account_data := repeat x07 180 |}.

(** The node returns that record before a sound pool. *)
Definition stub_first : Script := {|
  supply := Ok (PyInt 1000000);
  program_accounts := two_sides [stub_account; pool_account xa1 x11 x12] [];
  balance := balances [(x11, 2); (x12, 3)];
  data := fun _ => Ok (encode_pool (pool_record x11 x12));
  decimals := Ok 9%N;
  amounts := Ok [Ok 1000000000; Ok 2000000000];
  oracle := Ok ok_response
|}.

(** 243 bytes counting up from 0, then two more. *)
Definition counting_bytes : list byte :=
  map (fun n => byte_of_Z (Z.of_nat n)) (seq 0 245).

Definition counting_data : Script := {|
  supply := Ok (PyInt 1000000);
  program_accounts := two_sides [] [];
  balance := balances [];
  data := fun _ => Ok counting_bytes;
  decimals := Ok 9%N;
  amounts := Ok [];
  oracle := Ok ok_response
|}.

End Scenario.


(** * Properties *)

(** ** Results and the world monad *)

Lemma bind_ok {W A B} (m : M W A) (k : A -> M W B) w a w' :
  m w = (Ok a, w') -> bind m k w = k a w'.
Proof. unfold bind; intros ->; reflexivity. Qed.

Lemma bind_raise {W A B} (m : M W A) (k : A -> M W B) w e w' :
  m w = (Raise e, w') -> bind m k w = (Raise e, w').
Proof. unfold bind; intros ->; reflexivity. Qed.

Lemma lift_bind_ok {W A B} (r : result A) (k : A -> M W B) w a :
  r = Ok a -> bind (lift r) k w = k a w.
Proof. intros ->; reflexivity. Qed.

(** ** Pool location *)

Section Locator.

Context {W : Type} {remote : Remote W}.

(** The loop of the source and the enumeration of scored candidates walk the
    world in the same way and stop on the same errors, and the loop state is
    the running [keep_best]. *)
Lemma scan_accounts_scored (accts : list KeyedAccount) :
  forall st w,
    scan_accounts accts st w
    = match scored_accounts accts w with
      | (Ok tr, w') => (Ok (fold_left keep_best tr st), w')
      | (Raise e, w') => (Raise e, w')
      end.
Proof.
  induction accts as [|acct rest IH]; intros st w; simpl; [reflexivity|].
  unfold visit_candidate.
  destruct (read_candidate acct w) as [[[b q]|e] w'].
  - destruct st as [best max_liq].
    pose (c := {| cand_key := pubkey acct; cand_base := b; cand_quote := q |}).
    assert (Hk : keep_best (best, max_liq) c
                 = if b * q >? max_liq
                   then (Some (Pubkey.to_string (pubkey acct)), b * q)
                   else (best, max_liq)) by reflexivity.
    destruct (b * q >? max_liq); rewrite IH;
      destruct (scored_accounts rest w') as [[tr|e] w'']; try reflexivity;
      fold c; cbn [fold_left]; rewrite Hk; reflexivity.
  - destruct (is_exception e); [apply IH | reflexivity].
Qed.

Lemma scan_filters_scored (fl : list (list MemcmpOpts)) :
  forall st w,
    scan_filters fl st w
    = match scored_filters fl w with
      | (Ok tr, w') => (Ok (fold_left keep_best tr st), w')
      | (Raise e, w') => (Raise e, w')
      end.
Proof.
  induction fl as [|filters rest IH]; intros st w; simpl; [reflexivity|].
  destruct (get_program_accounts PF_AMM filters w) as [[accts|e] w'].
  - rewrite scan_accounts_scored.
    destruct (scored_accounts accts w') as [[tr1|e] w1]; [|reflexivity].
    rewrite IH.
    destruct (scored_filters rest w1) as [[tr2|e] w2]; [|reflexivity].
    rewrite fold_left_app; reflexivity.
  - destruct (is_exception e); [apply IH | reflexivity].
Qed.

(** The locator returns the running maximum over the scored candidates, in
    the world the enumeration left, when the enumeration completes, and
    raises what ended the enumeration otherwise. *)
Lemma fetch_pool_scored (mint : string) (w : W) :
  _fetch_pool_from_rpc mint w
  = match scored_filters (filters_list mint) w with
    | (Ok tr, w') => (Ok (fst (fold_left keep_best tr (None, 0))), w')
    | (Raise e, w') => (Raise e, w')
    end.
Proof.
  unfold _fetch_pool_from_rpc, bind. rewrite scan_filters_scored.
  destruct (scored_filters (filters_list mint) w) as [[tr|e] w']; [|reflexivity].
  destruct (fold_left keep_best tr (None, 0)) as [best m]; reflexivity.
Qed.

Lemma fetch_pool_completes (mint : string) (w : W) (tr : list Scored) :
  scored_candidates mint w = Ok tr ->
  fst (_fetch_pool_from_rpc mint w)
  = Ok (fst (fold_left keep_best tr (None, 0))).
Proof.
  unfold scored_candidates. intros H. rewrite fetch_pool_scored.
  destruct (scored_filters (filters_list mint) w) as [[tr'|e] w'];
    simpl in H; [|discriminate].
  injection H as ->. reflexivity.
Qed.

(** A locator that returns has gone through the whole enumeration. *)
Lemma fetch_pool_returns (mint : string) (w w' : W) (r : option string) :
  _fetch_pool_from_rpc mint w = (Ok r, w') ->
  exists tr, scored_filters (filters_list mint) w = (Ok tr, w')
             /\ r = fst (fold_left keep_best tr (None, 0)).
Proof.
  rewrite fetch_pool_scored.
  destruct (scored_filters (filters_list mint) w) as [[tr|e] w1];
    [|discriminate].
  intros [= <- <-]. exists tr. split; reflexivity.
Qed.

End Locator.

(** What a running maximum with a strict comparison computes: either nothing
    beat the initial bound, or the state is the first candidate that reaches
    the maximum. *)
Lemma fold_keep_best_spec (tr : list Scored) (b0 : option string) (m0 : Z) :
  let st := fold_left keep_best tr (b0, m0) in
  (st = (b0, m0) /\ forall c, In c tr -> liquidity c <= m0)
  \/ (exists k c,
         first_maximum tr k c /\ m0 < liquidity c
         /\ st = (Some (Pubkey.to_string (cand_key c)), liquidity c)).
Proof.
  induction tr as [|c tr IH] using rev_ind; simpl.
  - left; split; [reflexivity | intros c []].
  - rewrite fold_left_app; simpl.
    destruct IH as [[-> Hle] | (k & c0 & (Hk & Hmax & Hfirst) & Hlt & ->)];
      unfold keep_best; simpl; destruct (liquidity c >? _) eqn:Hc.
    + right; exists (List.length tr), c; repeat split.
      * rewrite nth_error_app2, Nat.sub_diag by lia; reflexivity.
      * intros c' [Hin | [<- | []]]%in_app_or; [|lia].
        specialize (Hle _ Hin); lia.
      * intros k' c' Hk' Hn. rewrite nth_error_app1 in Hn by lia.
        apply nth_error_In in Hn. specialize (Hle _ Hn); lia.
      * lia.
    + left; split; [reflexivity|].
      intros c' [Hin | [<- | []]]%in_app_or; [auto | lia].
    + right; exists (List.length tr), c; repeat split.
      * rewrite nth_error_app2, Nat.sub_diag by lia; reflexivity.
      * intros c' [Hin | [<- | []]]%in_app_or; [|lia].
        specialize (Hmax _ Hin); lia.
      * intros k' c' Hk' Hn. rewrite nth_error_app1 in Hn by lia.
        apply nth_error_In in Hn. specialize (Hmax _ Hn); lia.
      * lia.
    + right; exists k, c0.
      assert (k < List.length tr)%nat
        by (apply nth_error_Some; rewrite Hk; discriminate).
      repeat split.
      * rewrite nth_error_app1 by lia; exact Hk.
      * intros c' [Hin | [<- | []]]%in_app_or; [auto | lia].
      * intros k' c' Hk' Hn. rewrite nth_error_app1 in Hn by lia. eauto.
      * lia.
Qed.

Lemma first_maximum_unique (tr : list Scored) k1 c1 k2 c2 :
  first_maximum tr k1 c1 -> first_maximum tr k2 c2 -> k1 = k2 /\ c1 = c2.
Proof.
  intros (H1 & M1 & F1) (H2 & M2 & F2).
  assert (k1 = k2) as ->.
  { destruct (Nat.lt_trichotomy k1 k2) as [Hlt | [-> | Hlt]]; [|reflexivity|].
    - specialize (F2 _ _ Hlt H1). apply nth_error_In in H2.
      specialize (M1 _ H2). lia.
    - specialize (F1 _ _ Hlt H2). apply nth_error_In in H1.
      specialize (M2 _ H1). lia. }
  split; congruence.
Qed.

(** On a completed enumeration the locator returns nothing when no scored
    candidate has positive liquidity, and otherwise the first candidate of
    maximum liquidity. *)
Lemma locator_selects {W : Type} {remote : Remote W}
      (mint : string) (w : W) (tr : list Scored) :
  scored_candidates mint w = Ok tr ->
  let r := fst (_fetch_pool_from_rpc mint w) in
  (r = Ok None /\ forall c, In c tr -> liquidity c <= 0)
  \/ (exists k c,
         first_maximum tr k c /\ 0 < liquidity c
         /\ r = Ok (Some (Pubkey.to_string (cand_key c)))).
Proof.
  intros Htr. cbv zeta. rewrite (fetch_pool_completes mint w tr Htr).
  destruct (fold_keep_best_spec tr None 0)
    as [[-> H] | (k & c & Hf & Hpos & ->)].
  - left; split; [reflexivity | exact H].
  - right; exists k, c; auto.
Qed.

(** C2.  On a run that goes through both filter sets, whenever two scored
    candidates have liquidity scores [L1 < L2], the locator returns a pool,
    that pool is not the candidate with [L1], its score is at least [L2],
    and it is a maximum over all scored candidates of both filter sets. *)
Theorem locator_prefers_higher_liquidity
        {W : Type} {remote : Remote W} (mint : string) (w : W)
        (tr : list Scored) (i j : nat) (ci cj : Scored) :
  scored_candidates mint w = Ok tr ->
  nth_error tr i = Some ci ->
  nth_error tr j = Some cj ->
  0 <= liquidity ci ->
  liquidity ci < liquidity cj ->
  exists k c,
    nth_error tr k = Some c
    /\ k <> i
    /\ fst (_fetch_pool_from_rpc mint w)
       = Ok (Some (Pubkey.to_string (cand_key c)))
    /\ liquidity cj <= liquidity c
    /\ (forall c', In c' tr -> liquidity c' <= liquidity c).
Proof.
  intros Htr Hi Hj Hpos Hlt.
  destruct (locator_selects mint w tr Htr)
    as [[_ Hall] | (k & c & (Hk & Hmax & Hfirst) & _ & Hr)].
  - apply nth_error_In in Hj. specialize (Hall _ Hj). lia.
  - exists k, c. pose proof (Hmax _ (nth_error_In _ _ Hj)) as Hcj.
    repeat split; auto.
    intros ->. rewrite Hi in Hk. injection Hk as <-. lia.
Qed.

Lemma locator_prefers_higher_liquidity_witness :
  let remote := Fixture.scripted Fixture.three_pools in
  let ci := {| cand_key := Fixture.key xa1; cand_base := 2; cand_quote := 3 |} in
  let c2 := {| cand_key := Fixture.key xa2; cand_base := 4; cand_quote := 5 |} in
  let cj := {| cand_key := Fixture.key xa3; cand_base := 10; cand_quote := 2 |} in
  let tr := [ci; c2; cj] in
  scored_candidates Fixture.mint 0%nat = Ok tr
  /\ nth_error tr 0 = Some ci
  /\ nth_error tr 2 = Some cj
  /\ 0 <= liquidity ci
  /\ liquidity ci < liquidity cj
  /\ exists k c,
      nth_error tr k = Some c
      /\ k <> 0%nat
      /\ fst (_fetch_pool_from_rpc Fixture.mint 0%nat)
         = Ok (Some (Pubkey.to_string (cand_key c)))
      /\ liquidity cj <= liquidity c
      /\ (forall c', In c' tr -> liquidity c' <= liquidity c).
Proof.
  intros remote ci c2 cj tr.
  assert (Htr : scored_candidates Fixture.mint 0%nat = Ok tr)
    by (vm_compute; reflexivity).
  assert (H0 : nth_error tr 0 = Some ci) by reflexivity.
  assert (H2 : nth_error tr 2 = Some cj) by reflexivity.
  assert (Hp : 0 <= liquidity ci) by (vm_compute; discriminate).
  assert (Hl : liquidity ci < liquidity cj) by (vm_compute; reflexivity).
  split; [exact Htr | split; [exact H0 | split; [exact H2 |
    split; [exact Hp | split; [exact Hl |]]]]].
  exact (locator_prefers_higher_liquidity Fixture.mint 0%nat tr 0 2 ci cj
           Htr H0 H2 Hp Hl).
Defined.

(** C3, as amended.  On a run that goes through both filter sets: when the
    maximum liquidity is strictly positive, the candidate enumerated first
    among those that reach it is the one the locator returns; when the
    maximum is 0 (or there is no positive score at all), the locator returns
    no candidate. *)
Theorem locator_selects_first_positive_maximum
        {W : Type} {remote : Remote W} (mint : string) (w : W)
        (tr : list Scored) (k : nat) (c : Scored) :
  scored_candidates mint w = Ok tr ->
  first_maximum tr k c ->
  (0 < liquidity c ->
   fst (_fetch_pool_from_rpc mint w)
   = Ok (Some (Pubkey.to_string (cand_key c))))
  /\ (liquidity c <= 0 -> fst (_fetch_pool_from_rpc mint w) = Ok None).
Proof.
  intros Htr Hf.
  destruct (locator_selects mint w tr Htr)
    as [[Hr Hall] | (k' & c' & Hf' & Hpos' & Hr)].
  - split; [|intros _; exact Hr].
    intros Hpos. destruct Hf as (Hk & _). apply nth_error_In in Hk.
    specialize (Hall _ Hk). lia.
  - destruct (first_maximum_unique _ _ _ _ _ Hf Hf') as [_ ->].
    split; [intros _; exact Hr | intros Hle; lia].
Qed.

Lemma decide_first_maximum (tr : list Scored) (k : nat) (c : Scored) :
  nth_error tr k = Some c ->
  forallb (fun c' => liquidity c' <=? liquidity c) tr = true ->
  forallb (fun c' => liquidity c' <? liquidity c) (firstn k tr) = true ->
  first_maximum tr k c.
Proof.
  intros Hk Hmax Hfirst. split; [exact Hk | split].
  - intros c' Hin. rewrite forallb_forall in Hmax.
    specialize (Hmax _ Hin). lia.
  - intros k' c' Hlt Hn. rewrite forallb_forall in Hfirst.
    assert (In c' (firstn k tr)) as Hin.
    { apply nth_error_In with k'. rewrite nth_error_firstn.
      destruct (Nat.ltb_spec k' k); [exact Hn | lia]. }
    specialize (Hfirst _ Hin). lia.
Qed.

Lemma locator_selects_first_positive_maximum_witness :
  (let remote := Fixture.scripted Fixture.three_pools in
   let c1 := {| cand_key := Fixture.key xa1; cand_base := 2; cand_quote := 3 |} in
   let c := {| cand_key := Fixture.key xa2; cand_base := 4; cand_quote := 5 |} in
   let c3 := {| cand_key := Fixture.key xa3; cand_base := 10; cand_quote := 2 |} in
   scored_candidates Fixture.mint 0%nat = Ok [c1; c; c3]
   /\ first_maximum [c1; c; c3] 1 c
   /\ 0 < liquidity c
   /\ fst (_fetch_pool_from_rpc Fixture.mint 0%nat)
      = Ok (Some (Pubkey.to_string (cand_key c))))
  /\ (let remote := Fixture.scripted Fixture.drained_pools in
      let c := {| cand_key := Fixture.key xa1; cand_base := 0; cand_quote := 5 |} in
      let c2 := {| cand_key := Fixture.key xa2; cand_base := 7; cand_quote := 0 |} in
      scored_candidates Fixture.mint 0%nat = Ok [c; c2]
      /\ first_maximum [c; c2] 0 c
      /\ liquidity c <= 0
      /\ fst (_fetch_pool_from_rpc Fixture.mint 0%nat) = Ok None).
Proof.
  split.
  - intros remote c1 c c3.
    assert (Htr : scored_candidates Fixture.mint 0%nat = Ok [c1; c; c3])
      by (vm_compute; reflexivity).
    assert (Hf : first_maximum [c1; c; c3] 1 c)
      by (apply decide_first_maximum; reflexivity).
    assert (Hp : 0 < liquidity c) by reflexivity.
    split; [exact Htr | split; [exact Hf | split; [exact Hp |]]].
    exact (proj1 (locator_selects_first_positive_maximum
                    Fixture.mint 0%nat [c1; c; c3] 1 c Htr Hf) Hp).
  - intros remote c c2.
    assert (Htr : scored_candidates Fixture.mint 0%nat = Ok [c; c2])
      by (vm_compute; reflexivity).
    assert (Hf : first_maximum [c; c2] 0 c)
      by (apply decide_first_maximum; reflexivity).
    assert (Hz : liquidity c <= 0) by (vm_compute; discriminate).
    split; [exact Htr | split; [exact Hf | split; [exact Hz |]]].
    exact (proj2 (locator_selects_first_positive_maximum
                    Fixture.mint 0%nat [c; c2] 0 c Htr Hf) Hz).
Defined.

(** C3, as stated, fails.  Two candidates, each with one empty reserve, tie
    at liquidity 0, which is the maximum; the locator returns neither. *)
Lemma tie_at_zero_selects_nothing :
  (let remote := Fixture.scripted Fixture.drained_pools in
   let c1 := {| cand_key := Fixture.key xa1; cand_base := 0; cand_quote := 5 |} in
   let c2 := {| cand_key := Fixture.key xa2; cand_base := 7; cand_quote := 0 |} in
   scored_candidates Fixture.mint 0%nat = Ok [c1; c2]
   /\ liquidity c1 = 0 /\ liquidity c2 = 0
   /\ first_maximum [c1; c2] 0 c1
   /\ fst (_fetch_pool_from_rpc Fixture.mint 0%nat) = Ok None)
  /\ ~ first_of_tied_always_selected.
Proof.
  pose (remote := Fixture.scripted Fixture.drained_pools).
  pose (c1 := {| cand_key := Fixture.key xa1; cand_base := 0; cand_quote := 5 |}).
  pose (c2 := {| cand_key := Fixture.key xa2; cand_base := 7; cand_quote := 0 |}).
  assert (Htr : scored_candidates Fixture.mint 0%nat = Ok [c1; c2])
    by (vm_compute; reflexivity).
  assert (Hf : first_maximum [c1; c2] 0 c1)
    by (apply decide_first_maximum; reflexivity).
  assert (Hr : fst (_fetch_pool_from_rpc Fixture.mint 0%nat) = Ok None)
    by (vm_compute; reflexivity).
  split.
  - cbv zeta. fold remote c1 c2. repeat split; try assumption; apply Hf.
  - intros H.
    specialize (H nat remote Fixture.mint 0%nat [c1; c2] 0%nat 1%nat c1 c2
                  Htr Hf Nat.lt_0_1 eq_refl eq_refl).
    rewrite Hr in H. discriminate H.
Qed.

(** C10.  A candidate of liquidity zero is never selected.  On a run that
    goes through both filter sets: if every scored candidate has an empty
    reserve the locator returns nothing; and the pool it returns, when it
    returns one, was scored with positive liquidity, that is, with both
    balances strictly positive. *)
Theorem locator_never_selects_empty_pool
        {W : Type} {remote : Remote W} (mint : string) (w : W)
        (tr : list Scored) :
  let r := fst (_fetch_pool_from_rpc mint w) in
  scored_candidates mint w = Ok tr ->
  unsigned_amounts tr ->
  ((forall c, In c tr -> cand_base c = 0 \/ cand_quote c = 0) -> r = Ok None)
  /\ (forall p, r = Ok (Some p) ->
        exists c, In c tr
                  /\ p = Pubkey.to_string (cand_key c)
                  /\ 0 < liquidity c
                  /\ 0 < cand_base c /\ 0 < cand_quote c).
Proof.
  intros r Htr Hun.
  destruct (locator_selects mint w tr Htr)
    as [[Hr _] | (k & c & (Hk & _) & Hpos & Hr)]; fold r in Hr.
  - split; [intros _; exact Hr | intros p Hp; congruence].
  - apply nth_error_In in Hk. split.
    + intros Hzero. destruct (Hzero _ Hk) as [Hz | Hz];
        unfold liquidity in Hpos; rewrite Hz in Hpos; lia.
    + intros p Hp. exists c. rewrite Hr in Hp. injection Hp as <-.
      unfold unsigned_amounts in Hun. rewrite Forall_forall in Hun.
      destruct (Hun _ Hk) as [Hb Hq]. unfold liquidity in *.
      repeat split; auto; nia.
Qed.

Lemma locator_never_selects_empty_pool_witness :
  (let remote := Fixture.scripted Fixture.drained_pools in
   let tr := [ {| cand_key := Fixture.key xa1; cand_base := 0; cand_quote := 5 |};
               {| cand_key := Fixture.key xa2; cand_base := 7; cand_quote := 0 |} ] in
   scored_candidates Fixture.mint 0%nat = Ok tr
   /\ unsigned_amounts tr
   /\ (forall c, In c tr -> cand_base c = 0 \/ cand_quote c = 0)
   /\ fst (_fetch_pool_from_rpc Fixture.mint 0%nat) = Ok None)
  /\ (let remote := Fixture.scripted Fixture.three_pools in
      let tr := [ {| cand_key := Fixture.key xa1; cand_base := 2; cand_quote := 3 |};
                  {| cand_key := Fixture.key xa2; cand_base := 4; cand_quote := 5 |};
                  {| cand_key := Fixture.key xa3; cand_base := 10; cand_quote := 2 |} ] in
      let p := Pubkey.to_string (Fixture.key xa2) in
      scored_candidates Fixture.mint 0%nat = Ok tr
      /\ unsigned_amounts tr
      /\ fst (_fetch_pool_from_rpc Fixture.mint 0%nat) = Ok (Some p)
      /\ exists c, In c tr
                   /\ p = Pubkey.to_string (cand_key c)
                   /\ 0 < liquidity c
                   /\ 0 < cand_base c /\ 0 < cand_quote c).
Proof.
  split.
  - intros remote tr.
    assert (Htr : scored_candidates Fixture.mint 0%nat = Ok tr)
      by (vm_compute; reflexivity).
    assert (Hun : unsigned_amounts tr).
    { unfold unsigned_amounts, tr. repeat constructor; simpl; lia. }
    assert (Hzero : forall c, In c tr -> cand_base c = 0 \/ cand_quote c = 0).
    { intros c [<- | [<- | []]]; [left | right]; reflexivity. }
    split; [exact Htr | split; [exact Hun | split; [exact Hzero |]]].
    exact (proj1 (locator_never_selects_empty_pool Fixture.mint 0%nat tr Htr Hun)
                 Hzero).
  - intros remote tr p.
    assert (Htr : scored_candidates Fixture.mint 0%nat = Ok tr)
      by (vm_compute; reflexivity).
    assert (Hun : unsigned_amounts tr).
    { unfold unsigned_amounts, tr. repeat constructor; simpl; lia. }
    assert (Hr : fst (_fetch_pool_from_rpc Fixture.mint 0%nat) = Ok (Some p))
      by (vm_compute; reflexivity).
    split; [exact Htr | split; [exact Hun | split; [exact Hr |]]].
    exact (proj2 (locator_never_selects_empty_pool Fixture.mint 0%nat tr Htr Hun)
                 p Hr).
Defined.

(** The scan splits along a concatenation of the response, as long as its
    first part goes through. *)
Lemma scan_accounts_app {W : Type} {remote : Remote W}
      (l1 l2 : list KeyedAccount) :
  forall st w,
    scan_accounts (l1 ++ l2) st w
    = match scan_accounts l1 st w with
      | (Ok st1, w1) => scan_accounts l2 st1 w1
      | (Raise e, w1) => (Raise e, w1)
      end.
Proof.
  induction l1 as [|a l1 IH]; intros st w; simpl; [reflexivity|].
  destruct (visit_candidate a st w) as [[st'|e] w']; [apply IH | reflexivity].
Qed.

(** A record too short to hold both reserve addresses makes
    [Pubkey.from_bytes] panic before any balance is asked for. *)
Lemma read_candidate_short_data
      {W : Type} {remote : Remote W} (acct : KeyedAccount) (w : W) :
  scoreable acct = false ->
  read_candidate acct w = (Raise Pubkey.slice_panic, w).
Proof.
  intros Hs. unfold scoreable in Hs. apply Nat.leb_gt in Hs.
  unfold read_candidate. cbv beta iota zeta delta [bind lift ret].
  unfold Pubkey.from_bytes, Pubkey.LENGTH, slice.
  destruct (Nat.eqb_spec (List.length (firstn (171 - 139) (skipn 139 (account_data acct)))) 32)
    as [H1|H1]; [|reflexivity].
  destruct (Nat.eqb_spec (List.length (firstn (203 - 171) (skipn 171 (account_data acct)))) 32)
    as [H2|H2]; [|reflexivity].
  rewrite length_firstn, length_skipn in H2. lia.
Qed.

(** C8.  A candidate whose record is too short is not skipped: the address
    extraction sits inside the [try] block, but [Pubkey.from_bytes] panics
    with a [BaseException] that [except Exception] lets through.  With a
    180-byte record ahead of a sound pool, scoring the record raises the
    panic, and the locator and [__init__] end in it right after the first
    program-account query, the sound pool never being scored. *)
Theorem short_record_aborts_the_search :
  let remote := Fixture.scripted Scenario.stub_first in
  List.length (account_data Scenario.stub_account) = 180%nat
  /\ get_program_accounts PF_AMM (token_as_base Fixture.mint) 1%nat
     = (Ok [Scenario.stub_account; Fixture.pool_account xa1 x11 x12], 2%nat)
  /\ read_candidate Scenario.stub_account 2%nat = (Raise Pubkey.slice_panic, 2%nat)
  /\ is_exception Pubkey.slice_panic = false
  /\ _fetch_pool_from_rpc Fixture.mint 1%nat = (Raise Pubkey.slice_panic, 2%nat)
  /\ __init__ "rpc" Fixture.mint 9 PyNone 0%nat = (Raise Pubkey.slice_panic, 2%nat).
Proof.
  intros remote. repeat split; vm_compute; reflexivity.
Qed.

(** ** Initialisation *)

(** C9.  When the locator yields no pool, [__init__] raises
    [RuntimeError("No pool found for mint ...")] in the world the locator
    left, and nothing that is sequenced after the constructor (the reserve
    read, the price fetch, the arithmetic) is run. *)
Theorem init_aborts_without_pool
        {W : Type} {remote : Remote W}
        (rpc_url mint : string) (quote_decimals : N) (total_supply supply : pyval)
        (mint_pubkey : Pubkey) (w w1 : W) :
  let failure := RuntimeError ("No pool found for mint " ++ mint) in
  let w2 := snd (_fetch_pool_from_rpc mint w1) in
  Pubkey.from_string mint = Ok mint_pubkey ->
  resolve_total_supply mint_pubkey total_supply w = (Ok supply, w1) ->
  fst (_fetch_pool_from_rpc mint w1) = Ok None ->
  __init__ rpc_url mint quote_decimals total_supply w = (Raise failure, w2)
  /\ forall (B : Type) (rest : PumpSwapMarketCap -> M W B),
      bind (__init__ rpc_url mint quote_decimals total_supply) rest w
      = (Raise failure, w2).
Proof.
  intros failure w2 Hmint Hsupply Hnone.
  assert (Hinit : __init__ rpc_url mint quote_decimals total_supply w
                  = (Raise failure, w2)).
  { unfold __init__.
    rewrite (lift_bind_ok _ _ _ _ Hmint), (bind_ok _ _ _ _ _ Hsupply).
    unfold bind at 1, w2.
    destruct (_fetch_pool_from_rpc mint w1) as [r w']; simpl in *.
    subst r; reflexivity. }
  split; [exact Hinit |].
  intros B rest. exact (bind_raise _ _ _ _ _ Hinit).
Qed.

Lemma init_aborts_without_pool_witness :
  let remote := Fixture.scripted Fixture.no_pools in
  let failure := RuntimeError ("No pool found for mint " ++ Fixture.mint) in
  Pubkey.from_string Fixture.mint = Ok Fixture.mint_key
  /\ resolve_total_supply Fixture.mint_key PyNone 0%nat = (Ok (PyInt 1000000), 1%nat)
  /\ fst (_fetch_pool_from_rpc Fixture.mint 1%nat) = Ok None
  /\ __init__ "rpc" Fixture.mint 9 PyNone 0%nat = (Raise failure, 3%nat)
  /\ forall (B : Type) (rest : PumpSwapMarketCap -> M nat B),
      bind (__init__ "rpc" Fixture.mint 9 PyNone) rest 0%nat
      = (Raise failure, 3%nat).
Proof.
  intros remote failure.
  assert (H1 : Pubkey.from_string Fixture.mint = Ok Fixture.mint_key)
    by (vm_compute; reflexivity).
  assert (H2 : resolve_total_supply Fixture.mint_key PyNone 0%nat
               = (Ok (PyInt 1000000), 1%nat)) by reflexivity.
  assert (H3 : fst (_fetch_pool_from_rpc Fixture.mint 1%nat) = Ok None)
    by (vm_compute; reflexivity).
  split; [exact H1 | split; [exact H2 | split; [exact H3 |]]].
  exact (init_aborts_without_pool "rpc" Fixture.mint 9 PyNone (PyInt 1000000)
                                  Fixture.mint_key 0%nat 1%nat H1 H2 H3).
Defined.

(** The script stops with the same error. *)
Corollary main_aborts_without_pool
          {W : Type} {remote : Remote W}
          (rpc_url mint : string) (supply : pyval)
          (mint_pubkey : Pubkey) (w w1 : W) :
  Pubkey.from_string mint = Ok mint_pubkey ->
  get_token_supply mint_pubkey w = (Ok supply, w1) ->
  fst (_fetch_pool_from_rpc mint w1) = Ok None ->
  main rpc_url mint w
  = (Raise (RuntimeError ("No pool found for mint " ++ mint)),
     snd (_fetch_pool_from_rpc mint w1)).
Proof.
  intros Hmint Hsupply Hnone. unfold main.
  assert (Hinit : __init__ rpc_url mint 9 PyNone w
                  = (Raise (RuntimeError ("No pool found for mint " ++ mint)),
                     snd (_fetch_pool_from_rpc mint w1))).
  { unfold __init__.
    rewrite (lift_bind_ok _ _ _ _ Hmint).
    unfold resolve_total_supply. rewrite (bind_ok _ _ _ _ _ Hsupply).
    unfold bind at 1.
    destruct (_fetch_pool_from_rpc mint w1) as [r w']; simpl in *.
    subst r; reflexivity. }
  exact (bind_raise _ _ _ _ _ Hinit).
Qed.

(** An object only comes out of [__init__] with the pool the locator chose. *)
Lemma init_returns_located_pool
      {W : Type} {remote : Remote W}
      (rpc_url mint : string) (quote_decimals : N) (total_supply : pyval)
      (self : PumpSwapMarketCap) (w w' : W) :
  __init__ rpc_url mint quote_decimals total_supply w = (Ok self, w') ->
  exists w1, fst (_fetch_pool_from_rpc mint w1) = Ok (Some (pool_id self)).
Proof.
  unfold __init__, bind, lift.
  destruct (Pubkey.from_string mint) as [mk|]; [|discriminate].
  destruct (resolve_total_supply mk total_supply w) as [[s|] w1]; [|discriminate].
  intros H. exists w1.
  destruct (_fetch_pool_from_rpc mint w1) as [[[[|a id]|]|] w2]; try discriminate.
  simpl. destruct (_fetch_pool_keys (String a id) w2) as [[[keys|]|] w3];
    try discriminate.
  destruct (get_mint_decimals mk w3) as [[d|] w4]; [|discriminate].
  unfold ret in H. injection H as <- _. reflexivity.
Qed.

(** ** The market-cap calculator *)

Section Calculator.

Context {W : Type} {remote : Remote W}.

(** The steps of [get_market_cap] up to the price in SOL, which run before
    the oracle is asked. *)
Lemma get_market_cap_after_division
      (self : PumpSwapMarketCap) (w w1 : W)
      (base_reserve quote_reserve : Z) (token_amt sol_amt price_sol : float) :
  _get_pool_reserves self w = (Ok (base_reserve, quote_reserve), w1) ->
  PyFloat.int_truediv base_reserve (pow10 (token_decimals self)) = Ok token_amt ->
  PyFloat.int_truediv quote_reserve (pow10 (quote_decimals self)) = Ok sol_amt ->
  PyFloat.truediv sol_amt token_amt = Ok price_sol ->
  get_market_cap self w
  = bind _get_sol_price_usd
         (fun sol_usd =>
            let price_usd := PyFloat.mul price_sol sol_usd in
            bind (lift (float_mul_pyval price_usd (total_supply self)))
                 (fun market_cap =>
                    ret {| token_price_sol := price_sol;
                           token_price_usd := price_usd;
                           market_cap_usd := market_cap |})) w1.
Proof.
  intros Hres Hta Hsa Hp. unfold get_market_cap.
  rewrite (bind_ok _ _ _ _ _ Hres).
  rewrite (lift_bind_ok _ _ _ _ Hta), (lift_bind_ok _ _ _ _ Hsa),
    (lift_bind_ok _ _ _ _ Hp).
  reflexivity.
Qed.

(** Once the reserves are read and the oracle has answered, the result is
    the formula of the six values. *)
Lemma get_market_cap_is_formula
      (self : PumpSwapMarketCap) (w w1 w2 : W)
      (base_reserve quote_reserve : Z) (oracle_price : float) :
  _get_pool_reserves self w = (Ok (base_reserve, quote_reserve), w1) ->
  _get_sol_price_usd w1 = (Ok oracle_price, w2) ->
  fst (get_market_cap self w)
  = market_cap_formula base_reserve quote_reserve
                       (token_decimals self) (quote_decimals self)
                       oracle_price (total_supply self).
Proof.
  intros Hres Hprice. unfold get_market_cap, market_cap_formula.
  rewrite (bind_ok _ _ _ _ _ Hres).
  cbv beta iota delta [bind lift ret].
  destruct (PyFloat.int_truediv base_reserve _) as [ta|e]; [|reflexivity].
  destruct (PyFloat.int_truediv quote_reserve _) as [sa|e]; [|reflexivity].
  destruct (PyFloat.truediv sa ta) as [p|e]; [|reflexivity].
  rewrite Hprice.
  destruct (float_mul_pyval _ _); reflexivity.
Qed.

End Calculator.

(** Zero divided by a power of ten is the float zero. *)
Lemma int_truediv_zero (d : N) :
  PyFloat.int_truediv 0 (pow10 d) = Ok (S754_zero false).
Proof.
  unfold PyFloat.int_truediv, pow10.
  assert (0 < 10 ^ Z.of_N d) by (apply Z.pow_pos_nonneg; lia).
  destruct (10 ^ Z.of_N d) as [|p|p] eqn:E; try lia.
  reflexivity.
Qed.

(** C1, as amended.  When the token amount is the float zero the calculator
    raises Python's own [ZeroDivisionError] at the division, before the
    oracle is asked; the program has no error of its own for an empty
    pool. *)
Theorem empty_pool_raises_zero_division
        {W : Type} {remote : Remote W}
        (self : PumpSwapMarketCap) (w w1 : W)
        (base_reserve quote_reserve : Z) (token_amt sol_amt : float) :
  _get_pool_reserves self w = (Ok (base_reserve, quote_reserve), w1) ->
  PyFloat.int_truediv base_reserve (pow10 (token_decimals self)) = Ok token_amt ->
  PyFloat.int_truediv quote_reserve (pow10 (quote_decimals self)) = Ok sol_amt ->
  PyFloat.is_zero token_amt = true ->
  get_market_cap self w
  = (Raise (ZeroDivisionError "float division by zero"), w1).
Proof.
  intros Hres Hta Hsa Hzero. unfold get_market_cap.
  rewrite (bind_ok _ _ _ _ _ Hres).
  rewrite (lift_bind_ok _ _ _ _ Hta), (lift_bind_ok _ _ _ _ Hsa).
  unfold PyFloat.truediv. rewrite Hzero. reflexivity.
Qed.

Lemma empty_pool_raises_zero_division_witness :
  let remote := Fixture.scripted Fixture.empty_reserve in
  let self := Fixture.sample_self (PyInt 1000000) in
  _get_pool_reserves self 0%nat = (Ok (0, 2000000000), 1%nat)
  /\ PyFloat.int_truediv 0 (pow10 (token_decimals self)) = Ok (S754_zero false)
  /\ PyFloat.int_truediv 2000000000 (pow10 (quote_decimals self)) = Ok (flt 2)
  /\ PyFloat.is_zero (S754_zero false) = true
  /\ get_market_cap self 0%nat
     = (Raise (ZeroDivisionError "float division by zero"), 1%nat).
Proof.
  intros remote self.
  assert (H1 : _get_pool_reserves self 0%nat = (Ok (0, 2000000000), 1%nat))
    by reflexivity.
  assert (H2 : PyFloat.int_truediv 0 (pow10 (token_decimals self))
               = Ok (S754_zero false)) by (apply int_truediv_zero).
  assert (H3 : PyFloat.int_truediv 2000000000 (pow10 (quote_decimals self))
               = Ok (flt 2)) by (vm_compute; reflexivity).
  assert (H4 : PyFloat.is_zero (S754_zero false) = true) by reflexivity.
  split; [exact H1 | split; [exact H2 | split; [exact H3 | split; [exact H4 |]]]].
  exact (empty_pool_raises_zero_division self 0%nat 1%nat 0 2000000000
           (S754_zero false) (flt 2) H1 H2 H3 H4).
Defined.

(** C1, as stated, fails.  With a base reserve of 0 the token amount is 0.0
    and the calculator ends in the interpreter's [ZeroDivisionError]. *)
Lemma empty_pool_is_an_arithmetic_fault :
  (let remote := Fixture.scripted Fixture.empty_reserve in
   let self := Fixture.sample_self (PyInt 1000000) in
   _get_pool_reserves self 0%nat = (Ok (0, 2000000000), 1%nat)
   /\ get_market_cap self 0%nat
      = (Raise (ZeroDivisionError "float division by zero"), 1%nat))
  /\ ~ empty_pool_is_reported.
Proof.
  split.
  - split; vm_compute; reflexivity.
  - intros H.
    destruct (H nat (Fixture.scripted Fixture.empty_reserve)
                (Fixture.sample_self (PyInt 1000000)) 0%nat 1%nat
                0 2000000000 (S754_zero false)
                eq_refl (int_truediv_zero _) eq_refl)
      as (e & He & Hfault).
    vm_compute in He. injection He as <-. discriminate Hfault.
Qed.

(** C5.  Reserves of 1_000_000_000 and 2_000_000_000 with nine decimals on
    both sides, an oracle price of 100.0 and a supply of 1_000_000 give a
    price of 2.0 SOL, 200.0 USD and a market cap of 200_000_000.0 USD. *)
Theorem market_cap_example
        {W : Type} {remote : Remote W}
        (self : PumpSwapMarketCap) (w w1 w2 : W) :
  token_decimals self = 9%N ->
  quote_decimals self = 9%N ->
  total_supply self = PyInt 1000000 \/ total_supply self = PyFlt (flt 1000000) ->
  _get_pool_reserves self w = (Ok (1000000000, 2000000000), w1) ->
  _get_sol_price_usd w1 = (Ok (flt 100), w2) ->
  get_market_cap self w
  = (Ok {| token_price_sol := flt 2;
           token_price_usd := flt 200;
           market_cap_usd := flt 200000000 |}, w2).
Proof.
  intros Htd Hqd Hsupply Hres Hprice.
  rewrite (get_market_cap_after_division self w w1 1000000000 2000000000
             (flt 1) (flt 2) (flt 2) Hres);
    try (rewrite ?Htd, ?Hqd; vm_compute; reflexivity).
  rewrite (bind_ok _ _ _ _ _ Hprice).
  destruct Hsupply as [-> | ->]; vm_compute; reflexivity.
Qed.

Lemma market_cap_example_witness :
  let remote := Fixture.scripted Fixture.three_pools in
  let self := Fixture.sample_self (PyInt 1000000) in
  token_decimals self = 9%N
  /\ quote_decimals self = 9%N
  /\ (total_supply self = PyInt 1000000 \/ total_supply self = PyFlt (flt 1000000))
  /\ _get_pool_reserves self 0%nat = (Ok (1000000000, 2000000000), 1%nat)
  /\ _get_sol_price_usd 1%nat = (Ok (flt 100), 2%nat)
  /\ get_market_cap self 0%nat
     = (Ok {| token_price_sol := flt 2;
              token_price_usd := flt 200;
              market_cap_usd := flt 200000000 |}, 2%nat).
Proof.
  intros remote self.
  assert (H3 : total_supply self = PyInt 1000000
               \/ total_supply self = PyFlt (flt 1000000)) by (left; reflexivity).
  assert (H4 : _get_pool_reserves self 0%nat
               = (Ok (1000000000, 2000000000), 1%nat)) by reflexivity.
  assert (H5 : _get_sol_price_usd 1%nat = (Ok (flt 100), 2%nat))
    by (vm_compute; reflexivity).
  split; [reflexivity | split; [reflexivity | split; [exact H3 |
    split; [exact H4 | split; [exact H5 |]]]]].
  exact (market_cap_example self 0%nat 1%nat 2%nat eq_refl eq_refl H3 H4 H5).
Defined.

(** The floats of the example in binary64: sign, 53-bit mantissa, exponent. *)
Lemma example_floats :
  flt 100 = S754_finite false 7036874417766400 (-46)
  /\ flt 2 = S754_finite false 4503599627370496 (-51)
  /\ flt 200 = S754_finite false 7036874417766400 (-45)
  /\ flt 200000000 = S754_finite false 6710886400000000 (-25).
Proof. repeat split; vm_compute; reflexivity. Qed.

(** C6.  The outcome of the market-cap computation depends on the world and
    on the object only through the two reserves, the two precisions, the
    oracle price and the supply: two invocations that agree on these six
    values end in the same result, value by value or error by error. *)
Theorem market_cap_depends_on_six_values
        {W1 : Type} {remote1 : Remote W1} {W2 : Type} {remote2 : Remote W2}
        (self1 self2 : PumpSwapMarketCap)
        (w1 w1' w1'' : W1) (w2 w2' w2'' : W2)
        (base_reserve quote_reserve : Z) (oracle_price : float) :
  token_decimals self1 = token_decimals self2 ->
  quote_decimals self1 = quote_decimals self2 ->
  total_supply self1 = total_supply self2 ->
  _get_pool_reserves self1 w1 = (Ok (base_reserve, quote_reserve), w1') ->
  _get_pool_reserves self2 w2 = (Ok (base_reserve, quote_reserve), w2') ->
  _get_sol_price_usd w1' = (Ok oracle_price, w1'') ->
  _get_sol_price_usd w2' = (Ok oracle_price, w2'') ->
  fst (get_market_cap self1 w1) = fst (get_market_cap self2 w2)
  /\ fst (get_market_cap self1 w1)
     = market_cap_formula base_reserve quote_reserve
                          (token_decimals self1) (quote_decimals self1)
                          oracle_price (total_supply self1).
Proof.
  intros Htd Hqd Hts Hr1 Hr2 Hp1 Hp2.
  rewrite (get_market_cap_is_formula self1 _ _ _ _ _ _ Hr1 Hp1).
  rewrite (get_market_cap_is_formula self2 _ _ _ _ _ _ Hr2 Hp2).
  rewrite Htd, Hqd, Hts. split; reflexivity.
Qed.

Lemma market_cap_depends_on_six_values_witness :
  let remote1 := Fixture.scripted Fixture.three_pools in
  let remote2 := Fixture.stateless (Fixture.with_oracle Fixture.ok_response) in
  let self1 := Fixture.sample_self (PyInt 1000000) in
  let self2 := Fixture.other_self (PyInt 1000000) in
  token_decimals self1 = token_decimals self2
  /\ quote_decimals self1 = quote_decimals self2
  /\ total_supply self1 = total_supply self2
  /\ _get_pool_reserves self1 5%nat = (Ok (1000000000, 2000000000), 6%nat)
  /\ _get_pool_reserves self2 tt = (Ok (1000000000, 2000000000), tt)
  /\ _get_sol_price_usd 6%nat = (Ok (flt 100), 7%nat)
  /\ _get_sol_price_usd tt = (Ok (flt 100), tt)
  /\ fst (get_market_cap self1 5%nat) = fst (get_market_cap self2 tt)
  /\ fst (get_market_cap self1 5%nat)
     = market_cap_formula 1000000000 2000000000
                          (token_decimals self1) (quote_decimals self1)
                          (flt 100) (total_supply self1).
Proof.
  intros remote1 remote2 self1 self2.
  assert (H4 : _get_pool_reserves self1 5%nat
               = (Ok (1000000000, 2000000000), 6%nat)) by reflexivity.
  assert (H5 : _get_pool_reserves self2 tt
               = (Ok (1000000000, 2000000000), tt)) by reflexivity.
  assert (H6 : _get_sol_price_usd 6%nat = (Ok (flt 100), 7%nat))
    by (vm_compute; reflexivity).
  assert (H7 : _get_sol_price_usd tt = (Ok (flt 100), tt))
    by (vm_compute; reflexivity).
  split; [reflexivity | split; [reflexivity | split; [reflexivity |
    split; [exact H4 | split; [exact H5 | split; [exact H6 |
    split; [exact H7 |]]]]]]].
  exact (market_cap_depends_on_six_values self1 self2 5%nat 6%nat 7%nat tt tt tt
           1000000000 2000000000 (flt 100)
           eq_refl eq_refl eq_refl H4 H5 H6 H7).
Defined.

(** ** The price oracle *)

(** What [_get_sol_price_usd] makes of an answer: an HTTP error for the 4xx
    and 5xx classes, otherwise an error when the body is not an object with a
    ["Price"] member, a [KeyError] when it is an object. *)
Lemma price_fetch_raises
      {W : Type} {remote : Remote W} (w w' : W) (resp : Response) :
  requests_get DIA_URL w = (Ok resp, w') ->
  error_status resp \/ (forall v, ~ has_price resp v) ->
  exists e,
    _get_sol_price_usd w = (Raise e, w')
    /\ (error_status resp -> e = HTTPError (status_code resp))
    /\ (~ error_status resp ->
        forall members, body resp = Some (JObj members) -> e = KeyError "Price").
Proof.
  intros Hget Hbad. unfold _get_sol_price_usd.
  rewrite (bind_ok _ _ _ _ _ Hget).
  unfold raise_for_status, error_status in *.
  destruct ((400 <=? status_code resp) && (status_code resp <? 600)) eqn:Hst.
  - apply andb_true_iff in Hst.
    eexists; split; [reflexivity | split; [reflexivity | intros Hn; lia]].
  - assert (Hnot : ~ 400 <= status_code resp < 600).
    { apply andb_false_iff in Hst. destruct Hst; lia. }
    destruct Hbad as [Herr | Hno]; [contradiction|].
    cbv beta iota delta [bind lift]. unfold Response_json.
    destruct (body resp) as [j|] eqn:Hbody.
    + destruct j as [ | | | | | |members];
        try (eexists; split; [reflexivity |
             split; [intros; contradiction | intros _ m [=]]]).
      simpl. destruct (dict_get members "Price") as [v|] eqn:Hv.
      * exfalso. apply (Hno v). exists members; auto.
      * eexists; split; [reflexivity |
          split; [intros; contradiction | reflexivity]].
    + eexists; split; [reflexivity |
        split; [intros; contradiction | intros _ m [=]]].
Qed.

(** C7, as amended.  When the oracle answers with a 4xx or 5xx status, or
    with a body that has no ["Price"] member, the price fetch raises (an
    [HTTPError] for the status, a [KeyError] for an object without the
    member); the error leaves [get_market_cap] and the script in the world of
    that single request, so no market cap is produced. *)
Theorem oracle_failure_is_fatal
        {W : Type} {remote : Remote W}
        (rpc_url mint : string) (self : PumpSwapMarketCap) (w w0 w1 w2 : W)
        (base_reserve quote_reserve : Z) (token_amt sol_amt price_sol : float)
        (resp : Response) :
  __init__ rpc_url mint 9 PyNone w = (Ok self, w0) ->
  _get_pool_reserves self w0 = (Ok (base_reserve, quote_reserve), w1) ->
  PyFloat.int_truediv base_reserve (pow10 (token_decimals self)) = Ok token_amt ->
  PyFloat.int_truediv quote_reserve (pow10 (quote_decimals self)) = Ok sol_amt ->
  PyFloat.truediv sol_amt token_amt = Ok price_sol ->
  requests_get DIA_URL w1 = (Ok resp, w2) ->
  error_status resp \/ (forall v, ~ has_price resp v) ->
  exists e,
    _get_sol_price_usd w1 = (Raise e, w2)
    /\ (error_status resp -> e = HTTPError (status_code resp))
    /\ (~ error_status resp ->
        forall members, body resp = Some (JObj members) -> e = KeyError "Price")
    /\ get_market_cap self w0 = (Raise e, w2)
    /\ main rpc_url mint w = (Raise e, w2).
Proof.
  intros Hinit Hres Hta Hsa Hp Hget Hbad.
  destruct (price_fetch_raises w1 w2 resp Hget Hbad)
    as (e & Hfetch & Hstatus & Hkey).
  assert (Hcap : get_market_cap self w0 = (Raise e, w2)).
  { rewrite (get_market_cap_after_division self w0 w1 _ _ _ _ _ Hres Hta Hsa Hp).
    exact (bind_raise _ _ _ _ _ Hfetch). }
  exists e. repeat split; auto.
  unfold main. rewrite (bind_ok _ _ _ _ _ Hinit). exact Hcap.
Qed.

Lemma oracle_failure_is_fatal_witness :
  (let remote := Fixture.scripted (Fixture.with_oracle Fixture.server_error) in
   let resp := Fixture.server_error in
   __init__ "rpc" Fixture.mint 9 PyNone 0%nat = (Ok Fixture.first_pool_self, 7%nat)
   /\ _get_pool_reserves Fixture.first_pool_self 7%nat
      = (Ok (1000000000, 2000000000), 8%nat)
   /\ PyFloat.int_truediv 1000000000 (pow10 9) = Ok (flt 1)
   /\ PyFloat.int_truediv 2000000000 (pow10 9) = Ok (flt 2)
   /\ PyFloat.truediv (flt 2) (flt 1) = Ok (flt 2)
   /\ requests_get DIA_URL 8%nat = (Ok resp, 9%nat)
   /\ (error_status resp \/ (forall v, ~ has_price resp v))
   /\ _get_sol_price_usd 8%nat = (Raise (HTTPError 503), 9%nat)
   /\ get_market_cap Fixture.first_pool_self 7%nat = (Raise (HTTPError 503), 9%nat)
   /\ main "rpc" Fixture.mint 0%nat = (Raise (HTTPError 503), 9%nat))
  /\
  (let remote := Fixture.scripted (Fixture.with_oracle Fixture.no_price) in
   let resp := Fixture.no_price in
   __init__ "rpc" Fixture.mint 9 PyNone 0%nat = (Ok Fixture.first_pool_self, 7%nat)
   /\ _get_pool_reserves Fixture.first_pool_self 7%nat
      = (Ok (1000000000, 2000000000), 8%nat)
   /\ PyFloat.int_truediv 1000000000 (pow10 9) = Ok (flt 1)
   /\ PyFloat.int_truediv 2000000000 (pow10 9) = Ok (flt 2)
   /\ PyFloat.truediv (flt 2) (flt 1) = Ok (flt 2)
   /\ requests_get DIA_URL 8%nat = (Ok resp, 9%nat)
   /\ (error_status resp \/ (forall v, ~ has_price resp v))
   /\ _get_sol_price_usd 8%nat = (Raise (KeyError "Price"), 9%nat)
   /\ get_market_cap Fixture.first_pool_self 7%nat = (Raise (KeyError "Price"), 9%nat)
   /\ main "rpc" Fixture.mint 0%nat = (Raise (KeyError "Price"), 9%nat)).
Proof.
  split; intros remote resp.
  - assert (H1 : __init__ "rpc" Fixture.mint 9 PyNone 0%nat
                 = (Ok Fixture.first_pool_self, 7%nat)) by (vm_compute; reflexivity).
    assert (H2 : _get_pool_reserves Fixture.first_pool_self 7%nat
                 = (Ok (1000000000, 2000000000), 8%nat)) by reflexivity.
    assert (H3 : PyFloat.int_truediv 1000000000 (pow10 9) = Ok (flt 1))
      by (vm_compute; reflexivity).
    assert (H4 : PyFloat.int_truediv 2000000000 (pow10 9) = Ok (flt 2))
      by (vm_compute; reflexivity).
    assert (H5 : PyFloat.truediv (flt 2) (flt 1) = Ok (flt 2))
      by (vm_compute; reflexivity).
    assert (H6 : requests_get DIA_URL 8%nat = (Ok resp, 9%nat)) by reflexivity.
    assert (H7 : error_status resp \/ (forall v, ~ has_price resp v))
      by (left; unfold error_status; simpl; lia).
    destruct (oracle_failure_is_fatal "rpc" Fixture.mint Fixture.first_pool_self
                0%nat 7%nat 8%nat 9%nat 1000000000 2000000000
                (flt 1) (flt 2) (flt 2) resp H1 H2 H3 H4 H5 H6 H7)
      as (e & Hfetch & Hstatus & _ & Hcap & Hmain).
    assert (He : e = HTTPError 503)
      by (apply Hstatus; unfold error_status; simpl; lia).
    rewrite He in Hfetch, Hcap, Hmain.
    repeat (split; [assumption|]). assumption.
  - assert (H1 : __init__ "rpc" Fixture.mint 9 PyNone 0%nat
                 = (Ok Fixture.first_pool_self, 7%nat)) by (vm_compute; reflexivity).
    assert (H2 : _get_pool_reserves Fixture.first_pool_self 7%nat
                 = (Ok (1000000000, 2000000000), 8%nat)) by reflexivity.
    assert (H3 : PyFloat.int_truediv 1000000000 (pow10 9) = Ok (flt 1))
      by (vm_compute; reflexivity).
    assert (H4 : PyFloat.int_truediv 2000000000 (pow10 9) = Ok (flt 2))
      by (vm_compute; reflexivity).
    assert (H5 : PyFloat.truediv (flt 2) (flt 1) = Ok (flt 2))
      by (vm_compute; reflexivity).
    assert (H6 : requests_get DIA_URL 8%nat = (Ok resp, 9%nat)) by reflexivity.
    assert (H7 : error_status resp \/ (forall v, ~ has_price resp v)).
    { right. intros v (members & [= <-] & Hv). discriminate Hv. }
    destruct (oracle_failure_is_fatal "rpc" Fixture.mint Fixture.first_pool_self
                0%nat 7%nat 8%nat 9%nat 1000000000 2000000000
                (flt 1) (flt 2) (flt 2) resp H1 H2 H3 H4 H5 H6 H7)
      as (e & Hfetch & _ & Hkey & Hcap & Hmain).
    assert (He : e = KeyError "Price").
    { apply (Hkey ltac:(unfold error_status; simpl; lia)
                  [("Symbol", JStr "SOL")]). reflexivity. }
    rewrite He in Hfetch, Hcap, Hmain.
    repeat (split; [assumption|]). assumption.
Defined.

(** C7, as stated, fails.  A 300 answer is outside the 2xx class, yet
    [raise_for_status] lets it pass and its price is returned. *)
Lemma non_2xx_answer_can_succeed :
  (let remote := Fixture.scripted (Fixture.with_oracle Fixture.multiple_choices) in
   requests_get DIA_URL 0%nat = (Ok Fixture.multiple_choices, 1%nat)
   /\ status_code Fixture.multiple_choices = 300
   /\ _get_sol_price_usd 0%nat = (Ok (flt 100), 1%nat))
  /\ ~ bad_answer_always_raises.
Proof.
  split.
  - repeat split; vm_compute; reflexivity.
  - intros H.
    destruct (H nat (Fixture.scripted (Fixture.with_oracle Fixture.multiple_choices))
                0%nat 1%nat Fixture.multiple_choices eq_refl)
      as (e & He).
    + left. simpl. lia.
    + vm_compute in He. discriminate He.
Qed.

(** ** The pool record layout *)

Lemma byte_to_of_Z (z : Z) : byte_to_Z (byte_of_Z z) = z mod 256.
Proof.
  unfold byte_to_Z, byte_of_Z.
  pose proof (Z.mod_pos_bound z 256 ltac:(lia)) as Hb.
  destruct (Byte.of_N (Z.to_N (z mod 256))) as [b|] eqn:E.
  - apply Byte.to_of_N in E. rewrite E. apply Z2N.id. lia.
  - apply Byte.of_N_None_iff in E. lia.
Qed.

Lemma length_le_encode (width : nat) :
  forall z, List.length (le_encode width z) = width.
Proof. induction width; intros z; simpl; [reflexivity | now rewrite IHwidth]. Qed.

Lemma le_decode_encode (width : nat) :
  forall z, 0 <= z < 256 ^ Z.of_nat width ->
            le_decode (le_encode width z) = z.
Proof.
  induction width as [|n IH]; intros z Hz.
  - simpl in *. lia.
  - cbn [le_encode le_decode]. rewrite byte_to_of_Z, IH.
    + symmetry. rewrite Z.add_comm. apply Z.div_mod. lia.
    + rewrite Nat2Z.inj_succ, Z.pow_succ_r in Hz by lia.
      split; [apply Z.div_pos; lia | apply Z.div_lt_upper_bound; lia].
Qed.

Section Parsing.

Import Construct.

Lemma parse_one_app (c : construct) (bs rest : list byte) :
  List.length bs = sizeof c ->
  parse_one c (bs ++ rest) = Ok (interpret c bs, rest).
Proof.
  intros Hlen. unfold parse_one, stream_read. rewrite <- Hlen.
  replace (Nat.leb (List.length bs) (List.length (bs ++ rest))) with true
    by (symmetry; apply Nat.leb_le; rewrite length_app; lia).
  rewrite firstn_app, skipn_app, firstn_all, skipn_all, Nat.sub_diag.
  simpl. rewrite app_nil_r. reflexivity.
Qed.

Lemma parse_field_app (name : option string) (c : construct)
      (fields : Struct) (bs rest : list byte) :
  List.length bs = sizeof c ->
  parse ((name, c) :: fields) (bs ++ rest)
  = match parse fields rest with
    | Raise e => Raise e
    | Ok ctx =>
        Ok match name with
           | Some n => (n, interpret c bs) :: ctx
           | None => ctx
           end
    end.
Proof. intros Hlen. cbn [parse]. rewrite parse_one_app by exact Hlen. reflexivity. Qed.

End Parsing.

(** Field by field, [POOL_LAYOUT] reads an encoded record back. *)
Lemma parse_encoded_pool (r : PoolRecord) (trailing : list byte) :
  well_formed r ->
  Construct.parse POOL_LAYOUT (encode_pool r ++ trailing) = Ok (container_of r).
Proof.
  intros (Hs & Hbump & Hidx & Hc & Hbm & Hqm & Hlp & Hba & Hqa & Hsup & Hcc).
  unfold POOL_LAYOUT, encode_pool. rewrite <- !app_assoc.
  repeat (rewrite parse_field_app
           by (first [assumption | apply length_le_encode])).
  cbn [Construct.parse Construct.interpret]. unfold container_of.
  rewrite !le_decode_encode by assumption. reflexivity.
Qed.

(** The decoder of the program reads back the five addresses it keeps; its
    [creator] is the coin creator of the record. *)
Lemma fetch_pool_keys_decodes
      {W : Type} {remote : Remote W}
      (pool_id : string) (amm : Pubkey) (r : PoolRecord)
      (trailing : list byte) (w w' : W) :
  well_formed r ->
  Pubkey.from_string pool_id = Ok amm ->
  get_account_data amm w = (Ok (encode_pool r ++ trailing), w') ->
  _fetch_pool_keys pool_id w
  = (Ok (Some {| amm := amm;
             base_mint := rec_base_mint r;
             quote_mint := rec_quote_mint r;
             pool_base_token_account := rec_pool_base_token_account r;
             pool_quote_token_account := rec_pool_quote_token_account r;
             creator := rec_coin_creator r |}), w').
Proof.
  intros Hwf Hid Hdata. unfold _fetch_pool_keys, try_except.
  rewrite (lift_bind_ok _ _ _ _ Hid), (bind_ok _ _ _ _ _ Hdata).
  rewrite (lift_bind_ok _ _ _ _ (parse_encoded_pool r trailing Hwf)).
  destruct Hwf as (_ & _ & _ & _ & Hbm & Hqm & _ & Hba & Hqa & _ & Hcc).
  unfold lift, pool_keys_of, pubkey_attr, container_of, Pubkey.from_bytes.
  cbn [Construct.getattr String.eqb Ascii.eqb Bool.eqb].
  rewrite Hbm, Hqm, Hba, Hqa, Hcc. reflexivity.
Qed.

(** C4.  A buffer that holds eight skipped bytes, the bump, the index, the
    six addresses, the lp supply and the coin creator at their layout
    offsets, followed by anything, decodes to exactly those field values;
    and from such a buffer the program's decoder returns the addresses of
    the record. *)
Theorem pool_layout_round_trip (r : PoolRecord) (trailing : list byte) :
  well_formed r ->
  Construct.parse POOL_LAYOUT (encode_pool r ++ trailing) = Ok (container_of r)
  /\ forall (W : Type) (remote : Remote W) (pool_id : string) (amm : Pubkey)
            (w w' : W),
      Pubkey.from_string pool_id = Ok amm ->
      get_account_data amm w = (Ok (encode_pool r ++ trailing), w') ->
      _fetch_pool_keys pool_id w
      = (Ok (Some {| amm := amm;
                 base_mint := rec_base_mint r;
                 quote_mint := rec_quote_mint r;
                 pool_base_token_account := rec_pool_base_token_account r;
                 pool_quote_token_account := rec_pool_quote_token_account r;
                 creator := rec_coin_creator r |}), w').
Proof.
  intros Hwf. split.
  - exact (parse_encoded_pool r trailing Hwf).
  - intros W remote pool_id amm w w'.
    exact (fetch_pool_keys_decodes pool_id amm r trailing w w' Hwf).
Qed.

Lemma pool_layout_round_trip_witness :
  let remote := Fixture.scripted Fixture.three_pools in
  let r := Fixture.pool_record x11 x12 in
  let pool_id := Pubkey.to_string (Fixture.key xa2) in
  well_formed r
  /\ Construct.parse POOL_LAYOUT (encode_pool r ++ []) = Ok (container_of r)
  /\ Pubkey.from_string pool_id = Ok (Fixture.key xa2)
  /\ get_account_data (Fixture.key xa2) 0%nat = (Ok (encode_pool r ++ []), 1%nat)
  /\ _fetch_pool_keys pool_id 0%nat
     = (Ok (Some {| amm := Fixture.key xa2;
                base_mint := Fixture.mint_key;
                quote_mint := WSOL;
                pool_base_token_account := Fixture.key x11;
                pool_quote_token_account := Fixture.key x12;
                creator := Fixture.key x04 |}), 1%nat).
Proof.
  intros remote r pool_id.
  assert (H : well_formed r) by (unfold well_formed; simpl; repeat split; lia).
  assert (H1 : Pubkey.from_string pool_id = Ok (Fixture.key xa2))
    by (vm_compute; reflexivity).
  assert (H2 : get_account_data (Fixture.key xa2) 0%nat
               = (Ok (encode_pool r ++ []), 1%nat)) by (vm_compute; reflexivity).
  destruct (pool_layout_round_trip r [] H) as [Hparse Hkeys].
  split; [exact H | split; [exact Hparse | split; [exact H1 | split; [exact H2 |]]]].
  exact (Hkeys nat remote pool_id (Fixture.key xa2) 0%nat 1%nat H1 H2).
Defined.

(** ** What the locator reads *)

Lemma slice_app (lo hi : nat) (pre mid post : list byte) :
  List.length pre = lo ->
  List.length mid = (hi - lo)%nat ->
  slice lo hi (pre ++ mid ++ post) = mid.
Proof.
  intros <- Hmid. unfold slice. rewrite <- Hmid.
  rewrite skipn_app, skipn_all, Nat.sub_diag. simpl.
  rewrite firstn_app, firstn_all, Nat.sub_diag. simpl.
  apply app_nil_r.
Qed.

(** The byte ranges the locator slices, and the two offsets of the filters,
    are those of the layout: 43 and 75 hold the mints, 139 and 171 the
    reserve accounts. *)
Lemma layout_offsets (r : PoolRecord) (trailing : list byte) :
  well_formed r ->
  let data := encode_pool r ++ trailing in
  slice 43 75 data = rec_base_mint r
  /\ slice 75 107 data = rec_quote_mint r
  /\ slice 139 171 data = rec_pool_base_token_account r
  /\ slice 171 203 data = rec_pool_quote_token_account r.
Proof.
  intros (Hs & _ & _ & Hc & Hbm & Hqm & Hlp & Hba & Hqa & _ & _) data.
  unfold data, encode_pool.
  set (s := rec_skipped r) in *. set (b := le_encode 1 _).
  set (i := le_encode 2 _). set (c := rec_creator r) in *.
  set (bm := rec_base_mint r) in *. set (qm := rec_quote_mint r) in *.
  set (lp := rec_lp_mint r) in *.
  set (ba := rec_pool_base_token_account r) in *.
  set (qa := rec_pool_quote_token_account r) in *.
  set (tl := le_encode 8 _ ++ _).
  assert (Hb : List.length b = 1%nat) by apply length_le_encode.
  assert (Hi : List.length i = 2%nat) by apply length_le_encode.
  repeat split.
  - replace ((s ++ b ++ i ++ c ++ bm ++ qm ++ lp ++ ba ++ qa ++ tl) ++ trailing)
      with ((s ++ b ++ i ++ c) ++ bm ++ (qm ++ lp ++ ba ++ qa ++ tl ++ trailing))
      by (rewrite <- !app_assoc; reflexivity).
    apply slice_app; [rewrite !length_app; lia | lia].
  - replace ((s ++ b ++ i ++ c ++ bm ++ qm ++ lp ++ ba ++ qa ++ tl) ++ trailing)
      with ((s ++ b ++ i ++ c ++ bm) ++ qm ++ (lp ++ ba ++ qa ++ tl ++ trailing))
      by (rewrite <- !app_assoc; reflexivity).
    apply slice_app; [rewrite !length_app; lia | lia].
  - replace ((s ++ b ++ i ++ c ++ bm ++ qm ++ lp ++ ba ++ qa ++ tl) ++ trailing)
      with ((s ++ b ++ i ++ c ++ bm ++ qm ++ lp) ++ ba ++ (qa ++ tl ++ trailing))
      by (rewrite <- !app_assoc; reflexivity).
    apply slice_app; [rewrite !length_app; lia | lia].
  - replace ((s ++ b ++ i ++ c ++ bm ++ qm ++ lp ++ ba ++ qa ++ tl) ++ trailing)
      with ((s ++ b ++ i ++ c ++ bm ++ qm ++ lp ++ ba) ++ qa ++ (tl ++ trailing))
      by (rewrite <- !app_assoc; reflexivity).
    apply slice_app; [rewrite !length_app; lia | lia].
Qed.

(** A candidate is scored exactly when both embedded addresses are 32 bytes
    long and both balance reads succeed, one after the other. *)
Lemma read_candidate_ok_iff
      {W : Type} {remote : Remote W} (acct : KeyedAccount) (w w' : W)
      (bal_base bal_quote : Z) :
  read_candidate acct w = (Ok (bal_base, bal_quote), w')
  <-> exists base_acc quote_acc w1,
      Pubkey.from_bytes (slice 139 171 (account_data acct)) = Ok base_acc
      /\ Pubkey.from_bytes (slice 171 203 (account_data acct)) = Ok quote_acc
      /\ get_token_account_balance base_acc w = (Ok bal_base, w1)
      /\ get_token_account_balance quote_acc w1 = (Ok bal_quote, w').
Proof.
  unfold read_candidate. cbv beta iota zeta delta [bind lift ret].
  destruct (Pubkey.from_bytes (slice 139 171 _)) as [ba|e1].
  - destruct (Pubkey.from_bytes (slice 171 203 _)) as [qa|e2].
    + destruct (get_token_account_balance ba w) as [[b|e3] w1] eqn:Hb.
      * destruct (get_token_account_balance qa w1) as [[q|e4] w2] eqn:Hq.
        -- split.
           ++ intros [= <- <- <-]. exists ba, qa, w1. auto.
           ++ intros (ba' & qa' & w1' & [= <-] & [= <-] & Hb' & Hq').
              rewrite Hb in Hb'. injection Hb' as <- <-.
              rewrite Hq in Hq'. injection Hq' as <- <-. reflexivity.
        -- split; [discriminate|].
           intros (ba' & qa' & w1' & [= <-] & [= <-] & Hb' & Hq').
           rewrite Hb in Hb'. injection Hb' as <- <-.
           rewrite Hq in Hq'. discriminate.
      * split; [discriminate|].
        intros (ba' & qa' & w1' & [= <-] & _ & Hb' & _).
        rewrite Hb in Hb'. discriminate.
    + split; [discriminate|].
      intros (ba' & qa' & w1' & _ & H & _). discriminate.
  - split; [discriminate|].
    intros (ba' & qa' & w1' & H & _). discriminate.
Qed.

(** Without a scored candidate the locator finds nothing. *)
Lemma locator_not_found_without_candidates
      {W : Type} {remote : Remote W} (mint : string) (w : W) :
  scored_candidates mint w = Ok [] ->
  fst (_fetch_pool_from_rpc mint w) = Ok None.
Proof. intros H. rewrite (fetch_pool_completes mint w [] H). reflexivity. Qed.

(** X9.  The price fetch succeeds exactly on an answer whose status is
    outside the 4xx and 5xx classes and whose body is an object with a
    ["Price"] that [float] accepts; the price is that conversion. *)
Lemma price_fetch_ok_iff
      {W : Type} {remote : Remote W} (w w' : W) (resp : Response) (p : float) :
  requests_get DIA_URL w = (Ok resp, w') ->
  _get_sol_price_usd w = (Ok p, w')
  <-> ~ error_status resp
      /\ exists v, has_price resp v /\ py_float float_of_str v = Ok p.
Proof.
  intros Hget. unfold _get_sol_price_usd. rewrite (bind_ok _ _ _ _ _ Hget).
  unfold raise_for_status, error_status, has_price, Response_json.
  cbv beta iota delta [bind lift].
  destruct ((400 <=? status_code resp) && (status_code resp <? 600)) eqn:Hst.
  - apply andb_true_iff in Hst. split; [discriminate | intros [H _]; lia].
  - apply andb_false_iff in Hst.
    destruct (body resp) as [j|].
    + destruct j as [ | | | | | |members];
        try (split; [discriminate | intros (_ & v & (m & [=] & _) & _)]).
      simpl. destruct (dict_get members "Price") as [v|] eqn:Hv.
      * split.
        -- intros [= Hp]. split; [lia|]. exists v. split; [|exact Hp].
           exists members. auto.
        -- intros (_ & v' & (m & [= <-] & Hv') & Hp).
           rewrite Hv in Hv'. injection Hv' as <-. rewrite Hp. reflexivity.
      * split; [discriminate|].
        intros (_ & v' & (m & [= <-] & Hv') & _). congruence.
    + split; [discriminate | intros (_ & v & (m & [=] & _) & _)].
Qed.

(** ** The script as it is committed *)

(** With the empty [mint_str] of the source the script stops at the first
    statement of [__init__], before any remote call. *)
Lemma main_with_empty_mint
      {W : Type} {remote : Remote W} (rpc_url : string) (w : W) :
  main rpc_url "" w = (Raise (ValueError "String is the wrong size"), w).
Proof. reflexivity. Qed.

(** ** The key decoder on arbitrary account data *)

Lemma length_slice (lo hi : nat) (data : list byte) :
  (lo <= hi)%nat -> (hi <= List.length data)%nat ->
  List.length (slice lo hi data) = (hi - lo)%nat.
Proof.
  intros Hlo Hhi. unfold slice. rewrite length_firstn, length_skipn. lia.
Qed.

Section ParsingAt.

Import Construct.

Lemma parse_one_at (c : construct) (data : list byte) (lo hi : nat) :
  hi = (lo + sizeof c)%nat ->
  (hi <= List.length data)%nat ->
  parse_one c (skipn lo data) = Ok (interpret c (slice lo hi data), skipn hi data).
Proof.
  intros -> Hlen. unfold parse_one, stream_read, slice.
  rewrite length_skipn.
  replace (Nat.leb (sizeof c) (List.length data - lo)) with true
    by (symmetry; apply Nat.leb_le; lia).
  rewrite skipn_skipn.
  replace (lo + sizeof c - lo)%nat with (sizeof c) by lia.
  replace (sizeof c + lo)%nat with (lo + sizeof c)%nat by lia.
  reflexivity.
Qed.

Lemma parse_field_at (name : option string) (c : construct) (fields : Struct)
      (data : list byte) (lo hi : nat) :
  hi = (lo + sizeof c)%nat ->
  (hi <= List.length data)%nat ->
  parse ((name, c) :: fields) (skipn lo data)
  = match parse fields (skipn hi data) with
    | Raise e => Raise e
    | Ok ctx =>
        Ok match name with
           | Some n => (n, interpret c (slice lo hi data)) :: ctx
           | None => ctx
           end
    end.
Proof.
  intros Hhi Hlen. cbn [parse].
  rewrite (parse_one_at c data lo hi Hhi Hlen). reflexivity.
Qed.

(** A stream shorter than the layout makes [parse] raise [StreamError]. *)
Lemma parse_short (s : Struct) :
  forall stream,
    (List.length stream < layout_size s)%nat ->
    parse s stream = Raise StreamError.
Proof.
  induction s as [|[name c] fields IH]; intros stream Hlen; simpl in *; [lia|].
  unfold parse_one, stream_read.
  destruct (Nat.leb_spec (sizeof c) (List.length stream)) as [Hle|Hgt];
    [|reflexivity].
  rewrite IH; [reflexivity|]. rewrite length_skipn. lia.
Qed.

End ParsingAt.

(** Given 243 bytes or more, [POOL_LAYOUT] reads each field from its own byte
    range. *)
Lemma parse_layout_at (data : list byte) :
  (243 <= List.length data)%nat ->
  Construct.parse POOL_LAYOUT data = Ok (container_at data).
Proof.
  intros Hlen. change data with (skipn 0 data) at 1. unfold POOL_LAYOUT.
  rewrite (parse_field_at _ _ _ data 0 8) by (simpl; lia).
  rewrite (parse_field_at _ _ _ data 8 9) by (simpl; lia).
  rewrite (parse_field_at _ _ _ data 9 11) by (simpl; lia).
  rewrite (parse_field_at _ _ _ data 11 43) by (simpl; lia).
  rewrite (parse_field_at _ _ _ data 43 75) by (simpl; lia).
  rewrite (parse_field_at _ _ _ data 75 107) by (simpl; lia).
  rewrite (parse_field_at _ _ _ data 107 139) by (simpl; lia).
  rewrite (parse_field_at _ _ _ data 139 171) by (simpl; lia).
  rewrite (parse_field_at _ _ _ data 171 203) by (simpl; lia).
  rewrite (parse_field_at _ _ _ data 203 211) by (simpl; lia).
  rewrite (parse_field_at _ _ _ data 211 243) by (simpl; lia).
  reflexivity.
Qed.

Lemma pool_keys_of_container_at (amm : Pubkey) (data : list byte) :
  (243 <= List.length data)%nat ->
  pool_keys_of amm (container_at data)
  = Ok {| amm := amm;
          base_mint := slice 43 75 data;
          quote_mint := slice 75 107 data;
          pool_base_token_account := slice 139 171 data;
          pool_quote_token_account := slice 171 203 data;
          creator := slice 211 243 data |}.
Proof.
  intros Hlen.
  unfold pool_keys_of, pubkey_attr, container_at, Pubkey.from_bytes, Pubkey.LENGTH.
  cbn [Construct.getattr String.eqb Ascii.eqb Bool.eqb].
  rewrite !length_slice by lia. reflexivity.
Qed.

(** X1.  On account data of 243 bytes or more the key decoder succeeds, and
    the addresses it returns are the byte ranges 43-75, 75-107, 139-171,
    171-203 and 211-243 of the data: the two reserve accounts are the very
    ranges the locator slices, and [creator] is the coin creator at the end
    of the record, not the creator at bytes 11-43. *)
Theorem fetch_pool_keys_reads_byte_ranges
        {W : Type} {remote : Remote W}
        (pool_id : string) (amm : Pubkey) (data : list byte) (w w' : W) :
  Pubkey.from_string pool_id = Ok amm ->
  get_account_data amm w = (Ok data, w') ->
  (243 <= List.length data)%nat ->
  _fetch_pool_keys pool_id w
  = (Ok (Some {| amm := amm;
             base_mint := slice 43 75 data;
             quote_mint := slice 75 107 data;
             pool_base_token_account := slice 139 171 data;
             pool_quote_token_account := slice 171 203 data;
             creator := slice 211 243 data |}), w').
Proof.
  intros Hid Hdata Hlen. unfold _fetch_pool_keys, try_except.
  rewrite (lift_bind_ok _ _ _ _ Hid), (bind_ok _ _ _ _ _ Hdata).
  rewrite (lift_bind_ok _ _ _ _ (parse_layout_at data Hlen)).
  unfold lift. rewrite (pool_keys_of_container_at amm data Hlen). reflexivity.
Qed.

Lemma fetch_pool_keys_reads_byte_ranges_witness :
  let remote := Fixture.scripted Scenario.counting_data in
  let pool_id := Pubkey.to_string (Fixture.key xa2) in
  let range lo := map (fun n => byte_of_Z (Z.of_nat n)) (seq lo 32) in
  Pubkey.from_string pool_id = Ok (Fixture.key xa2)
  /\ get_account_data (Fixture.key xa2) 0%nat = (Ok Scenario.counting_bytes, 1%nat)
  /\ (243 <= List.length Scenario.counting_bytes)%nat
  /\ _fetch_pool_keys pool_id 0%nat
     = (Ok (Some {| amm := Fixture.key xa2;
                base_mint := range 43%nat;
                quote_mint := range 75%nat;
                pool_base_token_account := range 139%nat;
                pool_quote_token_account := range 171%nat;
                creator := range 211%nat |}), 1%nat).
Proof.
  intros remote pool_id range.
  assert (H1 : Pubkey.from_string pool_id = Ok (Fixture.key xa2))
    by (vm_compute; reflexivity).
  assert (H2 : get_account_data (Fixture.key xa2) 0%nat
               = (Ok Scenario.counting_bytes, 1%nat)) by reflexivity.
  assert (H3 : (243 <= List.length Scenario.counting_bytes)%nat)
    by (vm_compute; lia).
  split; [exact H1 | split; [exact H2 | split; [exact H3 |]]].
  exact (fetch_pool_keys_reads_byte_ranges pool_id (Fixture.key xa2)
           Scenario.counting_bytes 0%nat 1%nat H1 H2 H3).
Defined.

(** X2.  On account data shorter than the 243 bytes of the layout the key
    decoder returns [None]: the [StreamError] of the parser is swallowed. *)
Theorem fetch_pool_keys_short_data
        {W : Type} {remote : Remote W}
        (pool_id : string) (amm : Pubkey) (data : list byte) (w w' : W) :
  Pubkey.from_string pool_id = Ok amm ->
  get_account_data amm w = (Ok data, w') ->
  (List.length data < 243)%nat ->
  Construct.parse POOL_LAYOUT data = Raise StreamError
  /\ _fetch_pool_keys pool_id w = (Ok None, w').
Proof.
  intros Hid Hdata Hlen.
  assert (Hparse : Construct.parse POOL_LAYOUT data = Raise StreamError)
    by (apply parse_short; exact Hlen).
  split; [exact Hparse |]. unfold _fetch_pool_keys, try_except.
  rewrite (lift_bind_ok _ _ _ _ Hid), (bind_ok _ _ _ _ _ Hdata).
  unfold bind, lift. rewrite Hparse. reflexivity.
Qed.

Lemma fetch_pool_keys_short_data_witness :
  let remote := Fixture.scripted Scenario.truncated_pool in
  let pool_id := Pubkey.to_string (Fixture.key xa1) in
  Pubkey.from_string pool_id = Ok (Fixture.key xa1)
  /\ get_account_data (Fixture.key xa1) 0%nat = (Ok (repeat x07 100), 1%nat)
  /\ (List.length (repeat x07 100) < 243)%nat
  /\ Construct.parse POOL_LAYOUT (repeat x07 100) = Raise StreamError
  /\ _fetch_pool_keys pool_id 0%nat = (Ok None, 1%nat).
Proof.
  intros remote pool_id.
  assert (H1 : Pubkey.from_string pool_id = Ok (Fixture.key xa1))
    by (vm_compute; reflexivity).
  assert (H2 : get_account_data (Fixture.key xa1) 0%nat
               = (Ok (repeat x07 100), 1%nat)) by reflexivity.
  assert (H3 : (List.length (repeat x07 100) < 243)%nat)
    by (rewrite repeat_length; lia).
  split; [exact H1 | split; [exact H2 | split; [exact H3 |]]].
  exact (fetch_pool_keys_short_data pool_id (Fixture.key xa1)
           (repeat x07 100) 0%nat 1%nat H1 H2 H3).
Defined.

Lemma byte_of_to_Z (b : byte) (k : Z) : byte_of_Z (byte_to_Z b + 256 * k) = b.
Proof.
  unfold byte_of_Z, byte_to_Z.
  pose proof (Byte.to_N_bounded b) as Hb.
  replace ((Z.of_N (Byte.to_N b) + 256 * k) mod 256) with (Z.of_N (Byte.to_N b)).
  - rewrite N2Z.id, Byte.of_to_N. reflexivity.
  - rewrite (Z.mul_comm 256 k), Z.mod_add by lia.
    symmetry. apply Z.mod_small. lia.
Qed.

Lemma le_decode_bounds (bs : list byte) :
  0 <= le_decode bs < 256 ^ Z.of_nat (List.length bs).
Proof.
  induction bs as [|b bs IH]; [simpl; lia|].
  cbn [le_decode List.length]. rewrite Nat2Z.inj_succ, Z.pow_succ_r by lia.
  pose proof (Byte.to_N_bounded b). unfold byte_to_Z. lia.
Qed.

Lemma le_encode_decode (bs : list byte) :
  le_encode (List.length bs) (le_decode bs) = bs.
Proof.
  induction bs as [|b bs IH]; [reflexivity|].
  cbn [le_decode List.length le_encode]. rewrite byte_of_to_Z. f_equal.
  replace ((byte_to_Z b + 256 * le_decode bs) / 256) with (le_decode bs);
    [exact IH|].
  pose proof (Byte.to_N_bounded b). unfold byte_to_Z.
  symmetry. rewrite Z.add_comm, (Z.mul_comm 256), Z.div_add_l by lia.
  rewrite Z.div_small by lia. lia.
Qed.

Lemma firstn_plus {A : Type} (n m : nat) :
  forall l : list A, firstn (n + m) l = firstn n l ++ firstn m (skipn n l).
Proof.
  induction n as [|n IH]; intros l; [reflexivity|].
  destruct l as [|a l]; simpl.
  - rewrite firstn_nil. reflexivity.
  - rewrite IH. reflexivity.
Qed.

Lemma slice_cat (lo mid hi : nat) (data : list byte) :
  (lo <= mid)%nat -> (mid <= hi)%nat ->
  slice lo mid data ++ slice mid hi data = slice lo hi data.
Proof.
  intros H1 H2. unfold slice.
  replace (hi - lo)%nat with ((mid - lo) + (hi - mid))%nat by lia.
  rewrite firstn_plus, skipn_skipn.
  replace (mid - lo + lo)%nat with mid by lia. reflexivity.
Qed.

(** X3.  Decoding loses nothing but the bytes after the layout: a buffer of
    243 bytes or more is the encoding of the record read from it, followed
    by its own remainder, and that record is what [POOL_LAYOUT] returns. *)
Theorem pool_buffer_is_its_decoding (data : list byte) :
  (243 <= List.length data)%nat ->
  well_formed (record_at data)
  /\ data = encode_pool (record_at data) ++ skipn 243 data
  /\ Construct.parse POOL_LAYOUT data = Ok (container_of (record_at data)).
Proof.
  intros Hlen. split; [|split].
  - unfold well_formed, record_at; cbn [rec_skipped rec_pool_bump rec_index
      rec_creator rec_base_mint rec_quote_mint rec_lp_mint
      rec_pool_base_token_account rec_pool_quote_token_account
      rec_lp_supply rec_coin_creator].
    pose proof (le_decode_bounds (slice 8 9 data)) as B1.
    pose proof (le_decode_bounds (slice 9 11 data)) as B2.
    pose proof (le_decode_bounds (slice 203 211 data)) as B3.
    rewrite length_slice in B1, B2, B3 by lia.
    rewrite !length_slice by lia.
    repeat split; try reflexivity; try lia;
      first [apply B1 | apply B2 | apply B3].
  - unfold encode_pool, record_at; cbn [rec_skipped rec_pool_bump rec_index
      rec_creator rec_base_mint rec_quote_mint rec_lp_mint
      rec_pool_base_token_account rec_pool_quote_token_account
      rec_lp_supply rec_coin_creator].
    replace (le_encode 1 (le_decode (slice 8 9 data))) with (slice 8 9 data).
    2:{ rewrite <- (le_encode_decode (slice 8 9 data)) at 1.
        rewrite length_slice by lia. reflexivity. }
    replace (le_encode 2 (le_decode (slice 9 11 data))) with (slice 9 11 data).
    2:{ rewrite <- (le_encode_decode (slice 9 11 data)) at 1.
        rewrite length_slice by lia. reflexivity. }
    replace (le_encode 8 (le_decode (slice 203 211 data)))
      with (slice 203 211 data).
    2:{ rewrite <- (le_encode_decode (slice 203 211 data)) at 1.
        rewrite length_slice by lia. reflexivity. }
    rewrite (slice_cat 203 211 243), (slice_cat 171 203 243),
      (slice_cat 139 171 243), (slice_cat 107 139 243), (slice_cat 75 107 243),
      (slice_cat 43 75 243), (slice_cat 11 43 243), (slice_cat 9 11 243),
      (slice_cat 8 9 243), (slice_cat 0 8 243) by lia.
    unfold slice. simpl skipn. rewrite Nat.sub_0_r.
    symmetry. apply firstn_skipn.
  - exact (parse_layout_at data Hlen).
Qed.

Lemma pool_buffer_is_its_decoding_witness :
  (243 <= List.length Scenario.counting_bytes)%nat
  /\ well_formed (record_at Scenario.counting_bytes)
  /\ Scenario.counting_bytes
     = encode_pool (record_at Scenario.counting_bytes)
       ++ skipn 243 Scenario.counting_bytes
  /\ Construct.parse POOL_LAYOUT Scenario.counting_bytes
     = Ok (container_of (record_at Scenario.counting_bytes)).
Proof.
  assert (H : (243 <= List.length Scenario.counting_bytes)%nat)
    by (vm_compute; lia).
  split; [exact H |].
  exact (pool_buffer_is_its_decoding Scenario.counting_bytes H).
Defined.

(** ** More on initialisation *)

Lemma from_string_sized (s : string) (k : Pubkey) :
  Pubkey.from_string s = Ok k -> List.length k = 32%nat.
Proof.
  unfold Pubkey.from_string, Pubkey.LENGTH.
  destruct (Nat.ltb _ _); [discriminate|].
  destruct (Base58.decode s) as [raw|]; [|discriminate].
  destruct (Nat.eqb_spec (List.length raw) 32); [|discriminate].
  intros [= <-]. assumption.
Qed.

Lemma pubkey_attr_sized (decoded : Construct.Container) (name : string)
      (k : Pubkey) :
  pubkey_attr decoded name = Ok k -> List.length k = 32%nat.
Proof.
  unfold pubkey_attr, Pubkey.from_bytes, Pubkey.LENGTH.
  destruct (Construct.getattr decoded name) as [[ | |bs]|]; try discriminate.
  destruct (Nat.eqb_spec (List.length bs) 32); [|discriminate].
  intros [= <-]. assumption.
Qed.

(** The keys the decoder returns belong to the pool id it was given, and
    every address in them has 32 bytes. *)
Lemma fetch_pool_keys_some
      {W : Type} {remote : Remote W}
      (pool_id : string) (keys : PoolKeys) (w w' : W) :
  _fetch_pool_keys pool_id w = (Ok (Some keys), w') ->
  Pubkey.from_string pool_id = Ok (amm keys) /\ keys_sized keys.
Proof.
  unfold _fetch_pool_keys, try_except. cbv beta iota zeta delta [bind lift ret].
  destruct (Pubkey.from_string pool_id) as [a|e] eqn:Hid;
    [|destruct (is_exception e); discriminate].
  destruct (get_account_data a w) as [[data|e] w1];
    [|destruct (is_exception e); discriminate].
  destruct (Construct.parse POOL_LAYOUT data) as [decoded|e];
    [|destruct (is_exception e); discriminate].
  unfold pool_keys_of.
  destruct (pubkey_attr decoded "base_mint") as [bm|e] eqn:H1;
    [|destruct (is_exception e); discriminate].
  destruct (pubkey_attr decoded "quote_mint") as [qm|e] eqn:H2;
    [|destruct (is_exception e); discriminate].
  destruct (pubkey_attr decoded "pool_base_token_account") as [ba|e] eqn:H3;
    [|destruct (is_exception e); discriminate].
  destruct (pubkey_attr decoded "pool_quote_token_account") as [qa|e] eqn:H4;
    [|destruct (is_exception e); discriminate].
  destruct (pubkey_attr decoded "coin_creator") as [cc|e] eqn:H5;
    [|destruct (is_exception e); discriminate].
  intros [= <- _]. simpl. split; [reflexivity|].
  unfold keys_sized; simpl.
  repeat split; eauto using from_string_sized, pubkey_attr_sized.
Qed.

(** X4.  When a pool is located but its keys cannot be decoded, [__init__]
    raises [RuntimeError("Failed to fetch pool keys for <pool id>")] in the
    world the decoder left: the mint's decimals are never asked for and
    nothing sequenced after the constructor runs. *)
Theorem init_aborts_without_pool_keys
        {W : Type} {remote : Remote W}
        (rpc_url mint : string) (quote_decimals : N) (total_supply supply : pyval)
        (mint_pubkey : Pubkey) (found : string) (w w1 w2 w3 : W) :
  let failure := RuntimeError ("Failed to fetch pool keys for " ++ found) in
  Pubkey.from_string mint = Ok mint_pubkey ->
  resolve_total_supply mint_pubkey total_supply w = (Ok supply, w1) ->
  _fetch_pool_from_rpc mint w1 = (Ok (Some found), w2) ->
  found <> "" ->
  _fetch_pool_keys found w2 = (Ok None, w3) ->
  __init__ rpc_url mint quote_decimals total_supply w = (Raise failure, w3)
  /\ forall (B : Type) (rest : PumpSwapMarketCap -> M W B),
      bind (__init__ rpc_url mint quote_decimals total_supply) rest w
      = (Raise failure, w3).
Proof.
  intros failure Hmint Hsupply Hfound Hne Hkeys.
  assert (Hinit : __init__ rpc_url mint quote_decimals total_supply w
                  = (Raise failure, w3)).
  { unfold __init__.
    rewrite (lift_bind_ok _ _ _ _ Hmint), (bind_ok _ _ _ _ _ Hsupply).
    unfold bind at 1. rewrite Hfound.
    destruct found as [|a rest]; [contradiction|].
    unfold bind at 1. rewrite Hkeys. reflexivity. }
  split; [exact Hinit |].
  intros B rest. exact (bind_raise _ _ _ _ _ Hinit).
Qed.

Lemma init_aborts_without_pool_keys_witness :
  let remote := Fixture.scripted Scenario.truncated_pool in
  let found := Pubkey.to_string (Fixture.key xa1) in
  let failure := RuntimeError ("Failed to fetch pool keys for " ++ found) in
  Pubkey.from_string Fixture.mint = Ok Fixture.mint_key
  /\ resolve_total_supply Fixture.mint_key PyNone 0%nat = (Ok (PyInt 1000000), 1%nat)
  /\ _fetch_pool_from_rpc Fixture.mint 1%nat = (Ok (Some found), 5%nat)
  /\ found <> ""
  /\ _fetch_pool_keys found 5%nat = (Ok None, 6%nat)
  /\ __init__ "rpc" Fixture.mint 9 PyNone 0%nat = (Raise failure, 6%nat)
  /\ forall (B : Type) (rest : PumpSwapMarketCap -> M nat B),
      bind (__init__ "rpc" Fixture.mint 9 PyNone) rest 0%nat
      = (Raise failure, 6%nat).
Proof.
  intros remote found failure.
  assert (H1 : Pubkey.from_string Fixture.mint = Ok Fixture.mint_key)
    by (vm_compute; reflexivity).
  assert (H2 : resolve_total_supply Fixture.mint_key PyNone 0%nat
               = (Ok (PyInt 1000000), 1%nat)) by reflexivity.
  assert (H3 : _fetch_pool_from_rpc Fixture.mint 1%nat = (Ok (Some found), 5%nat))
    by (vm_compute; reflexivity).
  assert (H4 : found <> "") by (vm_compute; discriminate).
  assert (H5 : _fetch_pool_keys found 5%nat = (Ok None, 6%nat))
    by (vm_compute; reflexivity).
  split; [exact H1 | split; [exact H2 | split; [exact H3 |
    split; [exact H4 | split; [exact H5 |]]]]].
  exact (init_aborts_without_pool_keys "rpc" Fixture.mint 9 PyNone
           (PyInt 1000000) Fixture.mint_key found 0%nat 1%nat 5%nat 6%nat
           H1 H2 H3 H4 H5).
Defined.

(** X5.  What holds of every object [__init__] returns: it keeps the mint
    string, its parsed key and the given quote precision, keeps a supply
    that was passed in, has a non-empty pool id that parses to the [amm] of
    its pool keys, holds only 32-byte addresses, and its pool was scored
    with strictly positive liquidity in the run of the locator. *)
Theorem init_object_invariants
        {W : Type} {remote : Remote W}
        (rpc_url mint : string) (qd : N) (ts : pyval)
        (self : PumpSwapMarketCap) (w w' : W) :
  __init__ rpc_url mint qd ts w = (Ok self, w') ->
  mint_str self = mint
  /\ Pubkey.from_string mint = Ok (mint_pubkey self)
  /\ quote_decimals self = qd
  /\ (ts <> PyNone -> total_supply self = ts)
  /\ pool_id self <> ""
  /\ Pubkey.from_string (pool_id self) = Ok (amm (pool_keys self))
  /\ keys_sized (pool_keys self)
  /\ exists w1 tr c,
      resolve_total_supply (mint_pubkey self) ts w = (Ok (total_supply self), w1)
      /\ scored_candidates mint w1 = Ok tr
      /\ In c tr
      /\ pool_id self = Pubkey.to_string (cand_key c)
      /\ 0 < liquidity c.
Proof.
  unfold __init__. cbv beta iota zeta delta [bind lift ret].
  destruct (Pubkey.from_string mint) as [mk|] eqn:Hmint; [|discriminate].
  destruct (resolve_total_supply mk ts w) as [[s|] w1] eqn:Hs; [|discriminate].
  destruct (_fetch_pool_from_rpc mint w1) as [[[[|a id]|]|] w2] eqn:Hloc;
    try discriminate.
  destruct (_fetch_pool_keys (String a id) w2) as [[[keys|]|] w3] eqn:Hkeys;
    try discriminate.
  destruct (get_mint_decimals mk w3) as [[d|] w4]; [|discriminate].
  intros [= <- _]. simpl.
  destruct (fetch_pool_keys_some _ _ _ _ Hkeys) as [Hamm Hsized].
  repeat split; try assumption; try reflexivity.
  - intros Hts. destruct ts; [contradiction | |];
      unfold resolve_total_supply, ret in Hs; congruence.
  - discriminate.
  - apply Hsized.
  - apply Hsized.
  - apply Hsized.
  - apply Hsized.
  - apply Hsized.
  - apply Hsized.
  - destruct (fetch_pool_returns _ _ _ _ Hloc) as (tr & Htr & _).
    assert (Hsc : scored_candidates mint w1 = Ok tr)
      by (unfold scored_candidates; rewrite Htr; reflexivity).
    exists w1, tr.
    destruct (locator_selects mint w1 tr Hsc)
      as [[Hnone _] | (k & c & (Hk & _) & Hpos & Hr)];
      rewrite Hloc in *; simpl in *; [discriminate|].
    exists c. injection Hr as Hr. apply nth_error_In in Hk. auto.
Qed.

Lemma init_object_invariants_witness :
  let remote := Fixture.scripted Fixture.three_pools in
  let self := Fixture.sample_self (PyInt 21000000) in
  __init__ "rpc" Fixture.mint 9 (PyInt 21000000) 0%nat = (Ok self, 10%nat)
  /\ mint_str self = Fixture.mint
  /\ Pubkey.from_string Fixture.mint = Ok (mint_pubkey self)
  /\ quote_decimals self = 9%N
  /\ total_supply self = PyInt 21000000
  /\ pool_id self <> ""
  /\ Pubkey.from_string (pool_id self) = Ok (amm (pool_keys self))
  /\ keys_sized (pool_keys self)
  /\ exists w1 tr c,
      resolve_total_supply (mint_pubkey self) (PyInt 21000000) 0%nat
      = (Ok (total_supply self), w1)
      /\ scored_candidates Fixture.mint w1 = Ok tr
      /\ In c tr
      /\ pool_id self = Pubkey.to_string (cand_key c)
      /\ 0 < liquidity c.
Proof.
  intros remote self.
  assert (H : __init__ "rpc" Fixture.mint 9 (PyInt 21000000) 0%nat
              = (Ok self, 10%nat)) by (vm_compute; reflexivity).
  destruct (init_object_invariants "rpc" Fixture.mint 9 (PyInt 21000000)
              self 0%nat 10%nat H)
    as (I1 & I2 & I3 & I4 & I5 & I6 & I7 & I8).
  assert (Hts : PyInt 21000000 <> PyNone) by discriminate.
  split; [exact H | split; [exact I1 | split; [exact I2 | split; [exact I3 |
    split; [exact (I4 Hts) | split; [exact I5 | split; [exact I6 |
    split; [exact I7 | exact I8]]]]]]]].
Defined.

(** ** More on pool location *)

Lemma filters_list_eq (mint : string) :
  filters_list mint = [token_as_base mint; token_as_quote mint].
Proof. reflexivity. Qed.

(** X6.  A node that fails both program-account queries with an
    [Exception] is not told apart from a mint without pools: the locator
    swallows the two errors and returns nothing, and [__init__] raises
    [RuntimeError("No pool found for mint ...")]. *)
Theorem rpc_failure_reported_as_not_found
        {W : Type} {remote : Remote W}
        (rpc_url mint : string) (quote_decimals : N) (total_supply supply : pyval)
        (mint_pubkey : Pubkey) (e1 e2 : exn) (w w1 w2 w3 : W) :
  Pubkey.from_string mint = Ok mint_pubkey ->
  resolve_total_supply mint_pubkey total_supply w = (Ok supply, w1) ->
  get_program_accounts PF_AMM (token_as_base mint) w1 = (Raise e1, w2) ->
  is_exception e1 = true ->
  get_program_accounts PF_AMM (token_as_quote mint) w2 = (Raise e2, w3) ->
  is_exception e2 = true ->
  _fetch_pool_from_rpc mint w1 = (Ok None, w3)
  /\ __init__ rpc_url mint quote_decimals total_supply w
     = (Raise (RuntimeError ("No pool found for mint " ++ mint)), w3).
Proof.
  intros Hmint Hsupply Hq1 He1 Hq2 He2.
  assert (Hloc : _fetch_pool_from_rpc mint w1 = (Ok None, w3)).
  { unfold _fetch_pool_from_rpc, bind. rewrite filters_list_eq.
    cbn [scan_filters]. rewrite Hq1, He1, Hq2, He2. reflexivity. }
  split; [exact Hloc |].
  unfold __init__.
  rewrite (lift_bind_ok _ _ _ _ Hmint), (bind_ok _ _ _ _ _ Hsupply).
  unfold bind at 1. rewrite Hloc. reflexivity.
Qed.

Lemma rpc_failure_reported_as_not_found_witness :
  let remote := Fixture.scripted Scenario.rpc_down in
  Pubkey.from_string Fixture.mint = Ok Fixture.mint_key
  /\ resolve_total_supply Fixture.mint_key PyNone 0%nat = (Ok (PyInt 1000000), 1%nat)
  /\ get_program_accounts PF_AMM (token_as_base Fixture.mint) 1%nat
     = (Raise RPCException, 2%nat)
  /\ is_exception RPCException = true
  /\ get_program_accounts PF_AMM (token_as_quote Fixture.mint) 2%nat
     = (Raise RPCException, 3%nat)
  /\ _fetch_pool_from_rpc Fixture.mint 1%nat = (Ok None, 3%nat)
  /\ __init__ "rpc" Fixture.mint 9 PyNone 0%nat
     = (Raise (RuntimeError ("No pool found for mint " ++ Fixture.mint)), 3%nat).
Proof.
  intros remote.
  assert (H1 : Pubkey.from_string Fixture.mint = Ok Fixture.mint_key)
    by (vm_compute; reflexivity).
  assert (H2 : resolve_total_supply Fixture.mint_key PyNone 0%nat
               = (Ok (PyInt 1000000), 1%nat)) by reflexivity.
  assert (H3 : get_program_accounts PF_AMM (token_as_base Fixture.mint) 1%nat
               = (Raise RPCException, 2%nat)) by reflexivity.
  assert (He : is_exception RPCException = true) by reflexivity.
  assert (H4 : get_program_accounts PF_AMM (token_as_quote Fixture.mint) 2%nat
               = (Raise RPCException, 3%nat)) by reflexivity.
  split; [exact H1 | split; [exact H2 | split; [exact H3 | split; [exact He |
    split; [exact H4 |]]]]].
  exact (rpc_failure_reported_as_not_found "rpc" Fixture.mint 9 PyNone
           (PyInt 1000000) Fixture.mint_key RPCException RPCException
           0%nat 1%nat 2%nat 3%nat H1 H2 H3 He H4 He).
Defined.

(** X7.  The token-as-base filter set is enumerated first, so it wins ties:
    when both queries answer and both responses are scored to the end, a
    pool of the first set has positive liquidity and no pool of the reversed
    set has more, the pool returned is one of the first set. *)
Theorem base_side_wins_ties
        {W : Type} {remote : Remote W}
        (mint : string) (w w1 w2 w3 w4 : W)
        (accts1 accts2 : list KeyedAccount) (tr1 tr2 : list Scored)
        (c1 : Scored) :
  get_program_accounts PF_AMM (token_as_base mint) w = (Ok accts1, w1) ->
  scored_accounts accts1 w1 = (Ok tr1, w2) ->
  get_program_accounts PF_AMM (token_as_quote mint) w2 = (Ok accts2, w3) ->
  scored_accounts accts2 w3 = (Ok tr2, w4) ->
  In c1 tr1 ->
  0 < liquidity c1 ->
  (forall c2, In c2 tr2 -> liquidity c2 <= liquidity c1) ->
  exists k c,
    nth_error tr1 k = Some c
    /\ liquidity c1 <= liquidity c
    /\ _fetch_pool_from_rpc mint w
       = (Ok (Some (Pubkey.to_string (cand_key c))), w4).
Proof.
  intros Hq1 Hs1 Hq2 Hs2 Hin Hpos Hle.
  assert (Htr : scored_filters (filters_list mint) w = (Ok (tr1 ++ tr2), w4)).
  { rewrite filters_list_eq. cbn [scored_filters].
    rewrite Hq1, Hs1, Hq2, Hs2. rewrite app_nil_r. reflexivity. }
  assert (Hsc : scored_candidates mint w = Ok (tr1 ++ tr2))
    by (unfold scored_candidates; rewrite Htr; reflexivity).
  assert (Hw : snd (_fetch_pool_from_rpc mint w) = w4)
    by (rewrite fetch_pool_scored, Htr; reflexivity).
  destruct (locator_selects mint w _ Hsc)
    as [[_ Hall] | (k & c & (Hk & Hmax & Hfirst) & _ & Hr)].
  - specialize (Hall c1 (in_or_app _ _ _ (or_introl Hin))). lia.
  - exists k, c.
    assert (Hc1 : liquidity c1 <= liquidity c)
      by (apply Hmax, in_or_app; left; exact Hin).
    destruct (Nat.lt_ge_cases k (List.length tr1)) as [Hlt | Hge].
    + rewrite nth_error_app1 in Hk by exact Hlt.
      repeat split; auto.
      destruct (_fetch_pool_from_rpc mint w) as [r w']; simpl in *.
      subst; reflexivity.
    + exfalso.
      destruct (In_nth_error _ _ Hin) as [j Hj].
      assert (j < List.length tr1)%nat
        by (apply nth_error_Some; rewrite Hj; discriminate).
      assert (Hlt : liquidity c1 < liquidity c).
      { apply (Hfirst j c1); [lia|]. rewrite nth_error_app1 by lia. exact Hj. }
      rewrite nth_error_app2 in Hk by exact Hge.
      apply nth_error_In in Hk. specialize (Hle _ Hk). lia.
Qed.

Lemma base_side_wins_ties_witness :
  let remote := Fixture.scripted Fixture.three_pools in
  let a1 := {| cand_key := Fixture.key xa1; cand_base := 2; cand_quote := 3 |} in
  let a2 := {| cand_key := Fixture.key xa2; cand_base := 4; cand_quote := 5 |} in
  let a3 := {| cand_key := Fixture.key xa3; cand_base := 10; cand_quote := 2 |} in
  let accts1 := [Fixture.pool_account xa1 x11 x12; Fixture.pool_account xa2 x13 x14] in
  let accts2 := [Fixture.pool_account xa3 x15 x16] in
  get_program_accounts PF_AMM (token_as_base Fixture.mint) 0%nat = (Ok accts1, 1%nat)
  /\ scored_accounts accts1 1%nat = (Ok [a1; a2], 5%nat)
  /\ get_program_accounts PF_AMM (token_as_quote Fixture.mint) 5%nat
     = (Ok accts2, 6%nat)
  /\ scored_accounts accts2 6%nat = (Ok [a3], 8%nat)
  /\ In a2 [a1; a2]
  /\ 0 < liquidity a2
  /\ (forall c2, In c2 [a3] -> liquidity c2 <= liquidity a2)
  /\ exists k c,
      nth_error [a1; a2] k = Some c
      /\ liquidity a2 <= liquidity c
      /\ _fetch_pool_from_rpc Fixture.mint 0%nat
         = (Ok (Some (Pubkey.to_string (cand_key c))), 8%nat).
Proof.
  intros remote a1 a2 a3 accts1 accts2.
  assert (H1 : get_program_accounts PF_AMM (token_as_base Fixture.mint) 0%nat
               = (Ok accts1, 1%nat)) by (vm_compute; reflexivity).
  assert (H2 : scored_accounts accts1 1%nat = (Ok [a1; a2], 5%nat))
    by (vm_compute; reflexivity).
  assert (H3 : get_program_accounts PF_AMM (token_as_quote Fixture.mint) 5%nat
               = (Ok accts2, 6%nat)) by (vm_compute; reflexivity).
  assert (H4 : scored_accounts accts2 6%nat = (Ok [a3], 8%nat))
    by (vm_compute; reflexivity).
  assert (H5 : In a2 [a1; a2]) by (right; left; reflexivity).
  assert (H6 : 0 < liquidity a2) by reflexivity.
  assert (H7 : forall c2, In c2 [a3] -> liquidity c2 <= liquidity a2).
  { intros c2 [<- | []]. vm_compute. discriminate. }
  split; [exact H1 | split; [exact H2 | split; [exact H3 | split; [exact H4 |
    split; [exact H5 | split; [exact H6 | split; [exact H7 |]]]]]]].
  exact (base_side_wins_ties Fixture.mint 0%nat 1%nat 5%nat 6%nat 8%nat
           accts1 accts2 [a1; a2] [a3] a2 H1 H2 H3 H4 H5 H6 H7).
Defined.

(** X8.  An account whose data is shorter than 203 bytes ends the search:
    [Pubkey.from_bytes] panics on the short slice, the panic is not an
    [Exception], so the visit, the scan of the response and the locator all
    end in it, in the world the candidates before it left; no balance is
    asked for on its behalf and no candidate after it is looked at. *)
Theorem short_record_aborts_scan
        {W : Type} {remote : Remote W}
        (pre post : list KeyedAccount) (acct : KeyedAccount)
        (st st1 : best_state) (w w1 : W) :
  scoreable acct = false ->
  scan_accounts pre st w = (Ok st1, w1) ->
  visit_candidate acct st1 w1 = (Raise Pubkey.slice_panic, w1)
  /\ scan_accounts (pre ++ acct :: post) st w = (Raise Pubkey.slice_panic, w1)
  /\ forall (mint : string) (w0 : W),
      st = (None, 0) ->
      get_program_accounts PF_AMM (token_as_base mint) w0
      = (Ok (pre ++ acct :: post), w) ->
      _fetch_pool_from_rpc mint w0 = (Raise Pubkey.slice_panic, w1).
Proof.
  intros Hs Hpre.
  assert (Hvisit : visit_candidate acct st1 w1 = (Raise Pubkey.slice_panic, w1)).
  { unfold visit_candidate.
    rewrite (read_candidate_short_data acct w1 Hs). reflexivity. }
  assert (Hscan : scan_accounts (pre ++ acct :: post) st w
                  = (Raise Pubkey.slice_panic, w1)).
  { rewrite scan_accounts_app, Hpre. cbn [scan_accounts].
    rewrite Hvisit. reflexivity. }
  split; [exact Hvisit | split; [exact Hscan |]].
  intros mint w0 -> Hq. unfold _fetch_pool_from_rpc, bind.
  rewrite filters_list_eq. cbn [scan_filters]. rewrite Hq, Hscan. reflexivity.
Qed.

Lemma short_record_aborts_scan_witness :
  let remote := Fixture.scripted Scenario.stub_first in
  let acct := Scenario.stub_account in
  let post := [Fixture.pool_account xa1 x11 x12] in
  let st : best_state := (None, 0) in
  scoreable acct = false
  /\ scan_accounts [] st 2%nat = (Ok st, 2%nat)
  /\ get_program_accounts PF_AMM (token_as_base Fixture.mint) 1%nat
     = (Ok ([] ++ acct :: post), 2%nat)
  /\ visit_candidate acct st 2%nat = (Raise Pubkey.slice_panic, 2%nat)
  /\ scan_accounts ([] ++ acct :: post) st 2%nat = (Raise Pubkey.slice_panic, 2%nat)
  /\ _fetch_pool_from_rpc Fixture.mint 1%nat = (Raise Pubkey.slice_panic, 2%nat).
Proof.
  intros remote acct post st.
  assert (H1 : scoreable acct = false) by (vm_compute; reflexivity).
  assert (H2 : scan_accounts [] st 2%nat = (Ok st, 2%nat)) by reflexivity.
  assert (H3 : get_program_accounts PF_AMM (token_as_base Fixture.mint) 1%nat
               = (Ok ([] ++ acct :: post), 2%nat)) by (vm_compute; reflexivity).
  destruct (short_record_aborts_scan [] post acct st st 2%nat 2%nat H1 H2)
    as (Hvisit & Hscan & Hloc).
  split; [exact H1 | split; [exact H2 | split; [exact H3 |
    split; [exact Hvisit | split; [exact Hscan |]]]]].
  exact (Hloc Fixture.mint 1%nat eq_refl H3).
Defined.

(** X16.  A candidate whose scoring raises an [Exception] (a failed balance
    read, say) is skipped, and only it: the loop state is what it was before
    the candidate, the scan goes on with the candidates after it from the
    world the single failed attempt left, and when the attempt left the
    world as it was the scan gives what it gives without the candidate. *)
Theorem caught_exception_skips_candidate
        {W : Type} {remote : Remote W}
        (pre post : list KeyedAccount) (acct : KeyedAccount)
        (st st1 : best_state) (w w1 w2 : W) (e : exn) :
  scan_accounts pre st w = (Ok st1, w1) ->
  read_candidate acct w1 = (Raise e, w2) ->
  is_exception e = true ->
  visit_candidate acct st1 w1 = (Ok st1, w2)
  /\ scan_accounts (pre ++ acct :: post) st w = scan_accounts post st1 w2
  /\ (w2 = w1 ->
      scan_accounts (pre ++ acct :: post) st w = scan_accounts (pre ++ post) st w).
Proof.
  intros Hpre Hraise He.
  assert (Hvisit : visit_candidate acct st1 w1 = (Ok st1, w2))
    by (unfold visit_candidate; rewrite Hraise, He; reflexivity).
  assert (Hscan : scan_accounts (pre ++ acct :: post) st w
                  = scan_accounts post st1 w2).
  { rewrite scan_accounts_app, Hpre. cbn [scan_accounts].
    rewrite Hvisit. reflexivity. }
  split; [exact Hvisit | split; [exact Hscan |]].
  intros ->. rewrite Hscan, scan_accounts_app, Hpre. reflexivity.
Qed.

Lemma caught_exception_skips_candidate_witness :
  let remote := Fixture.stateless Fixture.flaky_pools in
  let pre := [Fixture.pool_account xa2 x13 x14] in
  let acct := Fixture.pool_account xa1 x11 x17 in
  let post := [Fixture.pool_account xa3 x13 x14] in
  let st : best_state := (None, 0) in
  let st1 : best_state := (Some (Pubkey.to_string (Fixture.key xa2)), 20) in
  scan_accounts pre st tt = (Ok st1, tt)
  /\ read_candidate acct tt = (Raise RPCException, tt)
  /\ is_exception RPCException = true
  /\ visit_candidate acct st1 tt = (Ok st1, tt)
  /\ scan_accounts (pre ++ acct :: post) st tt = scan_accounts post st1 tt
  /\ scan_accounts (pre ++ acct :: post) st tt = scan_accounts (pre ++ post) st tt.
Proof.
  intros remote pre acct post st st1.
  assert (H0 : scan_accounts pre st tt = (Ok st1, tt)) by (vm_compute; reflexivity).
  assert (H : read_candidate acct tt = (Raise RPCException, tt))
    by (vm_compute; reflexivity).
  assert (He : is_exception RPCException = true) by reflexivity.
  destruct (caught_exception_skips_candidate pre post acct st st1 tt tt tt
              RPCException H0 H He)
    as (Hvisit & Hscan & Hsame).
  split; [exact H0 | split; [exact H | split; [exact He | split; [exact Hvisit |
    split; [exact Hscan | exact (Hsame eq_refl)]]]]].
Defined.

(** On a record of 203 bytes or more the only failures of the scoring are
    those of the two balance reads. *)
Lemma read_candidate_raise_inv
      {W : Type} {remote : Remote W} (acct : KeyedAccount) (w w' : W) (e : exn) :
  scoreable acct = true ->
  read_candidate acct w = (Raise e, w') ->
  exists k w0, get_token_account_balance k w0 = (Raise e, w').
Proof.
  intros Hs. unfold scoreable in Hs. apply Nat.leb_le in Hs.
  unfold read_candidate. cbv beta iota zeta delta [bind lift ret].
  unfold Pubkey.from_bytes, Pubkey.LENGTH.
  rewrite !length_slice by lia. cbn [Nat.sub Nat.eqb].
  destruct (get_token_account_balance (slice 139 171 (account_data acct)) w)
    as [[b|e1] w1] eqn:Hb.
  - destruct (get_token_account_balance (slice 171 203 (account_data acct)) w1)
      as [[q|e2] w2] eqn:Hq; [discriminate|].
    intros [= <- <-]. eauto.
  - intros [= <- <-]. eauto.
Qed.

Lemma scored_accounts_completes
      {W : Type} {remote : Remote W} (accts : list KeyedAccount) :
  sound_node remote ->
  forallb scoreable accts = true ->
  forall w, exists tr w', scored_accounts accts w = (Ok tr, w').
Proof.
  intros (_ & _ & Hbal). induction accts as [|acct rest IH]; intros Hall w.
  - exists [], w. reflexivity.
  - cbn [forallb] in Hall. apply andb_true_iff in Hall as [Hs Hrest].
    cbn [scored_accounts].
    destruct (read_candidate acct w) as [[[b q]|e] w1] eqn:Hread.
    + destruct (IH Hrest w1) as (tr & w2 & ->). eauto.
    + destruct (read_candidate_raise_inv acct w w1 e Hs Hread) as (k & w0 & Hk).
      rewrite (Hbal _ _ _ _ Hk). exact (IH Hrest w1).
Qed.

Lemma scored_filters_completes
      {W : Type} {remote : Remote W} (fl : list (list MemcmpOpts)) :
  sound_node remote ->
  forall w, exists tr w', scored_filters fl w = (Ok tr, w').
Proof.
  intros Hnode. pose proof Hnode as (Hrec & Hqry & _).
  induction fl as [|filters rest IH]; intros w.
  - exists [], w. reflexivity.
  - cbn [scored_filters].
    destruct (get_program_accounts PF_AMM filters w) as [[accts|e] w1] eqn:Hq.
    + destruct (scored_accounts_completes accts Hnode (Hrec _ _ _ _ Hq) w1)
        as (tr1 & w2 & ->).
      destruct (IH w2) as (tr2 & w3 & ->). eauto.
    + rewrite (Hqry _ _ _ _ Hq). exact (IH w1).
Qed.

Lemma three_pools_sound : sound_node (Fixture.scripted Fixture.three_pools).
Proof.
  repeat split.
  - intros filters w accts w' H. cbn in H. injection H as H _.
    unfold Fixture.two_sides in H. destruct filters as [|f fs].
    + injection H as <-. reflexivity.
    + destruct (String.eqb _ _); injection H as <-; vm_compute; reflexivity.
  - intros filters w e w' H. cbn in H. injection H as H _.
    unfold Fixture.two_sides in H. destruct filters as [|f fs];
      [discriminate|]. destruct (String.eqb _ _); discriminate.
  - intros k w e w' H. cbn in H. injection H as H _.
    unfold Fixture.balances in H. destruct k as [|b k].
    + injection H as <-. reflexivity.
    + cbn [Fixture.lookup] in H.
      repeat (destruct (Byte.eqb _ b); [discriminate|]).
      injection H as <-. reflexivity.
Qed.

(** X17.  Against a node that only fails with [Exception]s and only returns
    program accounts of 203 bytes or more, the locator always returns: the
    enumeration of both filter sets completes and the result is a pool id or
    [None], never an error. *)
Theorem locator_returns_on_sound_node
        {W : Type} {remote : Remote W} (mint : string) (w : W) :
  sound_node remote ->
  exists tr r,
    scored_candidates mint w = Ok tr
    /\ _fetch_pool_from_rpc mint w
       = (Ok r, snd (scored_filters (filters_list mint) w))
    /\ r = fst (fold_left keep_best tr (None, 0)).
Proof.
  intros Hnode.
  destruct (scored_filters_completes (filters_list mint) Hnode w)
    as (tr & w' & Htr).
  exists tr, (fst (fold_left keep_best tr (None, 0))).
  unfold scored_candidates. rewrite fetch_pool_scored, Htr.
  repeat split; reflexivity.
Qed.

Lemma locator_returns_on_sound_node_witness :
  let remote := Fixture.scripted Fixture.three_pools in
  sound_node remote
  /\ exists tr r,
      scored_candidates Fixture.mint 0%nat = Ok tr
      /\ _fetch_pool_from_rpc Fixture.mint 0%nat
         = (Ok r, snd (scored_filters (filters_list Fixture.mint) 0%nat))
      /\ r = fst (fold_left keep_best tr (None, 0)).
Proof.
  intros remote.
  split; [exact three_pools_sound |].
  exact (locator_returns_on_sound_node Fixture.mint 0%nat three_pools_sound).
Defined.

(** ** More on the oracle and the calculator *)

Lemma price_fetch_ok_iff_witness :
  let remote := Fixture.scripted (Fixture.with_oracle Fixture.ok_response) in
  requests_get DIA_URL 0%nat = (Ok Fixture.ok_response, 1%nat)
  /\ (_get_sol_price_usd 0%nat = (Ok (flt 100), 1%nat)
      <-> ~ error_status Fixture.ok_response
          /\ exists v, has_price Fixture.ok_response v
                       /\ py_float float_of_str v = Ok (flt 100)).
Proof.
  intros remote.
  assert (H : requests_get DIA_URL 0%nat = (Ok Fixture.ok_response, 1%nat))
    by reflexivity.
  split; [exact H |].
  exact (price_fetch_ok_iff 0%nat 1%nat Fixture.ok_response (flt 100) H).
Defined.

(** The supply an object holds is the one [__init__] resolved. *)
Lemma init_keeps_supply
      {W : Type} {remote : Remote W}
      (rpc_url mint : string) (qd : N) (ts supply : pyval) (mk : Pubkey)
      (self : PumpSwapMarketCap) (w w1 w' : W) :
  Pubkey.from_string mint = Ok mk ->
  resolve_total_supply mk ts w = (Ok supply, w1) ->
  __init__ rpc_url mint qd ts w = (Ok self, w') ->
  total_supply self = supply /\ quote_decimals self = qd.
Proof.
  intros Hmint Hs. unfold __init__.
  rewrite (lift_bind_ok _ _ _ _ Hmint), (bind_ok _ _ _ _ _ Hs).
  cbv beta iota zeta delta [bind lift ret].
  destruct (_fetch_pool_from_rpc mint w1) as [[[[|a id]|]|] w2]; try discriminate.
  destruct (_fetch_pool_keys (String a id) w2) as [[[keys|]|] w3];
    try discriminate.
  destruct (get_mint_decimals mk w3) as [[d|] w4]; [|discriminate].
  intros [= <- _]. split; reflexivity.
Qed.

(** X10.  A mint for which the node reports no [ui_amount] is not rejected
    by [__init__]: the object is built with a supply of [None], and the
    failure only shows as a [TypeError] at the last multiplication of
    [get_market_cap], after the reserves were read and the price fetched. *)
Theorem missing_supply_fails_late
        {W : Type} {remote : Remote W}
        (rpc_url mint : string) (qd : N) (mk : Pubkey)
        (self : PumpSwapMarketCap) (w w1 w0 w2 w3 : W)
        (base_reserve quote_reserve : Z)
        (token_amt sol_amt price_sol sol_usd : float) :
  Pubkey.from_string mint = Ok mk ->
  get_token_supply mk w = (Ok PyNone, w1) ->
  __init__ rpc_url mint qd PyNone w = (Ok self, w0) ->
  _get_pool_reserves self w0 = (Ok (base_reserve, quote_reserve), w2) ->
  PyFloat.int_truediv base_reserve (pow10 (token_decimals self)) = Ok token_amt ->
  PyFloat.int_truediv quote_reserve (pow10 (quote_decimals self)) = Ok sol_amt ->
  PyFloat.truediv sol_amt token_amt = Ok price_sol ->
  _get_sol_price_usd w2 = (Ok sol_usd, w3) ->
  total_supply self = PyNone
  /\ get_market_cap self w0 = (Raise supply_type_error, w3).
Proof.
  intros Hmint Hsupply Hinit Hres Hta Hsa Hp Hprice.
  destruct (init_keeps_supply rpc_url mint qd PyNone PyNone mk self w w1 w0
              Hmint Hsupply Hinit) as [Hts _].
  split; [exact Hts |].
  rewrite (get_market_cap_after_division self w0 w2 _ _ _ _ _ Hres Hta Hsa Hp).
  rewrite (bind_ok _ _ _ _ _ Hprice). cbv zeta. rewrite Hts. reflexivity.
Qed.

Lemma missing_supply_fails_late_witness :
  let remote := Fixture.scripted Scenario.no_supply in
  let self := {| mint_str := Fixture.mint; mint_pubkey := Fixture.mint_key;
                 quote_decimals := 9; total_supply := PyNone;
                 pool_id := Pubkey.to_string (Fixture.key xa1);
                 pool_keys := pool_keys Fixture.first_pool_self;
                 token_decimals := 9 |} in
  Pubkey.from_string Fixture.mint = Ok Fixture.mint_key
  /\ get_token_supply Fixture.mint_key 0%nat = (Ok PyNone, 1%nat)
  /\ __init__ "rpc" Fixture.mint 9 PyNone 0%nat = (Ok self, 7%nat)
  /\ _get_pool_reserves self 7%nat = (Ok (1000000000, 2000000000), 8%nat)
  /\ PyFloat.int_truediv 1000000000 (pow10 (token_decimals self)) = Ok (flt 1)
  /\ PyFloat.int_truediv 2000000000 (pow10 (quote_decimals self)) = Ok (flt 2)
  /\ PyFloat.truediv (flt 2) (flt 1) = Ok (flt 2)
  /\ _get_sol_price_usd 8%nat = (Ok (flt 100), 9%nat)
  /\ total_supply self = PyNone
  /\ get_market_cap self 7%nat = (Raise supply_type_error, 9%nat).
Proof.
  intros remote self.
  assert (H1 : Pubkey.from_string Fixture.mint = Ok Fixture.mint_key)
    by (vm_compute; reflexivity).
  assert (H2 : get_token_supply Fixture.mint_key 0%nat = (Ok PyNone, 1%nat))
    by reflexivity.
  assert (H3 : __init__ "rpc" Fixture.mint 9 PyNone 0%nat = (Ok self, 7%nat))
    by (vm_compute; reflexivity).
  assert (H4 : _get_pool_reserves self 7%nat
               = (Ok (1000000000, 2000000000), 8%nat)) by reflexivity.
  assert (H5 : PyFloat.int_truediv 1000000000 (pow10 (token_decimals self))
               = Ok (flt 1)) by (vm_compute; reflexivity).
  assert (H6 : PyFloat.int_truediv 2000000000 (pow10 (quote_decimals self))
               = Ok (flt 2)) by (vm_compute; reflexivity).
  assert (H7 : PyFloat.truediv (flt 2) (flt 1) = Ok (flt 2))
    by (vm_compute; reflexivity).
  assert (H8 : _get_sol_price_usd 8%nat = (Ok (flt 100), 9%nat))
    by (vm_compute; reflexivity).
  split; [exact H1 | split; [exact H2 | split; [exact H3 | split; [exact H4 |
    split; [exact H5 | split; [exact H6 | split; [exact H7 |
    split; [exact H8 |]]]]]]]].
  exact (missing_supply_fails_late "rpc" Fixture.mint 9 Fixture.mint_key self
           0%nat 1%nat 7%nat 8%nat 9%nat 1000000000 2000000000
           (flt 1) (flt 2) (flt 2) (flt 100) H1 H2 H3 H4 H5 H6 H7 H8).
Defined.

(** What a returned record is made of. *)
Lemma get_market_cap_ok_inv
      {W : Type} {remote : Remote W}
      (self : PumpSwapMarketCap) (mc : MarketCapData) (w w' : W) :
  get_market_cap self w = (Ok mc, w') ->
  exists base_reserve quote_reserve token_amt sol_amt sol_usd w1,
    _get_pool_reserves self w = (Ok (base_reserve, quote_reserve), w1)
    /\ PyFloat.int_truediv base_reserve (pow10 (token_decimals self)) = Ok token_amt
    /\ PyFloat.int_truediv quote_reserve (pow10 (quote_decimals self)) = Ok sol_amt
    /\ PyFloat.truediv sol_amt token_amt = Ok (token_price_sol mc)
    /\ _get_sol_price_usd w1 = (Ok sol_usd, w')
    /\ token_price_usd mc = PyFloat.mul (token_price_sol mc) sol_usd
    /\ float_mul_pyval (token_price_usd mc) (total_supply self)
       = Ok (market_cap_usd mc).
Proof.
  unfold get_market_cap. cbv beta iota zeta delta [bind lift ret].
  destruct (_get_pool_reserves self w) as [[[b q]|] w1] eqn:Hres; [|discriminate].
  destruct (PyFloat.int_truediv b _) as [ta|] eqn:Hta; [|discriminate].
  destruct (PyFloat.int_truediv q _) as [sa|] eqn:Hsa; [|discriminate].
  destruct (PyFloat.truediv sa ta) as [tp|] eqn:Hp; [|discriminate].
  destruct (_get_sol_price_usd w1) as [[p|] w2] eqn:Hprice; [|discriminate].
  destruct (float_mul_pyval _ _) as [m|] eqn:Hm; [|discriminate].
  intros [= <- <-]. exists b, q, ta, sa, p, w1. simpl.
  repeat (split; [first [assumption | reflexivity] |]).
  first [assumption | reflexivity].
Qed.

(** X11.  A total supply of zero is accepted: whenever [get_market_cap]
    returns with it, the market cap is a zero, or a NaN when the price in
    USD is infinite or NaN. *)
Theorem zero_supply_gives_zero_market_cap
        {W : Type} {remote : Remote W}
        (self : PumpSwapMarketCap) (mc : MarketCapData) (w w' : W) :
  total_supply self = PyInt 0 \/ total_supply self = PyFlt (S754_zero false) ->
  get_market_cap self w = (Ok mc, w') ->
  (is_finite (token_price_usd mc) = true ->
   PyFloat.is_zero (market_cap_usd mc) = true)
  /\ (is_finite (token_price_usd mc) = false ->
      is_nan (market_cap_usd mc) = true).
Proof.
  intros Hts Hrun.
  destruct (get_market_cap_ok_inv self mc w w' Hrun)
    as (b & q & ta & sa & p & w1 & _ & _ & _ & _ & _ & _ & Hm).
  assert (Hmul : market_cap_usd mc
                 = PyFloat.mul (token_price_usd mc) (S754_zero false)).
  { destruct Hts as [Hts | Hts]; rewrite Hts in Hm; simpl in Hm; congruence. }
  rewrite Hmul.
  destruct (token_price_usd mc) as [s|s| |s m e]; simpl;
    split; intros H; try reflexivity; discriminate.
Qed.

Lemma zero_supply_gives_zero_market_cap_witness :
  let remote := Fixture.scripted Fixture.three_pools in
  let self := Fixture.sample_self (PyInt 0) in
  let mc := {| token_price_sol := flt 2; token_price_usd := flt 200;
               market_cap_usd := S754_zero false |} in
  (total_supply self = PyInt 0 \/ total_supply self = PyFlt (S754_zero false))
  /\ get_market_cap self 0%nat = (Ok mc, 2%nat)
  /\ is_finite (token_price_usd mc) = true
  /\ PyFloat.is_zero (market_cap_usd mc) = true.
Proof.
  intros remote self mc.
  assert (H1 : total_supply self = PyInt 0
               \/ total_supply self = PyFlt (S754_zero false))
    by (left; reflexivity).
  assert (H2 : get_market_cap self 0%nat = (Ok mc, 2%nat))
    by (vm_compute; reflexivity).
  assert (H3 : is_finite (token_price_usd mc) = true) by (vm_compute; reflexivity).
  split; [exact H1 | split; [exact H2 | split; [exact H3 |]]].
  exact (proj1 (zero_supply_gives_zero_market_cap self mc 0%nat 2%nat H1 H2) H3).
Defined.

(** X12.  The script prices with a quote precision of nine decimals and the
    supply the node reports: when the constructor, the reserve read and the
    price fetch succeed, its outcome is the formula of the reserves, the
    mint's decimals, 9, the oracle price and that supply. *)
Theorem main_is_formula_with_nine_decimals
        {W : Type} {remote : Remote W}
        (rpc_url mint : string) (mk : Pubkey) (supply : pyval)
        (self : PumpSwapMarketCap) (w w1 w0 w2 w3 : W)
        (base_reserve quote_reserve : Z) (oracle_price : float) :
  Pubkey.from_string mint = Ok mk ->
  get_token_supply mk w = (Ok supply, w1) ->
  __init__ rpc_url mint 9 PyNone w = (Ok self, w0) ->
  _get_pool_reserves self w0 = (Ok (base_reserve, quote_reserve), w2) ->
  _get_sol_price_usd w2 = (Ok oracle_price, w3) ->
  fst (main rpc_url mint w)
  = market_cap_formula base_reserve quote_reserve
                       (token_decimals self) 9 oracle_price supply.
Proof.
  intros Hmint Hsupply Hinit Hres Hprice.
  destruct (init_keeps_supply rpc_url mint 9 PyNone supply mk self w w1 w0
              Hmint Hsupply Hinit) as [Hts Hqd].
  unfold main. rewrite (bind_ok _ _ _ _ _ Hinit).
  rewrite (get_market_cap_is_formula self w0 w2 w3 _ _ _ Hres Hprice).
  rewrite Hts, Hqd. reflexivity.
Qed.

Lemma main_is_formula_with_nine_decimals_witness :
  let remote := Fixture.scripted Fixture.three_pools in
  let self := Fixture.sample_self (PyInt 1000000) in
  Pubkey.from_string Fixture.mint = Ok Fixture.mint_key
  /\ get_token_supply Fixture.mint_key 0%nat = (Ok (PyInt 1000000), 1%nat)
  /\ __init__ "rpc" Fixture.mint 9 PyNone 0%nat = (Ok self, 11%nat)
  /\ _get_pool_reserves self 11%nat = (Ok (1000000000, 2000000000), 12%nat)
  /\ _get_sol_price_usd 12%nat = (Ok (flt 100), 13%nat)
  /\ fst (main "rpc" Fixture.mint 0%nat)
     = market_cap_formula 1000000000 2000000000 (token_decimals self) 9
                          (flt 100) (PyInt 1000000).
Proof.
  intros remote self.
  assert (H1 : Pubkey.from_string Fixture.mint = Ok Fixture.mint_key)
    by (vm_compute; reflexivity).
  assert (H2 : get_token_supply Fixture.mint_key 0%nat
               = (Ok (PyInt 1000000), 1%nat)) by reflexivity.
  assert (H3 : __init__ "rpc" Fixture.mint 9 PyNone 0%nat = (Ok self, 11%nat))
    by (vm_compute; reflexivity).
  assert (H4 : _get_pool_reserves self 11%nat
               = (Ok (1000000000, 2000000000), 12%nat)) by reflexivity.
  assert (H5 : _get_sol_price_usd 12%nat = (Ok (flt 100), 13%nat))
    by (vm_compute; reflexivity).
  split; [exact H1 | split; [exact H2 | split; [exact H3 |
    split; [exact H4 | split; [exact H5 |]]]]].
  exact (main_is_formula_with_nine_decimals "rpc" Fixture.mint Fixture.mint_key
           (PyInt 1000000) self 0%nat 1%nat 11%nat 12%nat 13%nat
           1000000000 2000000000 (flt 100) H1 H2 H3 H4 H5).
Defined.

(** ** Signs in the calculator *)

Lemma iter_pos_invariant {A : Type} (P : A -> Prop) (f : A -> A) :
  (forall x, P x -> P (f x)) ->
  forall (n : positive) (x : A), P x -> P (iter_pos f n x).
Proof.
  intros Hf. induction n as [n IH|n IH|]; intros x Hx; simpl; auto.
Qed.

Lemma shr_1_nonneg (mrs : shr_record) : 0 <= shr_m mrs -> 0 <= shr_m (shr_1 mrs).
Proof.
  destruct mrs as [m r s]. simpl.
  destruct m as [|p|p]; simpl; try lia; destruct p; simpl; lia.
Qed.

Lemma shr_fexp_nonneg (m e : Z) (l : location) :
  0 <= m ->
  0 <= shr_m (fst (shr_fexp PyFloat.prec PyFloat.emax m e l)).
Proof.
  intros Hm. unfold shr_fexp, shr.
  assert (H0 : 0 <= shr_m (shr_record_of_loc m l))
    by (destruct l as [|[| |]]; simpl; exact Hm).
  destruct (fexp _ _ _ - e) as [|p|p]; simpl; try exact H0.
  apply (iter_pos_invariant (fun mrs => 0 <= shr_m mrs)); [|exact H0].
  exact shr_1_nonneg.
Qed.

Lemma round_nearest_even_nonneg (m : Z) (l : location) :
  0 <= m -> 0 <= round_nearest_even m l.
Proof.
  intros Hm. unfold round_nearest_even.
  destruct l as [|[| |]]; try lia. destruct (Z.even m); lia.
Qed.

(** Rounding a non-negative mantissa with a clear sign bit gives a float
    with a clear sign bit, never a NaN. *)
Lemma binary_round_aux_nonneg (m e : Z) (l : location) :
  0 <= m ->
  is_nonneg (binary_round_aux PyFloat.prec PyFloat.emax false m e l) = true.
Proof.
  intros Hm. unfold binary_round_aux.
  pose proof (shr_fexp_nonneg m e l Hm) as H1.
  destruct (shr_fexp PyFloat.prec PyFloat.emax m e l) as [mrs' e'].
  simpl in H1.
  pose proof (round_nearest_even_nonneg (shr_m mrs') (loc_of_shr_record mrs') H1)
    as H2.
  pose proof (shr_fexp_nonneg _ e' loc_Exact H2) as H3.
  destruct (shr_fexp PyFloat.prec PyFloat.emax _ e' loc_Exact) as [mrs'' e''].
  simpl in H3.
  destruct (shr_m mrs'') as [|p|p]; [reflexivity | | lia].
  destruct (e'' <=? _); reflexivity.
Qed.

Lemma SFdiv_nonneg (x y : float) :
  is_nonneg x = true -> is_nonneg y = true -> PyFloat.is_zero y = false ->
  is_nonneg (SFdiv PyFloat.prec PyFloat.emax x y) = true
  \/ (exists sx sy, x = S754_infinity sx /\ y = S754_infinity sy).
Proof.
  intros Hx Hy Hz.
  destruct x as [[|]|[|]| |[|] mx ex]; try discriminate;
    destruct y as [[|]|[|]| |[|] my ey]; try discriminate;
    try (left; reflexivity); try (right; eauto; fail).
  left. unfold SFdiv, SFdiv_core_binary.
  set (m' := match _ with Z0 => _ | Zpos _ => _ | Zneg _ => _ end).
  assert (Hm' : 0 <= m').
  { unfold m'. destruct (_ - _ - _) as [|p|p]; try lia.
    apply Z.shiftl_nonneg. lia. }
  pose proof (Z.div_pos m' (Zpos my) Hm' ltac:(lia)) as Hq.
  unfold Z.div in Hq.
  destruct (Z.div_eucl m' (Zpos my)) as [q r]. simpl in Hq.
  apply binary_round_aux_nonneg. exact Hq.
Qed.

(** The quotient of a non-negative [int] by a positive one is [+0.0] or a
    positive finite float. *)
Lemma int_truediv_nonneg (a b : Z) (x : float) :
  0 <= a -> 0 < b ->
  PyFloat.int_truediv a b = Ok x ->
  is_nonneg x = true /\ is_finite x = true.
Proof.
  intros Ha Hb. unfold PyFloat.int_truediv.
  destruct (Z.eqb_spec b 0) as [->|_]; [lia|].
  assert (Hn : is_nonneg (SFdiv PyFloat.prec PyFloat.emax
                                (PyFloat.exact a) (PyFloat.exact b)) = true).
  { destruct (SFdiv_nonneg (PyFloat.exact a) (PyFloat.exact b))
      as [H | (sx & sy & Hx & _)]; try exact H;
      destruct a, b; try lia; try reflexivity; discriminate. }
  destruct (SFdiv _ _ _ _) as [[|]|[|]| |[|] m e]; try discriminate;
    intros [= <-]; split; reflexivity.
Qed.

(** X13.  With non-negative reserves the price in SOL that [get_market_cap]
    returns has a clear sign bit and is not a NaN: it is [+0.0], a positive
    finite float or [+inf]. *)
Theorem price_in_sol_is_nonneg
        {W : Type} {remote : Remote W}
        (self : PumpSwapMarketCap) (mc : MarketCapData) (w w1 w' : W)
        (base_reserve quote_reserve : Z) :
  _get_pool_reserves self w = (Ok (base_reserve, quote_reserve), w1) ->
  0 <= base_reserve ->
  0 <= quote_reserve ->
  get_market_cap self w = (Ok mc, w') ->
  is_nonneg (token_price_sol mc) = true.
Proof.
  intros Hres Hb Hq Hrun.
  destruct (get_market_cap_ok_inv self mc w w' Hrun)
    as (b & q & ta & sa & p & w1' & Hres' & Hta & Hsa & Hp & _).
  rewrite Hres in Hres'. injection Hres' as <- <- <-.
  assert (Hpow : forall d, 0 < pow10 d)
    by (intros d; unfold pow10; apply Z.pow_pos_nonneg; lia).
  destruct (int_truediv_nonneg _ _ _ Hb (Hpow _) Hta) as [Hta1 Hta2].
  destruct (int_truediv_nonneg _ _ _ Hq (Hpow _) Hsa) as [Hsa1 Hsa2].
  unfold PyFloat.truediv in Hp.
  destruct (PyFloat.is_zero ta) eqn:Hz; [discriminate|].
  injection Hp as Hp. rewrite <- Hp.
  destruct (SFdiv_nonneg sa ta Hsa1 Hta1 Hz) as [H | (sx & sy & -> & _)];
    [exact H | discriminate].
Qed.

Lemma price_in_sol_is_nonneg_witness :
  let remote := Fixture.scripted Fixture.three_pools in
  let self := Fixture.sample_self (PyInt 1000000) in
  let mc := {| token_price_sol := flt 2; token_price_usd := flt 200;
               market_cap_usd := flt 200000000 |} in
  _get_pool_reserves self 0%nat = (Ok (1000000000, 2000000000), 1%nat)
  /\ 0 <= 1000000000
  /\ 0 <= 2000000000
  /\ get_market_cap self 0%nat = (Ok mc, 2%nat)
  /\ is_nonneg (token_price_sol mc) = true.
Proof.
  intros remote self mc.
  assert (H1 : _get_pool_reserves self 0%nat
               = (Ok (1000000000, 2000000000), 1%nat)) by reflexivity.
  assert (H2 : 0 <= 1000000000) by lia.
  assert (H3 : 0 <= 2000000000) by lia.
  assert (H4 : get_market_cap self 0%nat = (Ok mc, 2%nat))
    by (vm_compute; reflexivity).
  split; [exact H1 | split; [exact H2 | split; [exact H3 | split; [exact H4 |]]]].
  exact (price_in_sol_is_nonneg self mc 0%nat 1%nat 2%nat
           1000000000 2000000000 H1 H2 H3 H4).
Defined.

(** ** The text form of addresses *)

Section Positional.

Variable b : Z.
Hypothesis Hb : 2 <= b.

Let step := fun acc d : Z => acc * b + d.

Lemma digits_fuel_zero (fuel : nat) (acc : list Z) :
  Base58.digits_fuel fuel b 0 acc = acc.
Proof. destruct fuel; reflexivity. Qed.

Lemma half_bound (n : Z) (k : nat) :
  0 <= n < 2 ^ Z.of_nat (S k) -> 0 <= n / b < 2 ^ Z.of_nat k.
Proof.
  intros [H0 H1]. rewrite Nat2Z.inj_succ, Z.pow_succ_r in H1 by lia.
  split; [apply Z.div_pos; lia|].
  apply Z.div_lt_upper_bound; [lia|]. nia.
Qed.

(** Folding over the digits produced, then over the accumulator, is folding
    over the accumulator from the number itself. *)
Lemma digits_fuel_value (fuel : nat) :
  forall n acc,
    0 <= n < 2 ^ Z.of_nat fuel ->
    fold_left step (Base58.digits_fuel fuel b n acc) 0 = fold_left step acc n.
Proof.
  induction fuel as [|k IH]; intros n acc Hn.
  - simpl in *. replace n with 0 by lia. reflexivity.
  - cbn [Base58.digits_fuel]. destruct (Z.leb_spec n 0) as [Hle|Hgt].
    + replace n with 0 by lia. reflexivity.
    + rewrite IH by (apply half_bound; exact Hn).
      cbn [fold_left]. unfold step at 2. f_equal.
      rewrite Z.mul_comm. symmetry. apply Z.div_mod. lia.
Qed.

Lemma digits_fuel_range (fuel : nat) :
  forall n acc,
    0 <= n ->
    Forall (fun d => 0 <= d < b) acc ->
    Forall (fun d => 0 <= d < b) (Base58.digits_fuel fuel b n acc).
Proof.
  induction fuel as [|k IH]; intros n acc Hn Hacc; [exact Hacc|].
  cbn [Base58.digits_fuel]. destruct (n <=? 0); [exact Hacc|].
  apply IH; [apply Z.div_pos; lia|].
  constructor; [apply Z.mod_pos_bound; lia | exact Hacc].
Qed.

Lemma digits_fuel_head (fuel : nat) :
  forall n acc,
    0 < n < 2 ^ Z.of_nat fuel ->
    exists d rest, Base58.digits_fuel fuel b n acc = d :: rest /\ d <> 0.
Proof.
  induction fuel as [|k IH]; intros n acc Hn; [simpl in Hn; lia|].
  cbn [Base58.digits_fuel]. destruct (Z.leb_spec n 0) as [Hle|_]; [lia|].
  destruct (Z.eq_dec (n / b) 0) as [Hz|Hnz].
  - rewrite Hz, digits_fuel_zero.
    exists (n mod b), acc. split; [reflexivity|].
    apply Z.div_small_iff in Hz; [|lia].
    rewrite Z.mod_small by lia. lia.
  - apply IH.
    pose proof (half_bound n k ltac:(lia)). lia.
Qed.

Lemma digits_fuel_length (fuel : nat) :
  forall n k acc,
    0 <= n < b ^ Z.of_nat k ->
    (List.length (Base58.digits_fuel fuel b n acc) <= k + List.length acc)%nat.
Proof.
  induction fuel as [|f IH]; intros n k acc Hn; [simpl; lia|].
  cbn [Base58.digits_fuel]. destruct (Z.leb_spec n 0) as [_|Hgt]; [lia|].
  destruct k as [|k]; [simpl in Hn; lia|].
  rewrite Nat2Z.inj_succ, Z.pow_succ_r in Hn by lia.
  specialize (IH (n / b) k (n mod b :: acc)). cbn [List.length] in IH.
  assert (0 <= n / b < b ^ Z.of_nat k).
  { split; [apply Z.div_pos; lia|]. apply Z.div_lt_upper_bound; lia. }
  specialize (IH ltac:(assumption)). lia.
Qed.

Lemma fold_step_ge (ds : list Z) :
  forall a, Forall (fun d => 0 <= d < b) ds -> 0 <= a -> a <= fold_left step ds a.
Proof.
  induction ds as [|d ds IH]; intros a Hds Ha; [simpl; lia|].
  inversion Hds as [|? ? Hd Hrest]; subst. cbn [fold_left].
  specialize (IH (step a d) Hrest). unfold step in *. nia.
Qed.

Lemma fold_step_lt (ds : list Z) :
  forall a, Forall (fun d => 0 <= d < b) ds -> 0 <= a ->
            fold_left step ds a < (a + 1) * b ^ Z.of_nat (List.length ds).
Proof.
  induction ds as [|d ds IH]; intros a Hds Ha; [simpl; lia|].
  inversion Hds as [|? ? Hd Hrest]; subst. cbn [fold_left List.length].
  rewrite Nat2Z.inj_succ, Z.pow_succ_r by lia.
  specialize (IH (step a d) Hrest). unfold step in *.
  assert (0 < b ^ Z.of_nat (List.length ds)) by (apply Z.pow_pos_nonneg; lia).
  nia.
Qed.

Lemma value_positive (ds : list Z) :
  Forall (fun d => 0 <= d < b) ds -> head_nonzero ds -> ds <> [] ->
  0 < Base58.value b ds.
Proof.
  intros Hds Hh Hne. destruct ds as [|d ds]; [contradiction|].
  inversion Hds as [|? ? Hd Hrest]; subst. simpl in Hh.
  unfold Base58.value. cbn [fold_left].
  pose proof (fold_step_ge ds (0 * b + d) Hrest ltac:(lia)) as H.
  unfold step in H. lia.
Qed.

(** A digit list without leading zero is the digit list of its value. *)
Lemma digits_fuel_of_value (ds : list Z) :
  forall fuel acc,
    Forall (fun d => 0 <= d < b) ds -> head_nonzero ds ->
    Base58.value b ds < 2 ^ Z.of_nat fuel ->
    Base58.digits_fuel fuel b (Base58.value b ds) acc = ds ++ acc.
Proof.
  induction ds as [|d ds IH] using rev_ind; intros fuel acc Hds Hh Hv.
  - apply digits_fuel_zero.
  - apply Forall_app in Hds. destruct Hds as [Hds Hd].
    inversion Hd as [|? ? Hd0 _]; subst.
    assert (Hval : Base58.value b (ds ++ [d]) = Base58.value b ds * b + d)
      by (unfold Base58.value; rewrite fold_left_app; reflexivity).
    assert (Hhd : head_nonzero ds) by (destruct ds; [exact I | exact Hh]).
    assert (Hv0 : 0 <= Base58.value b ds).
    { unfold Base58.value.
      pose proof (fold_step_ge ds 0 Hds ltac:(lia)) as H. exact H. }
    assert (Hpos : 0 < Base58.value b (ds ++ [d])).
    { destruct ds as [|d0 ds'].
      - simpl in Hh. rewrite Hval. unfold Base58.value. simpl. lia.
      - pose proof (value_positive (d0 :: ds') Hds Hhd ltac:(discriminate)).
        rewrite Hval. nia. }
    rewrite Hval in *.
    destruct fuel as [|k]; [simpl in Hv; lia|].
    cbn [Base58.digits_fuel].
    destruct (Z.leb_spec (Base58.value b ds * b + d) 0) as [Hle|_]; [lia|].
    replace ((Base58.value b ds * b + d) / b) with (Base58.value b ds)
      by (rewrite Z.div_add_l by lia; rewrite Z.div_small by lia; lia).
    replace ((Base58.value b ds * b + d) mod b) with d
      by (rewrite Z.add_comm, Z.mod_add by lia;
          symmetry; apply Z.mod_small; lia).
    rewrite IH; [rewrite <- app_assoc; reflexivity | exact Hds | exact Hhd |].
    pose proof (half_bound (Base58.value b ds * b + d) k ltac:(lia)) as Hh2.
    replace ((Base58.value b ds * b + d) / b) with (Base58.value b ds) in Hh2
      by (rewrite Z.div_add_l by lia; rewrite Z.div_small by lia; lia).
    lia.
Qed.

Lemma log2_fuel (n : Z) : 0 <= n -> n < 2 ^ Z.of_nat (S (Z.to_nat (Z.log2 n))).
Proof.
  intros Hn. rewrite Nat2Z.inj_succ, Z2Nat.id by apply Z.log2_nonneg.
  destruct (Z.eq_dec n 0) as [->|Hnz]; [simpl; lia|].
  apply Z.log2_spec. lia.
Qed.

Lemma value_digits (n : Z) : 0 <= n -> Base58.value b (Base58.digits b n) = n.
Proof.
  intros Hn. unfold Base58.value, Base58.digits.
  rewrite (digits_fuel_value _ n []); [reflexivity|].
  split; [exact Hn | apply log2_fuel; exact Hn].
Qed.

Lemma digits_value (ds : list Z) :
  Forall (fun d => 0 <= d < b) ds -> head_nonzero ds ->
  Base58.digits b (Base58.value b ds) = ds.
Proof.
  intros Hds Hh. unfold Base58.digits.
  rewrite digits_fuel_of_value; [apply app_nil_r | exact Hds | exact Hh |].
  apply log2_fuel. unfold Base58.value.
  exact (fold_step_ge ds 0 Hds ltac:(lia)).
Qed.

Lemma digits_range (n : Z) :
  0 <= n -> Forall (fun d => 0 <= d < b) (Base58.digits b n).
Proof. intros Hn. apply digits_fuel_range; [exact Hn | constructor]. Qed.

Lemma digits_head (n : Z) : 0 <= n -> head_nonzero (Base58.digits b n).
Proof.
  intros Hn. destruct (Z.eq_dec n 0) as [->|Hnz]; [exact I|].
  destruct (digits_fuel_head (S (Z.to_nat (Z.log2 n))) n [])
    as (d & rest & Heq & Hd).
  - split; [lia | apply log2_fuel; exact Hn].
  - unfold Base58.digits. rewrite Heq. exact Hd.
Qed.

Lemma digits_length (n : Z) (k : nat) :
  0 <= n < b ^ Z.of_nat k -> (List.length (Base58.digits b n) <= k)%nat.
Proof.
  intros Hn. unfold Base58.digits.
  pose proof (digits_fuel_length (S (Z.to_nat (Z.log2 n))) n k [] Hn) as H.
  cbn [List.length] in H. rewrite Nat.add_0_r in H. exact H.
Qed.

Lemma value_leading_zeros (z : nat) (ds : list Z) :
  Base58.value b (repeat 0 z ++ ds) = Base58.value b ds.
Proof.
  unfold Base58.value. rewrite fold_left_app. f_equal.
  induction z as [|z IH]; [reflexivity|]. simpl. exact IH.
Qed.

Lemma value_bound (ds : list Z) :
  Forall (fun d => 0 <= d < b) ds ->
  0 <= Base58.value b ds < b ^ Z.of_nat (List.length ds).
Proof.
  intros Hds. unfold Base58.value. split.
  - exact (fold_step_ge ds 0 Hds ltac:(lia)).
  - pose proof (fold_step_lt ds 0 Hds ltac:(lia)) as H.
    unfold step in H. lia.
Qed.

End Positional.

Lemma char_digit_digit_char (d : Z) :
  0 <= d < 58 -> Base58.char_digit (Base58.digit_char d) = Some d.
Proof.
  intros Hd.
  assert (Hall : forallb
                   (fun n => match Base58.char_digit
                                     (Base58.digit_char (Z.of_nat n)) with
                             | Some d' => d' =? Z.of_nat n
                             | None => false
                             end) (seq 0 58) = true)
    by (vm_compute; reflexivity).
  rewrite forallb_forall in Hall.
  specialize (Hall (Z.to_nat d)). rewrite Z2Nat.id in Hall by lia.
  assert (Hin : In (Z.to_nat d) (seq 0 58)) by (apply in_seq; lia).
  specialize (Hall Hin).
  destruct (Base58.char_digit (Base58.digit_char d)) as [d'|]; [|discriminate].
  f_equal. lia.
Qed.

Lemma all_some_digits (ds : list Z) :
  Forall (fun d => 0 <= d < 58) ds ->
  Base58.all_some (map Base58.char_digit (map Base58.digit_char ds)) = Some ds.
Proof.
  induction 1 as [|d ds Hd _ IH]; [reflexivity|].
  simpl. rewrite (char_digit_digit_char d Hd), IH. reflexivity.
Qed.

Lemma length_string_of_list (l : list ascii) :
  String.length (string_of_list_ascii l) = List.length l.
Proof. induction l as [|a l IH]; simpl; [reflexivity | now rewrite IH]. Qed.

Lemma leading_zero_digits (z : nat) (ds : list Z) :
  head_nonzero ds ->
  Base58.leading (fun d => d =? 0) (repeat 0 z ++ ds) = z.
Proof.
  intros Hh. induction z as [|z IH]; simpl.
  - destruct ds as [|d ds]; [reflexivity|]. simpl in *.
    destruct (Z.eqb_spec d 0); [contradiction | reflexivity].
  - rewrite IH. reflexivity.
Qed.

Lemma byte_to_Z_zero (x : byte) : byte_to_Z x = 0 -> x = x00.
Proof.
  intros H. rewrite <- (byte_of_to_Z x 0), H. reflexivity.
Qed.

Lemma byte_to_Z_range (l : list byte) :
  Forall (fun d => 0 <= d < 256) (map byte_to_Z l).
Proof.
  induction l as [|x l IH]; constructor; [|exact IH].
  unfold byte_to_Z. pose proof (Byte.to_N_bounded x). lia.
Qed.

Lemma map_byte_of_to_Z (l : list byte) : map byte_of_Z (map byte_to_Z l) = l.
Proof.
  induction l as [|x l IH]; [reflexivity|]. simpl. rewrite IH. f_equal.
  rewrite <- (byte_of_to_Z x 0) at 2. f_equal. lia.
Qed.

(** A byte string is its leading zero bytes followed by a part that does not
    start with a zero byte. *)
Lemma leading_zero_bytes (bs : list byte) :
  let z := Base58.leading (fun x => byte_to_Z x =? 0) bs in
  bs = repeat x00 z ++ skipn z bs
  /\ head_nonzero (map byte_to_Z (skipn z bs))
  /\ List.length (skipn z bs) = (List.length bs - z)%nat.
Proof.
  induction bs as [|x bs IH]; [simpl; auto|].
  cbn [Base58.leading]. destruct (Z.eqb_spec (byte_to_Z x) 0) as [Hz|Hnz].
  - destruct IH as (H1 & H2 & H3). cbn zeta. cbn [repeat skipn app List.length].
    repeat split; [|exact H2 | rewrite H3; lia].
    rewrite <- H1. f_equal. apply byte_to_Z_zero. exact Hz.
  - cbn zeta. simpl. repeat split; auto.
Qed.

Lemma map_byte_to_Z_zeros (z : nat) (rest : list byte) :
  map byte_to_Z (repeat x00 z ++ rest) = repeat 0 z ++ map byte_to_Z rest.
Proof.
  rewrite map_app. f_equal. induction z; simpl; [reflexivity | now f_equal].
Qed.

(** The digits [encode] writes for [bs]. *)
Lemma encode_digits (bs : list byte) :
  let z := Base58.leading (fun x => byte_to_Z x =? 0) bs in
  let n := Base58.value 256 (map byte_to_Z bs) in
  Base58.encode bs
  = string_of_list_ascii (map Base58.digit_char (repeat 0 z ++ Base58.digits 58 n)).
Proof.
  cbv zeta. unfold Base58.encode. f_equal. rewrite map_app. f_equal.
  induction (Base58.leading _ bs); simpl; [reflexivity | now f_equal].
Qed.

Lemma decode_encode (bs : list byte) :
  Base58.decode (Base58.encode bs) = Some bs.
Proof.
  destruct (leading_zero_bytes bs) as (Hsplit & Hhead & _).
  set (z := Base58.leading (fun x => byte_to_Z x =? 0) bs) in *.
  set (rest := skipn z bs) in *.
  set (n := Base58.value 256 (map byte_to_Z bs)).
  assert (Hn : n = Base58.value 256 (map byte_to_Z rest)).
  { unfold n. rewrite Hsplit at 1.
    rewrite map_byte_to_Z_zeros. apply value_leading_zeros. }
  assert (Hn0 : 0 <= n).
  { rewrite Hn. apply (value_bound 256); [lia | apply byte_to_Z_range]. }
  rewrite encode_digits. fold z n. unfold Base58.decode.
  rewrite list_ascii_of_string_of_list_ascii.
  rewrite all_some_digits.
  2:{ apply Forall_app. split.
      - clear. induction z; constructor; [lia | assumption].
      - apply digits_range; lia. }
  rewrite leading_zero_digits by (apply digits_head; lia).
  rewrite value_leading_zeros, value_digits by lia.
  rewrite Hn, digits_value by (try lia; try apply byte_to_Z_range; exact Hhead).
  rewrite map_byte_of_to_Z, <- Hsplit. reflexivity.
Qed.

Lemma power_bound (z : nat) :
  (z <= 32)%nat -> 256 ^ Z.of_nat (32 - z) <= 58 ^ Z.of_nat (44 - z).
Proof.
  intros Hz.
  assert (Hall : forallb (fun z => 256 ^ Z.of_nat (32 - z) <=? 58 ^ Z.of_nat (44 - z))
                         (seq 0 33) = true) by (vm_compute; reflexivity).
  rewrite forallb_forall in Hall.
  specialize (Hall z ltac:(apply in_seq; lia)). cbv beta in Hall.
  apply Z.leb_le in Hall. exact Hall.
Qed.

Lemma encode_length (bs : list byte) :
  List.length bs = 32%nat -> (String.length (Base58.encode bs) <= 44)%nat.
Proof.
  intros Hlen.
  destruct (leading_zero_bytes bs) as (Hsplit & Hhead & Hrest).
  set (z := Base58.leading (fun x => byte_to_Z x =? 0) bs) in *.
  set (rest := skipn z bs) in *.
  assert (Hz : (z <= 32)%nat).
  { pose proof (f_equal (@List.length byte) Hsplit) as Hl.
    rewrite length_app, repeat_length in Hl. lia. }
  rewrite encode_digits. fold z.
  rewrite length_string_of_list, length_map, length_app, repeat_length.
  assert (Hn : Base58.value 256 (map byte_to_Z bs)
               = Base58.value 256 (map byte_to_Z rest)).
  { rewrite Hsplit at 1. rewrite map_byte_to_Z_zeros. apply value_leading_zeros. }
  rewrite Hn.
  pose proof (value_bound 256 ltac:(lia) _ (byte_to_Z_range rest)) as Hb.
  rewrite length_map, Hrest, Hlen in Hb.
  pose proof (power_bound z Hz) as Hp.
  pose proof (digits_length 58 ltac:(lia) (Base58.value 256 (map byte_to_Z rest))
                            (44 - z) ltac:(lia)).
  lia.
Qed.

Lemma encode_nonempty (bs : list byte) : bs <> [] -> Base58.encode bs <> "".
Proof.
  intros Hne Henc.
  assert (Hdec : Base58.decode (Base58.encode bs) = Some bs) by apply decode_encode.
  rewrite Henc in Hdec. vm_compute in Hdec. injection Hdec as <-. contradiction.
Qed.

(** [Pubkey.from_string(str(k))] is [k]. *)
Lemma from_string_to_string (k : Pubkey) :
  List.length k = 32%nat -> Pubkey.from_string (Pubkey.to_string k) = Ok k.
Proof.
  intros Hlen. unfold Pubkey.from_string, Pubkey.to_string,
    Pubkey.MAX_BASE58_LEN, Pubkey.LENGTH.
  pose proof (encode_length k Hlen) as Hl.
  destruct (Nat.ltb_spec 44 (String.length (Base58.encode k))); [lia|].
  rewrite decode_encode, Hlen. reflexivity.
Qed.

(** X14.  The text form of a 32-byte address is never empty, parses back to
    the address, and is different for different addresses: the pool id the
    locator keeps names one account only. *)
Theorem pubkey_text_round_trip (k1 k2 : Pubkey) :
  List.length k1 = 32%nat ->
  List.length k2 = 32%nat ->
  Pubkey.to_string k1 <> ""
  /\ (String.length (Pubkey.to_string k1) <= 44)%nat
  /\ Pubkey.from_string (Pubkey.to_string k1) = Ok k1
  /\ (Pubkey.to_string k1 = Pubkey.to_string k2 -> k1 = k2).
Proof.
  intros H1 H2. repeat split.
  - apply encode_nonempty. intros ->. discriminate H1.
  - apply encode_length. exact H1.
  - apply from_string_to_string. exact H1.
  - intros Heq.
    pose proof (from_string_to_string k1 H1) as E1.
    pose proof (from_string_to_string k2 H2) as E2.
    rewrite Heq in E1. congruence.
Qed.

Lemma pubkey_text_round_trip_witness :
  List.length WSOL = 32%nat
  /\ List.length PF_AMM = 32%nat
  /\ Pubkey.to_string WSOL <> ""
  /\ (String.length (Pubkey.to_string WSOL) <= 44)%nat
  /\ Pubkey.from_string (Pubkey.to_string WSOL) = Ok WSOL
  /\ (Pubkey.to_string WSOL = Pubkey.to_string PF_AMM -> WSOL = PF_AMM).
Proof.
  assert (H1 : List.length WSOL = 32%nat) by reflexivity.
  assert (H2 : List.length PF_AMM = 32%nat) by reflexivity.
  split; [exact H1 | split; [exact H2 |]].
  exact (pubkey_text_round_trip WSOL PF_AMM H1 H2).
Defined.

(** X15.  A located pool is decoded under its own key: for a candidate with
    a 32-byte key whose account holds 243 bytes or more, the id the locator
    stores passes the emptiness test of [__init__], and the key decoder
    given that id reads the candidate's account and returns keys whose [amm]
    is the candidate's key. *)
Theorem located_pool_is_decoded_under_its_key
        {W : Type} {remote : Remote W}
        (acct : KeyedAccount) (data : list byte) (w w' : W) :
  List.length (pubkey acct) = 32%nat ->
  get_account_data (pubkey acct) w = (Ok data, w') ->
  (243 <= List.length data)%nat ->
  Pubkey.to_string (pubkey acct) <> ""
  /\ exists keys,
      _fetch_pool_keys (Pubkey.to_string (pubkey acct)) w
      = (Ok (Some keys), w')
      /\ amm keys = pubkey acct
      /\ pool_base_token_account keys = slice 139 171 data
      /\ pool_quote_token_account keys = slice 171 203 data.
Proof.
  intros Hlen Hdata Hlong. split.
  - apply encode_nonempty. intros E. rewrite E in Hlen. discriminate Hlen.
  - eexists. split; [|split; [|split]].
    + unfold _fetch_pool_keys, try_except.
      rewrite (lift_bind_ok _ _ _ _ (from_string_to_string _ Hlen)).
      rewrite (bind_ok _ _ _ _ _ Hdata).
      rewrite (lift_bind_ok _ _ _ _ (parse_layout_at data Hlong)).
      unfold lift. rewrite (pool_keys_of_container_at _ data Hlong).
      reflexivity.
    + reflexivity.
    + reflexivity.
    + reflexivity.
Qed.

Lemma located_pool_is_decoded_under_its_key_witness :
  let remote := Fixture.scripted Fixture.three_pools in
  let acct := Fixture.pool_account xa2 x13 x14 in
  let data := encode_pool (Fixture.pool_record x11 x12) in
  List.length (pubkey acct) = 32%nat
  /\ get_account_data (pubkey acct) 0%nat = (Ok data, 1%nat)
  /\ (243 <= List.length data)%nat
  /\ Pubkey.to_string (pubkey acct) <> ""
  /\ exists keys,
      _fetch_pool_keys (Pubkey.to_string (pubkey acct)) 0%nat
      = (Ok (Some keys), 1%nat)
      /\ amm keys = pubkey acct
      /\ pool_base_token_account keys = slice 139 171 data
      /\ pool_quote_token_account keys = slice 171 203 data.
Proof.
  intros remote acct data.
  assert (H1 : List.length (pubkey acct) = 32%nat) by reflexivity.
  assert (H2 : get_account_data (pubkey acct) 0%nat = (Ok data, 1%nat))
    by reflexivity.
  assert (H3 : (243 <= List.length data)%nat) by (vm_compute; lia).
  split; [exact H1 | split; [exact H2 | split; [exact H3 |]]].
  exact (located_pool_is_decoded_under_its_key acct data 0%nat 1%nat H1 H2 H3).
Defined.
